(** * AppSumo invoice parser: extraction, normalisation and assembly

    A shallow embedding of [parse_appsumo_invoices.py] and the properties of
    its text-to-records core, followed by the id list and the download
    loop of [download_invoices_from_ids.py].

    Conventions of the model.
    - A Python [str] is a list of characters.  Characters are the 256 code
      points of Latin-1 (Rocq's [ascii]); on this alphabet the classes used
      below ([\s], [\d], [str.strip], [str.splitlines], case-insensitive
      matching of ASCII letters) are exactly Python's.
    - [None] is [None] of an [option], or [VNone] inside a row.
    - A [float] is kept as the exact decimal its literal denotes; CPython
      then rounds that decimal to the nearest binary64, a step that is the
      same function at every use and is left out.
    - A [ValueError] of [float] or [strptime] is the [None] of the library
      function's result; every call site but one sits under [try]. *)

From Stdlib Require Import String Ascii List Bool Arith ZArith NArith Lia.
From Stdlib Require Import Permutation.
Import ListNotations.

Open Scope string_scope.
Open Scope list_scope.
Open Scope nat_scope.

Definition str := list ascii.

Coercion list_ascii_of_string : string >-> list.

(** ** Python's [str] primitives *)

Module Py.

Definition ord (c : ascii) : nat := nat_of_ascii c.

Definition between (lo hi : nat) (c : ascii) : bool :=
  (lo <=? ord c) && (ord c <=? hi).

(** [str.isspace] for one character, which is also the class [\s] of a
    [str] pattern: TAB..CR, FS..US, SPACE, NEL and NBSP. *)
Definition isspace (c : ascii) : bool :=
  between 9 13 c || between 28 32 c || (ord c =? 133) || (ord c =? 160).

(** The class [\d] (Unicode category Nd) and the class [[0-9]] agree on
    this alphabet. *)
Definition isdigit (c : ascii) : bool := between 48 57 c.

Definition isupper (c : ascii) : bool := between 65 90 c.
Definition islower (c : ascii) : bool := between 97 122 c.
Definition isalpha (c : ascii) : bool := isupper c || islower c.

Definition lower (c : ascii) : ascii :=
  if isupper c then ascii_of_nat (ord c + 32) else c.

Definition upper_char (c : ascii) : ascii :=
  if islower c then ascii_of_nat (ord c - 32) else c.

(** [str.upper], on ASCII letters; the program applies it to a match of
    [PAID|REFUNDED] only. *)
Definition upper (s : str) : str := map upper_char s.

Definition eqc (a b : ascii) : bool := Ascii.eqb a b.

Fixpoint lstrip (s : str) : str :=
  match s with
  | c :: s' => if isspace c then lstrip s' else s
  | [] => []
  end.

Definition rstrip (s : str) : str := rev (lstrip (rev s)).

Definition strip (s : str) : str := rstrip (lstrip s).

(** [s.replace(old, new)] for a one-character [old]. *)
Definition replace (old : ascii) (new : str) (s : str) : str :=
  flat_map (fun c => if eqc c old then new else [c]) s.

(** [c in s] for a one-character [c]. *)
Definition contains (c : ascii) (s : str) : bool := existsb (eqc c) s.

(** [s.rfind(c)] for a one-character [c]: the highest index, or -1. *)
Fixpoint rfind_from (c : ascii) (s : str) (i : Z) (last : Z) : Z :=
  match s with
  | [] => last
  | d :: s' => rfind_from c s' (i + 1)%Z (if eqc d c then i else last)
  end.

Definition rfind (c : ascii) (s : str) : Z := rfind_from c s 0%Z (-1)%Z.

(** Line boundaries of [str.splitlines]: LF, VT, FF, CR, FS, GS, RS, NEL;
    CR LF counts as one. *)
Definition islinebreak (c : ascii) : bool :=
  between 10 13 c || between 28 30 c || (ord c =? 133).

Fixpoint splitlines_aux (s : str) (cur : str) : list str :=
  match s with
  | [] => match cur with [] => [] | _ => [rev cur] end
  | c :: s' =>
      if islinebreak c then
        rev cur ::
          match s' with
          | d :: s'' =>
              if (ord c =? 13) && (ord d =? 10)
              then splitlines_aux s'' []
              else splitlines_aux s' []
          | [] => []
          end
      else splitlines_aux s' (c :: cur)
  end.

Definition splitlines (s : str) : list str := splitlines_aux s [].

(** [sep.join(parts)]. *)
Fixpoint join (sep : str) (parts : list str) : str :=
  match parts with
  | [] => []
  | [p] => p
  | p :: ps => p ++ sep ++ join sep ps
  end.

(** [xs[i:j]] for [0 <= i <= j]. *)
Definition slice {A} (xs : list A) (i j : nat) : list A :=
  firstn (j - i) (skipn i xs).

Fixpoint str_eqb (a b : str) : bool :=
  match a, b with
  | [], [] => true
  | c :: a', d :: b' => eqc c d && str_eqb a' b'
  | _, _ => false
  end.

(** *** [float(s)]

    The value type.  [Fdec neg m e] is the decimal [(-1)^neg * m * 10^e],
    kept in lowest terms ([m] has no factor 10, and [e] is 0 for zero), so
    that two literals of one number are one value. *)
Inductive pyfloat : Type :=
| Fnan
| Finf (neg : bool)
| Fdec (neg : bool) (m : N) (e : Z).

Fixpoint norm10 (fuel : nat) (m : N) (e : Z) : N * Z :=
  match fuel with
  | 0 => (m, e)
  | S fuel' =>
      if (m mod 10 =? 0)%N then norm10 fuel' (m / 10)%N (e + 1)%Z else (m, e)
  end.

Definition digit_val (c : ascii) : N := N.of_nat (ord c - 48).

Definition digits_val (ds : str) : N :=
  fold_left (fun acc c => (acc * 10 + digit_val c)%N) ds 0%N.

(** The value of the digits [ds] scaled by [10^e]. *)
Definition decimal (neg : bool) (ds : str) (e : Z) : pyfloat :=
  let m := digits_val ds in
  if (m =? 0)%N then Fdec neg 0 0
  else let '(m', e') := norm10 (length ds) m e in Fdec neg m' e'.

(** The grammar of [float], as the language reference gives it:
<<
    digitpart   ::= digit (["_"] digit)*
    number      ::= [digitpart] "." digitpart | digitpart ["."]
    exponent    ::= ("e" | "E") [sign] digitpart
    floatvalue  ::= [sign] (number [exponent] | "inf" | "infinity" | "nan")
>>
    after surrounding whitespace is removed, letters in any case. *)
Fixpoint digitpart_tail (s : str) (acc : str) : str * str :=
  match s with
  | c :: s' =>
      if isdigit c then digitpart_tail s' (c :: acc)
      else if eqc c "_" then
        match s' with
        | d :: s'' =>
            if isdigit d then digitpart_tail s'' (d :: acc) else (rev acc, s)
        | [] => (rev acc, s)
        end
      else (rev acc, s)
  | [] => (rev acc, s)
  end.

(** The digits of the longest [digitpart] at the head of [s] (none when
    [s] does not start with a digit) and what follows it. *)
Definition digitpart (s : str) : str * str :=
  match s with
  | c :: s' => if isdigit c then digitpart_tail s' [c] else ([], s)
  | [] => ([], s)
  end.

Definition sign (s : str) : bool * str :=
  match s with
  | c :: s' =>
      if eqc c "-" then (true, s')
      else if eqc c "+" then (false, s')
      else (false, s)
  | [] => (false, s)
  end.

(** Integer digits, fraction digits and the rest, for a [number]. *)
Definition number (s : str) : option (str * str * str) :=
  let '(ip, r1) := digitpart s in
  match r1 with
  | c :: r2 =>
      if eqc c "." then
        let '(fp, r3) := digitpart r2 in
        match ip, fp with
        | [], [] => None
        | _, _ => Some (ip, fp, r3)
        end
      else match ip with [] => None | _ => Some (ip, [], r1) end
  | [] => match ip with [] => None | _ => Some (ip, [], r1) end
  end.

(** The exponent that ends the literal: its value when [s] is empty or is
    one well-formed exponent; [None] when anything else follows. *)
Definition exponent (s : str) : option Z :=
  match s with
  | [] => Some 0%Z
  | c :: s' =>
      if eqc (lower c) "e" then
        let '(neg, r) := sign s' in
        match digitpart r with
        | (d :: ds, []) =>
            let v := Z.of_N (digits_val (d :: ds)) in
            Some (if neg then (- v)%Z else v)
        | _ => None
        end
      else None
  end.

(** [int(s)] for a string of decimal digits with optional surrounding
    whitespace, the only arguments it sees here. *)
Definition int (s : str) : N := digits_val (strip s).

(** [float(s)]; [None] stands for the [ValueError]. *)
Definition float (s : str) : option pyfloat :=
  let '(neg, body) := sign (strip s) in
  let word := map lower body in
  if str_eqb word "inf" || str_eqb word "infinity" then Some (Finf neg)
  else if str_eqb word "nan" then Some Fnan
  else
    match number body with
    | Some (ip, fp, rest) =>
        match exponent rest with
        | Some ex => Some (decimal neg (ip ++ fp) (ex - Z.of_nat (length fp)))
        | None => None
        end
    | None => None
    end.

End Py.

(** ** The [re] module, for the constructs the program's patterns use

    A backtracking matcher in the list-of-successes style: [matches r s]
    lists every way [r] can match a prefix of [s], in the order in which
    CPython's engine would try them, so that its head is the match the
    engine reports at that position. *)

Module Re.

Inductive regex : Type :=
| Eps                                   (* the empty pattern *)
| Chr (p : ascii -> bool)               (* one character of a class *)
| Seq (r1 r2 : regex)                   (* r1 r2 *)
| Alt (r1 r2 : regex)                   (* r1 | r2, r1 tried first *)
| Rep (greedy : bool) (p : ascii -> bool) (lo : nat) (hi : option nat)
                                        (* a quantified class: p{lo,hi} *)
| Group (g : nat) (r : regex).          (* capturing group number g *)

(** A successful match of a prefix: its length and the groups it bound. *)
Definition captures := list (nat * str).
Definition success := (nat * captures)%type.

(** Number of leading characters of [s] in class [p]. *)
Fixpoint span (p : ascii -> bool) (s : str) : nat :=
  match s with
  | c :: s' => if p c then S (span p s') else 0
  | [] => 0
  end.

Definition cap (hi : option nat) (m : nat) : nat :=
  match hi with Some h => Nat.min h m | None => m end.

(** The repetition counts a quantifier tries, in order: [lo..m], from the
    top when greedy and from the bottom when lazy. *)
Definition counts (greedy : bool) (lo m : nat) : list nat :=
  if greedy then rev (seq lo (S m - lo)) else seq lo (S m - lo).

Fixpoint matches (r : regex) (s : str) : list success :=
  match r with
  | Eps => [(0, [])]
  | Chr p =>
      match s with
      | c :: _ => if p c then [(1, [])] else []
      | [] => []
      end
  | Seq r1 r2 =>
      flat_map
        (fun a => map (fun b => (fst a + fst b, snd a ++ snd b))
                      (matches r2 (skipn (fst a) s)))
        (matches r1 s)
  | Alt r1 r2 => matches r1 s ++ matches r2 s
  | Rep greedy p lo hi =>
      map (fun n => (n, [])) (counts greedy lo (cap hi (span p s)))
  | Group g r =>
      map (fun a => (fst a, (g, firstn (fst a) s) :: snd a)) (matches r s)
  end.

(** A match object: where the match starts, its length, its groups. *)
Record match_obj : Type := MatchObj {
  m_start : nat;
  m_len : nat;
  m_groups : captures
}.

(** [rx.match(s)]: the first success at the beginning of [s]. *)
Definition re_match (r : regex) (s : str) : option match_obj :=
  match matches r s with
  | a :: _ => Some (MatchObj 0 (fst a) (snd a))
  | [] => None
  end.

(** [rx.search(s)]: the first success at the leftmost position that has
    one; every position from 0 to [len(s)] is tried. *)
Fixpoint search_from (r : regex) (s : str) (pos : nat) : option match_obj :=
  match matches r s with
  | a :: _ => Some (MatchObj pos (fst a) (snd a))
  | [] =>
      match s with
      | [] => None
      | _ :: s' => search_from r s' (S pos)
      end
  end.

Definition search (r : regex) (s : str) : option match_obj :=
  search_from r s 0.

Fixpoint lookup_group (g : nat) (c : captures) : option str :=
  match c with
  | [] => None
  | (k, v) :: c' => if k =? g then Some v else lookup_group g c'
  end.

(** [m.group(g)].  Every group of the program's patterns lies outside any
    optional part, so it is bound in every match (see
    [program_group_bound]); the empty default is never used. *)
Definition group (m : match_obj) (g : nat) : str :=
  match lookup_group g (m_groups m) with
  | Some v => v
  | None => []
  end.

(** [m.end()]. *)
Definition m_end (m : match_obj) : nat := m_start m + m_len m.

(** *** Pattern syntax *)

Definition any (_ : ascii) : bool := true.                 (* . under re.S *)
Definition chr_is (c : ascii) (d : ascii) : bool := Py.eqc d c.
Definition chr_isi (c : ascii) (d : ascii) : bool :=       (* under re.I *)
  Py.eqc (Py.lower d) (Py.lower c).
Definition notc (c : ascii) (d : ascii) : bool := negb (Py.eqc d c).

(** A literal word, matched exactly. *)
Fixpoint lit (w : str) : regex :=
  match w with
  | [] => Eps
  | [c] => Chr (chr_is c)
  | c :: w' => Seq (Chr (chr_is c)) (lit w')
  end.

(** A literal word under [re.I]. *)
Fixpoint liti (w : str) : regex :=
  match w with
  | [] => Eps
  | [c] => Chr (chr_isi c)
  | c :: w' => Seq (Chr (chr_isi c)) (liti w')
  end.

Definition star (p : ascii -> bool) : regex := Rep true p 0 None.
Definition plus (p : ascii -> bool) : regex := Rep true p 1 None.
Definition opt (p : ascii -> bool) : regex := Rep true p 0 (Some 1).

(** [r1 r2 ... rn]. *)
Fixpoint cat (rs : list regex) : regex :=
  match rs with
  | [] => Eps
  | [r] => r
  | r :: rs' => Seq r (cat rs')
  end.

(** Group [g] is bound by every match of [r]. *)
Fixpoint binds (g : nat) (r : regex) : bool :=
  match r with
  | Eps | Chr _ | Rep _ _ _ _ => false
  | Seq r1 r2 => binds g r1 || binds g r2
  | Alt r1 r2 => binds g r1 && binds g r2
  | Group k r' => (k =? g) || binds g r'
  end.

(** [closed r s]: every attempt of [r] on [s] is settled without asking
    for a character beyond the end of [s]. *)
Fixpoint closed (r : regex) (s : str) : bool :=
  match r with
  | Eps => true
  | Chr _ => match s with [] => false | _ => true end
  | Seq r1 r2 =>
      closed r1 s &&
      forallb (fun a => closed r2 (skipn (fst a) s)) (matches r1 s)
  | Alt r1 r2 => closed r1 s && closed r2 s
  | Rep _ p _ hi =>
      (span p s <? length s) ||
      match hi with Some h => h <=? span p s | None => false end
  | Group _ r' => closed r' s
  end.

End Re.

(** ** [datetime.strptime] and [date.isoformat]

    [_strptime] turns the format into a pattern (a run of whitespace into
    [\s+], a directive into its group, any other character into itself),
    compiles it with [re.IGNORECASE], matches it at the start of the data
    and requires the match to use all of the data.  Month names are those of
    the C locale. *)

Module Datetime.
Import Re.

Record date : Type := Date { year : N; month : N; day : N }.

Definition month_name : list string :=
  ["January"; "February"; "March"; "April"; "May"; "June"; "July";
   "August"; "September"; "October"; "November"; "December"]%string.

Definition month_abbr : list string :=
  ["Jan"; "Feb"; "Mar"; "Apr"; "May"; "Jun"; "Jul"; "Aug"; "Sep"; "Oct";
   "Nov"; "Dec"]%string.

(** Groups of the directives [%B], [%d], [%Y] and [%b]. *)
Definition g_B := 1.
Definition g_d := 2.
Definition g_Y := 3.
Definition g_b := 4.

Fixpoint alternatives (rs : list regex) : regex :=
  match rs with
  | [] => Chr (fun _ => false)
  | [r] => r
  | r :: rs' => Alt r (alternatives rs')
  end.

(** Insertion by decreasing length, equal lengths in their given order: the
    order of [sorted(names, key=len, reverse=True)]. *)
Fixpoint insert_by_len (w : str) (ws : list str) : list str :=
  match ws with
  | [] => [w]
  | v :: ws' =>
      if length v <? length w then w :: ws else v :: insert_by_len w ws'
  end.

Definition by_len_desc (ws : list str) : list str :=
  fold_left (fun acc w => insert_by_len w acc) ws [].

Definition names_re (g : nat) (names : list string) : regex :=
  Group g
    (alternatives
       (map liti (by_len_desc (map list_ascii_of_string names)))).

(** [(?P<d>3[0-1]|[1-2]\d|0[1-9]|[1-9]| [1-9])] *)
Definition day_re : regex :=
  Group g_d
    (alternatives
       [Seq (Chr (chr_is "3")) (Chr (Py.between 48 49));
        Seq (Chr (Py.between 49 50)) (Chr Py.isdigit);
        Seq (Chr (chr_is "0")) (Chr (Py.between 49 57));
        Chr (Py.between 49 57);
        Seq (Chr (chr_is " ")) (Chr (Py.between 49 57))]).

(** [(?P<Y>\d\d\d\d)] *)
Definition year_re : regex :=
  Group g_Y (cat [Chr Py.isdigit; Chr Py.isdigit; Chr Py.isdigit;
                     Chr Py.isdigit]).

(** The pattern of a format string; [None] for a directive other than the
    four the program uses. *)
Fixpoint format_regex (fmt : str) : option (list regex) :=
  match fmt with
  | [] => Some []
  | c :: fmt' =>
      if Py.eqc c "%" then
        match fmt' with
        | d :: fmt'' =>
            let item :=
              if Py.eqc d "B" then Some (names_re g_B month_name)
              else if Py.eqc d "b" then Some (names_re g_b month_abbr)
              else if Py.eqc d "d" then Some day_re
              else if Py.eqc d "Y" then Some year_re
              else None in
            match item, format_regex fmt'' with
            | Some r, Some rs => Some (r :: rs)
            | _, _ => None
            end
        | [] => None
        end
      else if Py.isspace c then
        match format_regex fmt' with
        | Some rs =>
            (* a run of whitespace is one [\s+] *)
            match fmt' with
            | d :: _ => if Py.isspace d then Some rs
                        else Some (plus Py.isspace :: rs)
            | [] => Some (plus Py.isspace :: rs)
            end
        | None => None
        end
      else
        match format_regex fmt' with
        | Some rs => Some (Chr (chr_isi c) :: rs)
        | None => None
        end
  end.

Definition is_leap (y : N) : bool :=
  ((y mod 4 =? 0) && (negb (y mod 100 =? 0) || (y mod 400 =? 0)))%N.

Definition days_in_month (y m : N) : N :=
  (if m =? 2 then (if is_leap y then 29 else 28)
   else if (m =? 4) || (m =? 6) || (m =? 9) || (m =? 11) then 30
   else 31)%N.

(** The check of the [date] constructor. *)
Definition valid_date (y m d : N) : bool :=
  ((1 <=? y) && (y <=? 9999) && (1 <=? m) && (m <=? 12) &&
   (1 <=? d) && (d <=? days_in_month y m))%N.

(** Position (from 1) of a name in the locale's table, letters in any
    case; 0 when absent. *)
Fixpoint name_index (names : list string) (w : str) (i : N) : N :=
  match names with
  | [] => 0%N
  | n :: names' =>
      if Py.str_eqb (map Py.lower (list_ascii_of_string n)) (map Py.lower w)
      then i else name_index names' w (i + 1)%N
  end.

(** The fields a match found; a directive the format lacks leaves the
    default (1900, month 1, day 1). *)
Definition found_year (c : captures) : N :=
  match lookup_group g_Y c with Some w => Py.int w | None => 1900%N end.

Definition found_month (c : captures) : N :=
  match lookup_group g_B c, lookup_group g_b c with
  | Some w, _ => name_index month_name w 1%N
  | None, Some w => name_index month_abbr w 1%N
  | None, None => 1%N
  end.

Definition found_day (c : captures) : N :=
  match lookup_group g_d c with Some w => Py.int w | None => 1%N end.

(** [datetime.strptime(data, fmt).date()]; [None] stands for the
    [ValueError]. *)
Definition strptime (data : str) (fmt : str) : option date :=
  match format_regex fmt with
  | None => None
  | Some rs =>
      match re_match (cat rs) data with
      | None => None
      | Some found =>
          if negb (length data =? m_end found) then None
          else
            let y := found_year (m_groups found) in
            let m := found_month (m_groups found) in
            let d := found_day (m_groups found) in
            if valid_date y m d then Some (Date y m d) else None
      end
  end.

Definition digit_char (n : N) : ascii := ascii_of_N (48 + n mod 10).

(** [d.isoformat()], that is ["%04d-%02d-%02d"], for a valid date. *)
Definition isoformat (d : date) : str :=
  [digit_char (year d / 1000); digit_char (year d / 100);
   digit_char (year d / 10); digit_char (year d)] ++ "-" ++
  [digit_char (month d / 10); digit_char (month d)] ++ "-" ++
  [digit_char (day d / 10); digit_char (day d)].

End Datetime.

(** ** Rows

    A row is a Python [dict] with string keys: an association list in
    insertion order, in which assigning to a key already present keeps the
    key's place. *)

Inductive value : Type :=
| VNone
| VStr (s : str)
| VNum (x : Py.pyfloat).

Definition dict := list (string * value).

Fixpoint dict_get (d : dict) (k : string) : option value :=
  match d with
  | [] => None
  | (k', v) :: d' => if String.eqb k' k then Some v else dict_get d' k
  end.

(** [d[k] = v] *)
Fixpoint dict_set (d : dict) (k : string) (v : value) : dict :=
  match d with
  | [] => [(k, v)]
  | (k', v') :: d' =>
      if String.eqb k' k then (k, v) :: d' else (k', v') :: dict_set d' k v
  end.

(** [d.update(e)] *)
Definition dict_update (d e : dict) : dict :=
  fold_left (fun acc kv => dict_set acc (fst kv) (snd kv)) e d.

(** The dict a literal [{k1: v1, ...}] builds. *)
Definition dict_lit (e : dict) : dict := dict_update [] e.

Definition keys (d : dict) : list string := map fst d.

(** [d.get(k) is None]: the key is missing or holds [None]. *)
Definition get_is_none (d : dict) (k : string) : bool :=
  match dict_get d k with
  | None | Some VNone => true
  | Some _ => false
  end.

Definition of_str (o : option str) : value :=
  match o with Some s => VStr s | None => VNone end.

Definition of_num (o : option Py.pyfloat) : value :=
  match o with Some x => VNum x | None => VNone end.

(** ** The program *)

Import Re.

Definition LF : ascii := "010"%char.

(** The classes of the patterns, as they read under [re.I]. *)
Definition hexdash (c : ascii) : bool :=          (* [0-9a-f-] *)
  Py.isdigit c || Py.between 97 102 (Py.lower c) || Py.eqc c "-".
Definition alnumdash (c : ascii) : bool :=        (* [A-Z0-9\-] *)
  Py.isalpha c || Py.isdigit c || Py.eqc c "-".
Definition alnum (c : ascii) : bool :=            (* [A-Za-z0-9] *)
  Py.isalpha c || Py.isdigit c.
Definition amountc (c : ascii) : bool :=          (* [0-9\.\,] *)
  Py.isdigit c || Py.eqc c "." || Py.eqc c ",".
Definition dollar : ascii -> bool := chr_is "$".  (* \$ *)
(** [[-–]]: of its two members the en dash lies outside the alphabet of
    the model. *)
Definition dash : ascii -> bool := chr_is "-".
Definition ws : ascii -> bool := Py.isspace.      (* \s *)

Definition DATE_PATTERNS : list (string * regex) :=
  [("%B %d, %Y"%string,
    cat [liti "Date:"; star ws;
         Group 1 (cat [plus Py.isalpha; liti " ";
                       Rep true Py.isdigit 1 (Some 2); liti ", ";
                       Rep true Py.isdigit 4 (Some 4)])]);
   ("%b %d, %Y"%string,
    cat [liti "Date:"; star ws;
         Group 1 (cat [Rep true Py.isalpha 3 (Some 3); liti " ";
                       Rep true Py.isdigit 1 (Some 2); liti ", ";
                       Rep true Py.isdigit 4 (Some 4)])])].

Definition RE_INVOICE_ID : regex :=
  cat [liti "Invoice ID:"; star ws; Group 1 (Rep true hexdash 16 None)].
Definition RE_STATUS : regex :=
  cat [liti "Status:"; star ws; Group 1 (Alt (liti "PAID") (liti "REFUNDED"))].
Definition RE_PAYMENT : regex :=
  cat [liti "Payment type:"; star ws; Group 1 (plus (notc LF))].
Definition RE_TAXID : regex :=
  cat [liti "Tax ID:"; star ws; Group 1 (plus alnumdash)].

Definition RE_INVOICE_SUBTOTAL : regex :=
  cat [liti "Invoice"; plus ws; liti "subtotal"; star ws; opt dollar; star ws;
       Group 1 (plus amountc)].
Definition RE_PLAN_DISCOUNT_TOT : regex :=
  cat [liti "Total"; plus ws; liti "applied"; plus ws; liti "plan"; plus ws;
       liti "discount"; star ws; opt dash; star ws; opt dollar; star ws;
       Group 1 (plus amountc)].
Definition RE_INVOICE_TAX : regex :=
  cat [liti "Tax"; star ws; opt dollar; star ws; Group 1 (plus amountc)].
Definition RE_TOTAL_PAID : regex :=
  cat [liti "Total"; plus ws; liti "paid"; star ws; liti "(";
       plus (notc ")"); liti ")"; star ws; opt dollar; star ws;
       Group 1 (plus amountc)].

Definition RE_DEAL_PLAN : regex :=
  cat [liti "Deal"; plus ws; liti "plan:"; star ws; Group 1 (plus (notc LF))].
Definition RE_LINE_SUBTOTAL : regex :=
  cat [liti "Subtotal"; star ws; opt dollar; star ws; Group 1 (plus amountc)].
Definition RE_LINE_TOTAL : regex :=
  cat [liti "Total"; star ws; opt dollar; star ws; Group 1 (plus amountc)].
Definition RE_LINE_PLAN_DISCOUNT : regex :=
  cat [liti "Plan"; plus ws; liti "discount"; star ws; opt dash; star ws;
       opt dollar; star ws; Group 1 (plus amountc)].

(** Group 1 is the group named [name]. *)
Definition RE_PRODUCT_NAME_WITH_SUBTOTAL : regex :=
  cat [Group 1 (Seq (Chr alnum) (Rep false any 0 (Some 80)));
       plus ws; liti "Subtotal"; star ws; opt dollar; star ws;
       Group 2 (plus amountc)].

(** [([0-9]+(?:\.[0-9]{1,2})?)], the pattern of the [except] branch. *)
Definition RE_NUMBER : regex :=
  Group 1 (Seq (plus Py.isdigit)
               (Alt (Seq (Chr (chr_is ".")) (Rep true Py.isdigit 1 (Some 2)))
                    Eps)).

(** The separator rewriting of [norm_amount], lines 48 to 56. *)
Definition normalize_separators (s : str) : str :=
  let s := Py.replace " " [] (Py.strip s) in
  if Py.contains "," s && Py.contains "." s then
    if (Py.rfind "," s >? Py.rfind "." s)%Z
    then Py.replace "," "." (Py.replace "." [] s)
    else Py.replace "," [] s
  else
    if Py.contains "," s && negb (Py.contains "." s)
    then Py.replace "," "." s
    else s.

Definition norm_amount (s : option str) : option Py.pyfloat :=
  match s with
  | None | Some [] => None
  | Some s =>
      let s := normalize_separators s in
      match Py.float s with
      | Some x => Some x
      | None =>
          match search RE_NUMBER s with
          | Some m => Py.float (group m 1)
          | None => None
          end
      end
  end.

Fixpoint parse_date_in (patterns : list (string * regex)) (text : str)
  : option str :=
  match patterns with
  | [] => None
  | (fmt, rx) :: rest =>
      match search rx text with
      | Some m =>
          match Datetime.strptime (group m 1) fmt with
          | Some d => Some (Datetime.isoformat d)
          | None => parse_date_in rest text
          end
      | None => parse_date_in rest text
      end
  end.

Definition parse_date (text : str) : option str :=
  parse_date_in DATE_PATTERNS text.

(** [[ln.strip() for ln in text.splitlines() if ln.strip()]] *)
Definition nonempty_lines (text : str) : list str :=
  map Py.strip
      (filter (fun ln => negb (Py.str_eqb (Py.strip ln) []))
              (Py.splitlines text)).

(** [norm_amount(m.group(1)) if m else None] *)
Definition amount_of (m : option match_obj) : option Py.pyfloat :=
  match m with
  | Some m => norm_amount (Some (group m 1))
  | None => None
  end.

(** [m.group(1).strip() if m else None] *)
Definition stripped_of (m : option match_obj) : option str :=
  match m with
  | Some m => Some (Py.strip (group m 1))
  | None => None
  end.

(** The row of one product block, lines 103 to 115. *)
Definition product_row (m : match_obj) (window2 : str) : dict :=
  let name := Py.strip (group m 1) in
  let mplan := search RE_DEAL_PLAN window2 in
  let msub := search RE_LINE_SUBTOTAL window2 in
  let mdisc := search RE_LINE_PLAN_DISCOUNT window2 in
  let mtot := search RE_LINE_TOTAL window2 in
  dict_lit
    [("product_name"%string, VStr name);
     ("deal_plan"%string, of_str (stripped_of mplan));
     ("line_subtotal"%string, of_num (amount_of msub));
     ("line_plan_discount"%string, of_num (amount_of mdisc));
     ("line_total"%string, of_num (amount_of mtot))].

(** The state of the scan of [split_product_blocks]: the cursor [i] and
    the rows appended so far. *)
Record scan : Type := Scan { cursor : nat; rows : list dict }.

Definition window (lines : list str) (i width : nat) : str :=
  Py.join [LF] (Py.slice lines i (i + width)).

(** One turn of the [while] loop, lines 100 to 118. *)
Definition scan_step (lines : list str) (st : scan) : scan :=
  let i := cursor st in
  match search RE_PRODUCT_NAME_WITH_SUBTOTAL (window lines i 12) with
  | Some m =>
      Scan (i + 6) (rows st ++ [product_row m (window lines i 25)])
  | None => Scan (i + 1) (rows st)
  end.

(** The loop, run for at most [fuel] turns; [None] when the fuel runs out
    before the condition [i < len(lines)] fails. *)
Fixpoint scan_loop (fuel : nat) (lines : list str) (st : scan)
  : option (list dict) :=
  if cursor st <? length lines then
    match fuel with
    | 0 => None
    | S fuel' => scan_loop fuel' lines (scan_step lines st)
    end
  else Some (rows st).

(** [len(lines)] turns are enough ([scan_loop_terminates]), so the default
    is never taken. *)
Definition split_product_blocks (text : str) : list dict :=
  let lines := nonempty_lines text in
  match scan_loop (length lines) lines (Scan 0 []) with
  | Some rows => rows
  | None => []
  end.

(** The truth value of an [Optional[str]]. *)
Definition truthy (o : option str) : bool :=
  match o with
  | None | Some [] => false
  | Some _ => true
  end.

(** Lines 140 to 144. *)
Definition backfill (prod_rows : list dict)
    (total_paid inv_subtotal : option Py.pyfloat) : list dict :=
  match prod_rows with
  | [r] =>
      let r :=
        match total_paid with
        | Some tp =>
            if get_is_none r "line_total"
            then dict_set r "line_total" (VNum tp) else r
        | None => r
        end in
      let r :=
        match inv_subtotal with
        | Some st =>
            if get_is_none r "line_subtotal"
            then dict_set r "line_subtotal" (VNum st) else r
        | None => r
        end in
      [r]
  | _ => prod_rows
  end.

(** The header variables of [parse_invoice_text], lines 122 to 136, each
    under the name the function gives it. *)
Definition invoice_id (text : str) : option str :=
  option_map (fun m => group m 1) (search RE_INVOICE_ID text).
Definition invoice_stat (text : str) : option str :=
  option_map (fun m => Py.upper (group m 1)) (search RE_STATUS text).
Definition payment_type (text : str) : option str :=
  stripped_of (search RE_PAYMENT text).
Definition inv_date (text : str) : option str := parse_date text.
Definition tax_id (text : str) : option str :=
  stripped_of (search RE_TAXID text).
Definition inv_subtotal (text : str) : option Py.pyfloat :=
  amount_of (search RE_INVOICE_SUBTOTAL text).
Definition plan_disc_tot (text : str) : option Py.pyfloat :=
  amount_of (search RE_PLAN_DISCOUNT_TOT text).
Definition inv_tax (text : str) : option Py.pyfloat :=
  amount_of (search RE_INVOICE_TAX text).
Definition total_paid (text : str) : option Py.pyfloat :=
  amount_of (search RE_TOTAL_PAID text).

Definition parse_invoice_text (text : str) : list dict :=
  let invoice_id := invoice_id text in
  let invoice_stat := invoice_stat text in
  let payment_type := payment_type text in
  let inv_date := inv_date text in
  let tax_id := tax_id text in
  let inv_subtotal := inv_subtotal text in
  let plan_disc_tot := plan_disc_tot text in
  let inv_tax := inv_tax text in
  let total_paid := total_paid text in

  let prod_rows := split_product_blocks text in
  let prod_rows := backfill prod_rows total_paid inv_subtotal in

  if (length prod_rows =? 0) && truthy invoice_id then
    [dict_lit
       [("invoice_id"%string, of_str invoice_id);
        ("invoice_status"%string, of_str invoice_stat);
        ("invoice_date"%string, of_str inv_date);
        ("payment_type"%string, of_str payment_type);
        ("tax_id"%string, of_str tax_id);
        ("product_name"%string, VNone);
        ("deal_plan"%string, VNone);
        ("line_subtotal"%string, VNone);
        ("line_plan_discount"%string, VNone);
        ("line_total"%string, VNone);
        ("invoice_subtotal"%string, of_num inv_subtotal);
        ("invoice_plan_discount_total"%string, of_num plan_disc_tot);
        ("invoice_tax"%string, of_num inv_tax);
        ("invoice_total_paid"%string, of_num total_paid)]]
  else
    map (fun r =>
           dict_update r
             [("invoice_id"%string, of_str invoice_id);
              ("invoice_status"%string, of_str invoice_stat);
              ("invoice_date"%string, of_str inv_date);
              ("payment_type"%string, of_str payment_type);
              ("tax_id"%string, of_str tax_id);
              ("invoice_subtotal"%string, of_num inv_subtotal);
              ("invoice_plan_discount_total"%string, of_num plan_disc_tot);
              ("invoice_tax"%string, of_num inv_tax);
              ("invoice_total_paid"%string, of_num total_paid)])
        prod_rows.

(** What [main] does with the text of one PDF, lines 201 to 203: parse it
    and record the file on every row. *)
Definition main_rows (pdf : str) (text : str) : list dict :=
  map (fun r => dict_set r "_source_file" (VStr pdf))
      (parse_invoice_text text).

(** ** Vocabulary of the statements *)

(** [w] is at the head of [s], letters in any case. *)
Fixpoint starts_with_i (w s : str) : bool :=
  match w, s with
  | [], _ => true
  | c :: w', d :: s' => Re.chr_isi c d && starts_with_i w' s'
  | _ :: _, [] => false
  end.

(** [w] occurs somewhere in [s], letters in any case. *)
Fixpoint occurs_i (w s : str) : bool :=
  starts_with_i w s ||
  match s with
  | [] => false
  | _ :: s' => occurs_i w s'
  end.

(** No match of [r] starts at any of the first [n] positions of [s]. *)
Definition no_match_before (r : Re.regex) (s : str) (n : nat) : Prop :=
  forall q, q < n -> Re.matches r (skipn q s) = [].

(** The keys of a product row, and those the header adds. *)
Definition line_keys : list string :=
  ["product_name"; "deal_plan"; "line_subtotal"; "line_plan_discount";
   "line_total"]%string.

Definition header_keys : list string :=
  ["invoice_id"; "invoice_status"; "invoice_date"; "payment_type"; "tax_id";
   "invoice_subtotal"; "invoice_plan_discount_total"; "invoice_tax";
   "invoice_total_paid"]%string.

(** A row with exactly the five line keys, in the order of the literal. *)
Definition line_row (r : dict) : Prop :=
  exists v1 v2 v3 v4 v5,
    r = [("product_name"%string, v1); ("deal_plan"%string, v2);
         ("line_subtotal"%string, v3); ("line_plan_discount"%string, v4);
         ("line_total"%string, v5)].

Definition is_none {A} (o : option A) : bool :=
  match o with None => true | Some _ => false end.

(** The keys of an emitted row in the order the output contract lists
    them, with the key [main] writes and with the key the contract names. *)
Definition row_keys : list string :=
  ["invoice_id"; "invoice_status"; "invoice_date"; "payment_type"; "tax_id";
   "product_name"; "deal_plan"; "line_subtotal"; "line_plan_discount";
   "line_total"; "invoice_subtotal"; "invoice_plan_discount_total";
   "invoice_tax"; "invoice_total_paid"]%string.

Definition written_keys : list string := row_keys ++ ["_source_file"%string].

Definition contract_keys : list string :=
  row_keys ++ ["source_document_reference"%string].

(** Two rows agree on the five line-item fields. *)
Definition same_line_fields (r r' : dict) : Prop :=
  forall k, In k line_keys -> dict_get r' k = dict_get r k.

(** All five line-item fields of a row are [None]. *)
Definition line_fields_null (r : dict) : Prop :=
  forall k, In k line_keys -> dict_get r k = Some VNone.

(** A document with an invoice id and no product block. *)
Definition doc_header_only : str := "Invoice ID: 0123456789abcdef
Status: paid".

(** A document with one product block whose total pattern captures a
    token without a digit, and a total paid of 42.00. *)
Definition doc_one_block : str := "Invoice ID: 0123456789abcdef
Widget
Subtotal .
Total paid (USD) $42.00".

Definition amount_42 : Py.pyfloat := Py.Fdec false 42 0.

(** ** The AmountNormalizer of the specification

    Written from the words of the specification (section 4.1), for
    comparison with [norm_amount]. *)

Module SpecAmount.

Inductive separator : Type := Comma | Dot.

Definition sep_char (d : separator) : ascii :=
  match d with Comma => ","%char | Dot => "."%char end.

Definition other (d : separator) : separator :=
  match d with Comma => Dot | Dot => Comma end.

Definition is_sep (d : separator) (c : ascii) : bool := Py.eqc c (sep_char d).

(** "trim and strip internal spaces first" *)
Definition trim_spaces (s : str) : str :=
  filter (fun c => negb (Py.eqc c " ")) (Py.strip s).

Definition appears (d : separator) (s : str) : bool := existsb (is_sep d) s.

(** "the character appearing later in the string": the separator seen
    last when the string is read from left to right. *)
Fixpoint later_of (s : str) (seen : option separator) : option separator :=
  match s with
  | [] => seen
  | c :: s' =>
      later_of s' (if is_sep Comma c then Some Comma
                   else if is_sep Dot c then Some Dot else seen)
  end.

(** "is the decimal separator; the other is a thousands separator and is
    removed" *)
Definition with_decimal (d : separator) (s : str) : str :=
  map (fun c => if is_sep d c then "."%char else c)
      (filter (fun c => negb (is_sep (other d) c)) s).

Definition decimal_point (s : str) : str :=
  if appears Comma s && appears Dot s then
    match later_of s None with
    | Some d => with_decimal d s
    | None => s
    end
  else if appears Comma s then
    (* "If only , appears, treat it as the decimal separator" *)
    map (fun c => if is_sep Comma c then "."%char else c) s
  else s.  (* "If only . appears, leave unchanged" *)

Fixpoint take_digits (s : str) : str :=
  match s with
  | c :: s' => if Py.isdigit c then c :: take_digits s' else []
  | [] => []
  end.

Fixpoint drop_digits (s : str) : str :=
  match s with
  | c :: s' => if Py.isdigit c then drop_digits s' else s
  | [] => []
  end.

(** "an integer with an optional 1-2 digit fractional part", read at the
    head of [s], as long as it can be. *)
Definition number_at (s : str) : str :=
  take_digits s ++
  match drop_digits s with
  | c :: rest =>
      if Py.eqc c "." then
        match firstn 2 (take_digits rest) with
        | [] => []
        | frac => c :: frac
        end
      else []
  | [] => []
  end.

(** "the first substring matching ..." *)
Fixpoint first_number (s : str) : option str :=
  match s with
  | [] => None
  | c :: s' => if Py.isdigit c then Some (number_at s) else first_number s'
  end.

Definition AmountNormalizer (s : option str) : option Py.pyfloat :=
  match s with
  | None => None
  | Some s =>
      let t := decimal_point (trim_spaces s) in
      match Py.float t with
      | Some x => Some x
      | None =>
          match first_number t with
          | Some w => Py.float w
          | None => None
          end
      end
  end.

End SpecAmount.

(** [s] has a decimal digit. *)
Definition has_digit (s : str) : bool := existsb Py.isdigit s.

(** ** Auxiliary notions of the proofs *)

(** How the two [rfind]s and the separator seen last stand to each other
    while the string is read. *)
Definition later_inv (seen : option SpecAmount.separator) (lc ld : Z) : Prop :=
  match seen with
  | None => lc = (-1)%Z /\ ld = (-1)%Z
  | Some SpecAmount.Comma => (ld < lc)%Z
  | Some SpecAmount.Dot => (lc < ld)%Z
  end.

(** The optional fraction of [RE_NUMBER], at the text [t] that follows the
    integer part: its first success. *)
Definition frac_len (t : str) : nat :=
  match t with
  | c :: rest =>
      if Py.eqc c "." then
        match Re.span Py.isdigit rest with
        | 0 => 0
        | S k => 1 + Nat.min 2 (S k)
        end
      else 0
  | [] => 0
  end.

(** The date a pattern and its format yield from the pattern's first
    match in the text. *)
Definition date_by (fmt : string) (rx : Re.regex) (text : str) : option str :=
  match Re.search rx text with
  | Some m => option_map Datetime.isoformat (Datetime.strptime (Re.group m 1) fmt)
  | None => None
  end.

(** The first value that is not [None]. *)
Fixpoint first_some {A} (os : list (option A)) : option A :=
  match os with
  | [] => None
  | Some a :: _ => Some a
  | None :: os' => first_some os'
  end.

(** The pattern of the [n]-th entry of [DATE_PATTERNS]. *)
Definition date_rx (n : nat) : Re.regex := nth n (map snd DATE_PATTERNS) Re.Eps.

(** Group 1 of the match of [r] at the head of [s]. *)
Definition value_at (r : Re.regex) (s : str) : option str :=
  option_map (fun m => Re.group m 1) (Re.re_match r s).

(** The earliest match of [r] in [pre ++ rest] starts where [rest] does. *)
Definition earliest (r : Re.regex) (pre rest : str) : Prop :=
  no_match_before r (pre ++ rest) (length pre) /\ Re.matches r rest <> [].

(** [norm_amount(g) if g is found else None] *)
Definition amount_at (g : option str) : option Py.pyfloat :=
  match g with Some w => norm_amount (Some w) | None => None end.

(** Two dates under the label, the first one impossible. *)
Definition doc_two_dates : str := "Date: June 31, 2023
Date: Jul 4, 2023".

Definition march_5 : str := "Date: March 5, 2023".

(** An invoice id given twice, after a line of another field. *)
Definition doc_two_ids_pre : str := "Status: PAID
".
Definition doc_two_ids_rest : str := "Invoice ID: 0123456789abcdef
Invoice ID: ffffffffffffffff0000".

(** No character of [w] reads as [x] under [re.I]. *)
Definition avoids (w : str) (x : ascii) : Prop :=
  forall c, In c w -> Re.chr_isi c x = false.

(** [t] is a piece of [s]. *)
Definition piece (t s : str) : Prop := exists a b, s = a ++ t ++ b.

(** What follows the label in the subtotal, total and name patterns, with
    the amount in group [g]. *)
Definition amount_tail (g : nat) : Re.regex :=
  Re.cat [Re.star ws; Re.opt dollar; Re.star ws; Re.Group g (Re.plus amountc)].

(** A row that the scan built at some cursor where the name pattern
    matched. *)
Definition block_row (lines : list str) (r : dict) : Prop :=
  exists i m,
    Re.search RE_PRODUCT_NAME_WITH_SUBTOTAL (window lines i 12) = Some m /\
    r = product_row m (window lines i 25).

(** A block with its own total line. *)
Definition doc_block_with_total : str := "Widget Pro
Deal plan: Tier 1
Subtotal $49.00
Plan discount -$4.90
Total $44.10
Total paid (USD) $44.10".

(** A total label with a token that has no digit, above a block with a
    subtotal of 49.00. *)
Definition doc_total_without_digit : str := "Total .
Widget
Subtotal $49.00
Total paid (USD) $42.00".

Definition amount_49 : Py.pyfloat := Py.Fdec false 49 0.

(** ** Documents as lines *)

(** The text of a document given line by line, each line ended by a line
    feed. *)
Definition unlines (ls : list str) : str :=
  concat (map (fun l => l ++ [LF]) ls).

(** Every attempt of [r] that starts in the line [l] is settled within
    the line and its line feed: none runs on into the next line. *)
Definition line_local (r : Re.regex) (l : str) : bool :=
  forallb (fun q => Re.closed r (skipn q (l ++ [LF])))
          (seq 0 (S (length l))).

(** Group 1 of the first match of [r] within the line. *)
Definition line_value (r : Re.regex) (l : str) : option str :=
  option_map (fun m => Re.group m 1) (Re.search r (l ++ [LF])).

Definition matching_lines (r : Re.regex) (ls : list str) : list str :=
  filter (fun l => negb (is_none (line_value r l))) ls.

(** The field of pattern [r] is written on single lines of [ls], and on
    one of them at most. *)
Definition one_line_field (r : Re.regex) (ls : list str) : Prop :=
  (forall l, In l ls -> line_local r l = true) /\
  length (matching_lines r ls) <= 1.

(** The patterns of the header fields. *)
Definition header_patterns : list Re.regex :=
  [RE_INVOICE_ID; RE_STATUS; RE_PAYMENT; RE_TAXID; RE_INVOICE_SUBTOTAL;
   RE_PLAN_DISCOUNT_TOT; RE_INVOICE_TAX; RE_TOTAL_PAID]
  ++ map snd DATE_PATTERNS.

(** The nine header fields of a text, in the order of [header_keys]. *)
Definition header_values (text : str) : list value :=
  [of_str (invoice_id text); of_str (invoice_stat text);
   of_str (inv_date text); of_str (payment_type text); of_str (tax_id text);
   of_num (inv_subtotal text); of_num (plan_disc_tot text);
   of_num (inv_tax text); of_num (total_paid text)].

(** Three labeled lines, the payment type without a value on its line, in
    two orders. *)
Definition lines_payment_first : list str :=
  [list_ascii_of_string "Payment type:"; list_ascii_of_string "Status: PAID";
   list_ascii_of_string "Tax ID: AB-1"].
Definition lines_payment_first' : list str :=
  [list_ascii_of_string "Payment type:"; list_ascii_of_string "Tax ID: AB-1";
   list_ascii_of_string "Status: PAID"].

(** Four labeled lines with their values, in two orders. *)
Definition lines_complete : list str :=
  [list_ascii_of_string "Status: PAID";
   list_ascii_of_string "Tax ID: AB-1";
   list_ascii_of_string "Invoice ID: 0123456789abcdef";
   list_ascii_of_string "Tax $1.50"].
Definition lines_complete' : list str :=
  [list_ascii_of_string "Invoice ID: 0123456789abcdef";
   list_ascii_of_string "Tax $1.50";
   list_ascii_of_string "Status: PAID";
   list_ascii_of_string "Tax ID: AB-1"].

(** The patterns each header field is read with, in the order of
    [header_values]. *)
Definition field_patterns : list (list Re.regex) :=
  [[RE_INVOICE_ID]; [RE_STATUS]; map snd DATE_PATTERNS; [RE_PAYMENT];
   [RE_TAXID]; [RE_INVOICE_SUBTOTAL]; [RE_PLAN_DISCOUNT_TOT];
   [RE_INVOICE_TAX]; [RE_TOTAL_PAID]].

(** Group 1 of the first match of [r] in the text. *)
Definition found (r : Re.regex) (text : str) : option str :=
  option_map (fun m => Re.group m 1) (Re.search r text).

(** Every pattern of the program. *)
Definition program_patterns : list Re.regex :=
  header_patterns ++
  [RE_DEAL_PLAN; RE_LINE_SUBTOTAL; RE_LINE_TOTAL; RE_LINE_PLAN_DISCOUNT;
   RE_PRODUCT_NAME_WITH_SUBTOTAL; RE_NUMBER].

(** ** Vocabulary of the further properties *)

(** [r] has no capturing group. *)
Fixpoint groupless (r : Re.regex) : bool :=
  match r with
  | Re.Eps | Re.Chr _ | Re.Rep _ _ _ _ => true
  | Re.Seq r1 r2 | Re.Alt r1 r2 => groupless r1 && groupless r2
  | Re.Group _ _ => false
  end.

(** A finite decimal that is not negative. *)
Definition finite_nonneg (x : Py.pyfloat) : Prop :=
  exists m e, x = Py.Fdec false m e.

(** A digit or a point. *)
Definition digit_or_dot (c : ascii) : bool := Py.isdigit c || Py.eqc c ".".

(** Every number a row holds is a finite decimal that is not negative. *)
Definition amounts_finite (r : dict) : Prop :=
  forall k x, dict_get r k = Some (VNum x) -> finite_nonneg x.

(** The patterns whose group 1 is an amount token. *)
Definition amount_patterns : list Re.regex :=
  [RE_INVOICE_SUBTOTAL; RE_PLAN_DISCOUNT_TOT; RE_INVOICE_TAX; RE_TOTAL_PAID;
   RE_LINE_SUBTOTAL; RE_LINE_TOTAL; RE_LINE_PLAN_DISCOUNT].

(** The first character of [s], if any, is not whitespace. *)
Definition head_clean (s : str) : Prop :=
  match s with
  | c :: _ => Py.isspace c = false
  | [] => True
  end.

(** A comma for a point and a point for a comma. *)
Definition swap_sep (c : ascii) : ascii :=
  if Py.eqc c "," then "."%char else if Py.eqc c "." then ","%char else c.

(** ** The loop of [main] *)





(** A document with every header field and one product block. *)
Definition doc_full : str := "Invoice ID: 0123456789abcdef
Status: paid
Date: March 5, 2023
Payment type: Credit Card 
Tax ID: ES-B1234
Widget Pro
Deal plan: Tier 1
Subtotal $49.00
Plan discount -$4.90
Total $44.10
Invoice subtotal $49.00
Total applied plan discount -$4.90
Tax $1,50
Total paid (USD) $45.60
".

(** ** A line of the segmenter *)

(** What every element of [lines] in [split_product_blocks] is: not empty,
    without a line boundary inside, without whitespace at either end. *)
Definition no_linebreak (l : str) : bool :=
  forallb (fun c => negb (Py.islinebreak c)) l.
Definition clean_line (l : str) : Prop :=
  l <> [] /\ no_linebreak l = true /\ head_clean l /\ head_clean (rev l).

(** * The downloader, [download_invoices_from_ids.py] *)

(** ** Invoice ids of a text file *)

(** [$] without [re.M]: the end of the string, or the line feed that ends
    it. *)
Definition at_dollar (rest : str) : bool :=
  match rest with
  | [] => true
  | [c] => Py.eqc c LF
  | _ => false
  end.

(** [re.match(r"^[0-9a-f-]{16,}$", x, re.I)] finds a match: some count of
    the repetition ends where [$] holds. *)
Definition is_id (x : str) : bool :=
  existsb (fun a => at_dollar (skipn (fst a) x))
          (matches (Rep true hexdash 16 None) x).

(** [list(dict.fromkeys(ids))]: each key enters the dict once, at its
    first occurrence. *)
Definition fromkeys (ids : list str) : list str :=
  fold_left (fun d x => if existsb (Py.str_eqb x) d then d else d ++ [x])
            ids [].

(** [collect_ids_from_txt], on the text of the file. *)
Definition collect_ids_from_txt (text : str) : list str :=
  fromkeys (filter is_id (map Py.strip (Py.splitlines text))).

(** ** The download loop *)

(** What one pass through the [try] body comes to: a response with its
    [ok] flag and body; an exception before anything is written; or an
    exception after [write_bytes] has left [written] in the file and
    before [done] is counted up. *)
Inductive response : Type :=
| Resp (ok : bool) (body : str)
| Raised
| Broke (written : str).

(** [PDF_URL_TMPL.format(invoice_id=inv)] and [f"invoice-{inv}.pdf"] *)
Definition pdf_url (inv : str) : str :=
  "https://appsumo.com/account/history/pdf/" ++ inv ++ "/".
Definition invoice_file (inv : str) : str := "invoice-" ++ inv ++ ".pdf".

(** The directory [out_dir]: file names and contents. *)
Definition files := list (str * str).

Definition file_exists (fs : files) (name : str) : bool :=
  existsb (fun f => Py.str_eqb (fst f) name) fs.

Fixpoint read_bytes (fs : files) (name : str) : option str :=
  match fs with
  | f :: fs' => if Py.str_eqb (fst f) name then Some (snd f)
                else read_bytes fs' name
  | [] => None
  end.

(** [fname.write_bytes(body)] creates the file or replaces its contents. *)
Fixpoint write_bytes (fs : files) (name body : str) : files :=
  match fs with
  | f :: fs' => if Py.str_eqb (fst f) name then (name, body) :: fs'
                else f :: write_bytes fs' name body
  | [] => [(name, body)]
  end.

(** The state of the loop: the counter [done], the directory, and the urls
    requested so far. *)
Record run : Type := Run {
  run_done : Z;
  run_files : files;
  run_requests : list str
}.

(** [limit and done >= limit], for [limit] an [int] or [None]. *)
Definition limit_reached (limit : option Z) (done : Z) : bool :=
  match limit with
  | Some l => negb (l =? 0)%Z && (l <=? done)%Z
  | None => false
  end.

(** [for i, inv in enumerate(ids, 1): ...]; [get i url] is the outcome of
    the request of the [i]-th iteration. *)
Fixpoint download_loop (get : nat -> str -> response) (limit : option Z)
    (i : nat) (ids : list str) (st : run) : run :=
  match ids with
  | [] => st
  | inv :: rest =>
      if limit_reached limit (run_done st) then st
      else
        let url := pdf_url inv in
        let fname := invoice_file inv in
        if file_exists (run_files st) fname
        then download_loop get limit (S i) rest st
        else
          match get i url with
          | Resp true body =>
              download_loop get limit (S i) rest
                (Run (run_done st + 1)
                     (write_bytes (run_files st) fname body)
                     (run_requests st ++ [url]))
          | Broke written =>
              download_loop get limit (S i) rest
                (Run (run_done st)
                     (write_bytes (run_files st) fname written)
                     (run_requests st ++ [url]))
          | Resp false _ | Raised =>
              download_loop get limit (S i) rest
                (Run (run_done st) (run_files st) (run_requests st ++ [url]))
          end
  end.

(** [download_all]; [state_file] tells whether [storage_state.json]
    exists, and the session page is taken to open. *)
Definition download_all (state_file : bool) (get : nat -> str -> response)
    (ids : list str) (fs : files) (limit : option Z) : run :=
  if state_file then download_loop get limit 1 ids (Run 0 fs [])
  else Run 0 fs [].

(** A directory with one invoice, two ids, and a server that answers
    every request. *)
Definition dir_one : files :=
  [(invoice_file "0123456789abcdef", list_ascii_of_string "old")].
Definition two_ids : list str :=
  [list_ascii_of_string "0123456789abcdef";
   list_ascii_of_string "fedcba9876543210"].
Definition get_ok (i : nat) (url : str) : response :=
  Resp true (list_ascii_of_string "new").

(** A number that is not NaN and not below zero; rounding the decimal to
    binary64 keeps this. *)
Definition not_negative (x : Py.pyfloat) : Prop :=
  match x with
  | Py.Fnan => False
  | Py.Finf neg | Py.Fdec neg _ _ => neg = false
  end.

(** A document with one product block that has a subtotal line and no
    total line, and a total paid of 42.00. *)
Definition doc_block_no_total : str := "Invoice ID: 0123456789abcdef
Widget
Subtotal $49.00
Total paid (USD) $42.00".

(** * Facts about the matcher *)

Module ReFacts.
Import Re.

Lemma in_counts greedy lo m n :
  In n (counts greedy lo m) <-> lo <= n <= m.
Proof.
  unfold counts. destruct greedy; [rewrite <- in_rev|]; rewrite in_seq; lia.
Qed.

Lemma span_le p s : span p s <= length s.
Proof. induction s as [|c s IH]; simpl; [lia|]. destruct (p c); simpl; lia. Qed.

Lemma cap_le hi m : cap hi m <= m.
Proof. destruct hi; simpl; lia. Qed.

Lemma span_app_lt p s x : span p s < length s -> span p (s ++ x) = span p s.
Proof.
  induction s as [|c s IH]; simpl; [lia|]. destruct (p c); [|reflexivity].
  intros H. f_equal. apply IH. lia.
Qed.

Lemma span_app_ge p s x : span p s <= span p (s ++ x).
Proof.
  induction s as [|c s IH]; simpl; [lia|]. destruct (p c); lia.
Qed.

Lemma flat_map_ext_in' {A B} (f g : A -> list B) l :
  (forall a, In a l -> f a = g a) -> flat_map f l = flat_map g l.
Proof.
  induction l as [|a l IH]; simpl; intros H; [reflexivity|].
  rewrite H by auto. f_equal. apply IH. auto.
Qed.

(** A match never reads past the end of the text. *)
Lemma matches_len r : forall s a, In a (matches r s) -> fst a <= length s.
Proof.
  induction r as [|p|r1 IH1 r2 IH2|r1 IH1 r2 IH2|g p lo hi|g r IH];
    simpl; intros s a H.
  - destruct H as [<-|[]]. simpl. lia.
  - destruct s as [|c s]; [contradiction|]. destruct (p c); [|contradiction].
    destruct H as [<-|[]]. simpl. lia.
  - apply in_flat_map in H. destruct H as [a1 [H1 H]].
    apply in_map_iff in H. destruct H as [a2 [<- H2]]. simpl.
    apply IH1 in H1. apply IH2 in H2. rewrite length_skipn in H2.
    unfold success, captures in *. lia.
  - apply in_app_or in H. destruct H; auto.
  - apply in_map_iff in H. destruct H as [n [<- H]]. simpl.
    apply in_counts in H. pose proof (cap_le hi (span p s)).
    pose proof (span_le p s). lia.
  - apply in_map_iff in H. destruct H as [b [<- H]]. simpl. auto.
Qed.

Lemma skipn_app_le {A} n (s x : list A) :
  n <= length s -> skipn n (s ++ x) = skipn n s ++ x.
Proof.
  intros H. rewrite skipn_app. replace (n - length s) with 0 by lia.
  reflexivity.
Qed.

Lemma firstn_app_le {A} n (s x : list A) :
  n <= length s -> firstn n (s ++ x) = firstn n s.
Proof.
  intros H. rewrite firstn_app. replace (n - length s) with 0 by lia.
  simpl. apply app_nil_r.
Qed.

(** Appending text keeps every match there was. *)
Lemma matches_app_in r :
  forall s x a, In a (matches r s) -> In a (matches r (s ++ x)).
Proof.
  induction r as [|p|r1 IH1 r2 IH2|r1 IH1 r2 IH2|g p lo hi|g r IH];
    simpl; intros s x a H.
  - exact H.
  - destruct s as [|c s]; [contradiction|]. exact H.
  - apply in_flat_map in H. destruct H as [a1 [H1 H]].
    apply in_map_iff in H. destruct H as [a2 [<- H2]].
    apply in_flat_map. exists a1. split; [auto|].
    apply in_map_iff. exists a2. split; [reflexivity|].
    rewrite skipn_app_le by (eapply matches_len; eauto). auto.
  - apply in_app_or in H. apply in_or_app. destruct H; auto.
  - apply in_map_iff in H. destruct H as [n [<- H]].
    apply in_map_iff. exists n. split; [reflexivity|].
    apply in_counts in H. apply in_counts.
    pose proof (span_app_ge p s x). destruct hi; simpl in *; lia.
  - apply in_map_iff in H. destruct H as [b [<- H]].
    apply in_map_iff. exists b. split; [|auto].
    rewrite firstn_app_le by (eapply matches_len; eauto). reflexivity.
Qed.

(** Text after a closed attempt does not change its outcome. *)
Lemma matches_closed r :
  forall s x, closed r s = true -> matches r (s ++ x) = matches r s.
Proof.
  induction r as [|p|r1 IH1 r2 IH2|r1 IH1 r2 IH2|g p lo hi|g r IH];
    simpl; intros s x H.
  - reflexivity.
  - destruct s; [discriminate|reflexivity].
  - apply andb_true_iff in H. destruct H as [H1 H2].
    rewrite IH1 by assumption.
    rewrite forallb_forall in H2.
    apply flat_map_ext_in'. intros a Ha.
    rewrite skipn_app_le by (eapply matches_len; eauto).
    rewrite IH2 by auto. reflexivity.
  - apply andb_true_iff in H. destruct H as [H1 H2].
    rewrite IH1, IH2 by assumption. reflexivity.
  - f_equal. f_equal. apply orb_true_iff in H. destruct H as [H|H].
    + apply Nat.ltb_lt in H. rewrite span_app_lt by assumption. reflexivity.
    + destruct hi as [h|]; [|discriminate]. apply Nat.leb_le in H.
      pose proof (span_app_ge p s x). simpl. lia.
  - rewrite IH by assumption. apply map_ext_in. intros a Ha.
    rewrite firstn_app_le by (eapply matches_len; eauto). reflexivity.
Qed.

End ReFacts.

Module SearchFacts.
Import Re ReFacts.

Lemma search_from_hit r s pos a l :
  matches r s = a :: l ->
  search_from r s pos = Some (MatchObj pos (fst a) (snd a)).
Proof. intros H. destruct s; simpl; rewrite H; reflexivity. Qed.

Lemma search_from_miss r c s pos :
  matches r (c :: s) = [] ->
  search_from r (c :: s) pos = search_from r s (S pos).
Proof. intros H. simpl search_from. rewrite H. reflexivity. Qed.

Lemma search_from_nil_miss r pos :
  matches r [] = [] -> search_from r [] pos = None.
Proof. intros H. simpl. rewrite H. reflexivity. Qed.

(** The search skips a prefix in which no match starts. *)
Lemma search_from_skip r pre : forall rest pos,
  no_match_before r (pre ++ rest) (length pre) ->
  search_from r (pre ++ rest) pos = search_from r rest (pos + length pre).
Proof.
  induction pre as [|c pre IH]; intros rest pos H; simpl.
  - f_equal. lia.
  - assert (H0 : matches r (c :: pre ++ rest) = []) by (apply (H 0); simpl; lia).
    change (search_from r (c :: pre ++ rest) pos =
            search_from r rest (pos + S (length pre))).
    rewrite search_from_miss by assumption. rewrite IH.
    + f_equal. lia.
    + intros q Hq. apply (H (S q)). simpl. lia.
Qed.

Lemma search_from_none r : forall s pos,
  search_from r s pos = None <->
  no_match_before r s (S (length s)).
Proof.
  induction s as [|c s IH]; intros pos.
  - simpl. split.
    + intros H q Hq. replace q with 0 by lia. simpl.
      destruct (matches r []); [reflexivity|discriminate].
    + intros H. pose proof (H 0 ltac:(simpl; lia)) as H0. simpl in H0.
      rewrite H0. reflexivity.
  - split.
    + intros H q Hq. simpl in H.
      destruct (matches r (c :: s)) eqn:E; [|discriminate].
      destruct q; [exact E|]. simpl. apply (proj1 (IH (S pos)) H). simpl in Hq. lia.
    + intros H. rewrite search_from_miss by (apply (H 0); simpl; lia).
      apply IH. intros q Hq. apply (H (S q)). simpl. lia.
Qed.

(** A reported match is the first success at the leftmost position that
    has one. *)
Lemma search_from_some r : forall s pos m,
  search_from r s pos = Some m ->
  exists k a l,
    k <= length s /\ no_match_before r s k /\
    matches r (skipn k s) = a :: l /\
    m = MatchObj (pos + k) (fst a) (snd a).
Proof.
  induction s as [|c s IH]; intros pos m H.
  - simpl in H. destruct (matches r []) as [|a l] eqn:E; [discriminate|].
    exists 0, a, l. repeat split; auto.
    + intros q Hq. lia.
    + inversion H. f_equal. lia.
  - simpl in H. destruct (matches r (c :: s)) as [|a l] eqn:E.
    + apply IH in H. destruct H as [k [a [l [Hk [Hn [Hm ->]]]]]].
      exists (S k), a, l. repeat split; simpl; auto; try lia.
      * intros q Hq. destruct q; [exact E|]. simpl. apply Hn. lia.
      * f_equal. lia.
    + exists 0, a, l. repeat split; simpl; auto; try lia.
      * intros q Hq. lia.
      * inversion H. f_equal. lia.
Qed.

Lemma group_at p q n c g :
  group (MatchObj p n c) g = group (MatchObj q n c) g.
Proof. reflexivity. Qed.

(** The groups of a search do not depend on the start of the count. *)
Lemma search_from_groups r : forall s p q,
  option_map m_groups (search_from r s p) =
  option_map m_groups (search_from r s q).
Proof.
  induction s as [|c s IH]; intros p q; simpl.
  - destruct (matches r []); reflexivity.
  - destruct (matches r (c :: s)); [apply IH|reflexivity].
Qed.

Lemma matches_liti w : forall s,
  matches (liti w) s = if starts_with_i w s then [(length w, [])] else [].
Proof.
  induction w as [|c w IH]; intros s; [reflexivity|].
  destruct w as [|c' w].
  - simpl. destruct s as [|d s]; [reflexivity|].
    destruct (chr_isi c d); reflexivity.
  - change (liti (c :: c' :: w)) with (Seq (Chr (chr_isi c)) (liti (c' :: w))).
    change (starts_with_i (c :: c' :: w) s) with
      (match s with d :: s' => chr_isi c d && starts_with_i (c' :: w) s'
                  | [] => false end).
    simpl matches at 1.
    destruct s as [|d s]; [reflexivity|].
    destruct (chr_isi c d); [|reflexivity]. simpl flat_map.
    rewrite IH. destruct (starts_with_i (c' :: w) s); reflexivity.
Qed.

Lemma matches_seq_nil r1 r2 s :
  matches r1 s = [] -> matches (Seq r1 r2) s = [].
Proof. simpl. intros ->. reflexivity. Qed.

(** A pattern that begins with a literal word matches only where the
    word stands. *)
Lemma matches_liti_seq_nil w r s :
  starts_with_i w s = false -> matches (Seq (liti w) r) s = [].
Proof.
  intros H. apply matches_seq_nil. rewrite matches_liti, H. reflexivity.
Qed.

Lemma search_liti_absent w r : forall s pos,
  occurs_i w s = false -> search_from (Seq (liti w) r) s pos = None.
Proof.
  induction s as [|c s IH]; intros pos H.
  - simpl in H. rewrite orb_false_r in H.
    apply search_from_nil_miss, matches_liti_seq_nil. assumption.
  - simpl in H. apply orb_false_iff in H. destruct H as [H1 H2].
    rewrite search_from_miss by (apply matches_liti_seq_nil; assumption).
    apply IH. assumption.
Qed.

End SearchFacts.

(** * The segmenter's loop *)

Module ScanFacts.
Import Re ReFacts SearchFacts.

Lemma scan_loop_unfold fuel lines st :
  scan_loop fuel lines st =
  if cursor st <? length lines then
    match fuel with
    | 0 => None
    | S fuel' => scan_loop fuel' lines (scan_step lines st)
    end
  else Some (rows st).
Proof. destruct fuel; reflexivity. Qed.

Lemma scan_step_cursor lines st :
  cursor (scan_step lines st) =
  cursor st +
  (if is_none (search RE_PRODUCT_NAME_WITH_SUBTOTAL
                      (window lines (cursor st) 12))
   then 1 else 6).
Proof.
  unfold scan_step.
  destruct (search RE_PRODUCT_NAME_WITH_SUBTOTAL _); reflexivity.
Qed.

Lemma scan_step_advances lines st : cursor st < cursor (scan_step lines st).
Proof.
  rewrite scan_step_cursor.
  destruct (is_none _); lia.
Qed.

(** The loop ends within as many turns as there are lines left. *)
Lemma scan_loop_total lines : forall fuel st,
  length lines - cursor st <= fuel ->
  exists out, scan_loop fuel lines st = Some out.
Proof.
  induction fuel as [|fuel IH]; intros st H; rewrite scan_loop_unfold.
  - destruct (cursor st <? length lines) eqn:E; [|eauto].
    apply Nat.ltb_lt in E. lia.
  - destruct (cursor st <? length lines) eqn:E; [|eauto].
    apply Nat.ltb_lt in E. apply IH.
    pose proof (scan_step_advances lines st). lia.
Qed.

Lemma scan_loop_terminates text :
  scan_loop (length (nonempty_lines text)) (nonempty_lines text) (Scan 0 [])
  = Some (split_product_blocks text).
Proof.
  unfold split_product_blocks.
  destruct (scan_loop_total (nonempty_lines text)
              (length (nonempty_lines text)) (Scan 0 [])) as [out E].
  - simpl. lia.
  - rewrite E. reflexivity.
Qed.

(** What holds of the rows at the start and is kept by every turn holds
    of the rows returned. *)
Lemma scan_loop_invariant (P : list dict -> Prop) lines :
  (forall st, P (rows st) -> P (rows (scan_step lines st))) ->
  forall fuel st out,
    P (rows st) -> scan_loop fuel lines st = Some out -> P out.
Proof.
  intros Hstep. induction fuel as [|fuel IH]; intros st out HP H;
    rewrite scan_loop_unfold in H;
    destruct (cursor st <? length lines); try discriminate.
  - inversion H; subst; assumption.
  - eapply IH; [|exact H]. auto.
  - inversion H; subst; assumption.
Qed.

Lemma product_row_line_row m w : line_row (product_row m w).
Proof. unfold line_row, product_row. do 5 eexists. reflexivity. Qed.

Lemma split_product_blocks_rows text :
  Forall line_row (split_product_blocks text).
Proof.
  apply (scan_loop_invariant (Forall line_row) (nonempty_lines text))
    with (fuel := length (nonempty_lines text)) (st := Scan 0 []).
  - intros st H. unfold scan_step.
    destruct (search RE_PRODUCT_NAME_WITH_SUBTOTAL _); simpl; [|assumption].
    apply Forall_app. split; [assumption|].
    constructor; [apply product_row_line_row|constructor].
  - constructor.
  - apply scan_loop_terminates.
Qed.

End ScanFacts.

(** * Matches of composite patterns *)

Module MatchFacts.
Import Re ReFacts SearchFacts.

Lemma in_matches_seq r1 r2 s a :
  In a (matches (Seq r1 r2) s) <->
  exists a1 a2,
    In a1 (matches r1 s) /\ In a2 (matches r2 (skipn (fst a1) s)) /\
    a = (fst a1 + fst a2, snd a1 ++ snd a2).
Proof.
  simpl. rewrite in_flat_map. split.
  - intros [a1 [H1 H]]. apply in_map_iff in H. destruct H as [a2 [<- H2]].
    exists a1, a2. auto.
  - intros [a1 [a2 [H1 [H2 ->]]]]. exists a1. split; [assumption|].
    apply in_map_iff. exists a2. auto.
Qed.

Lemma in_matches_group g r s a :
  In a (matches (Group g r) s) <->
  exists b, In b (matches r s) /\ a = (fst b, (g, firstn (fst b) s) :: snd b).
Proof.
  simpl. rewrite in_map_iff. split; intros [b [H1 H2]]; exists b; auto.
Qed.

Lemma in_matches_rep greedy p lo hi s a :
  In a (matches (Rep greedy p lo hi) s) <->
  exists n, a = (n, []) /\ lo <= n <= cap hi (span p s).
Proof.
  simpl. rewrite in_map_iff. split; intros [n [H1 H2]]; exists n.
  - apply in_counts in H2. auto.
  - split; [auto|]. apply in_counts. assumption.
Qed.

Lemma in_matches_liti w s a :
  In a (matches (liti w) s) <->
  a = (length w, []) /\ starts_with_i w s = true.
Proof.
  rewrite matches_liti. destruct (starts_with_i w s); simpl.
  - split; [intros [<-|[]]; auto | intros [-> _]; auto].
  - split; [contradiction | intros [_ H]; discriminate].
Qed.

(** The value of a group in a reported match comes from a success of the
    pattern at some position of the text. *)
Lemma search_some_in r s m :
  search r s = Some m ->
  exists k a, k <= length s /\ In a (matches r (skipn k s)) /\
              m_groups m = snd a /\ m_start m = k /\ m_len m = fst a.
Proof.
  intros H. apply search_from_some in H.
  destruct H as [k [a [l [Hk [_ [Hm ->]]]]]].
  exists k, a. rewrite Hm. simpl. auto.
Qed.

(** An invoice id, when found, has at least 16 characters. *)
Lemma invoice_id_length text g :
  invoice_id text = Some g -> 16 <= length g.
Proof.
  unfold invoice_id. destruct (search RE_INVOICE_ID text) as [m|] eqn:E;
    [|discriminate].
  intros H. inversion H as [Hg]. clear H.
  apply search_some_in in E. destruct E as [k [a [_ [Ha [Hc _]]]]].
  unfold group. rewrite Hc. clear Hc Hg.
  unfold RE_INVOICE_ID in Ha. cbn [cat] in Ha.
  apply in_matches_seq in Ha. destruct Ha as [a1 [a2 [H1 [H2 ->]]]].
  apply in_matches_liti in H1. destruct H1 as [-> _].
  apply in_matches_seq in H2. destruct H2 as [b1 [b2 [H3 [H4 ->]]]].
  apply in_matches_rep in H3. destruct H3 as [n [-> _]].
  apply in_matches_group in H4. destruct H4 as [c [H5 ->]].
  apply in_matches_rep in H5. destruct H5 as [n' [-> [Hlo Hhi]]].
  cbn [fst snd app lookup_group Nat.eqb]. rewrite length_firstn.
  cbn [cap fst] in Hhi.
  match type of Hhi with _ <= span _ ?t => pose proof (span_le hexdash t) end.
  unfold str in *. lia.
Qed.

Lemma invoice_id_truthy text :
  truthy (invoice_id text) = negb (is_none (invoice_id text)).
Proof.
  destruct (invoice_id text) as [g|] eqn:E; [|reflexivity].
  apply invoice_id_length in E. destruct g; [simpl in E; lia|reflexivity].
Qed.

End MatchFacts.

(** * The assembler *)

Module AssembleFacts.
Import Re ScanFacts MatchFacts.

(** Abstracts the header values that a proof does not look into. *)
Ltac header_vars text :=
  unfold parse_invoice_text; cbv zeta;
  generalize (invoice_stat text) (payment_type text) (inv_date text)
             (tax_id text) (plan_disc_tot text) (inv_tax text);
  intros stat pay dt tax disc itx.

Lemma backfill_length rows tp st :
  length (backfill rows tp st) = length rows.
Proof.
  unfold backfill. destruct rows as [|r [|r' rows]]; reflexivity.
Qed.

Lemma dict_get_set d k v k' :
  dict_get (dict_set d k v) k' =
  if String.eqb k k' then Some v else dict_get d k'.
Proof.
  induction d as [|[k0 v0] d IH]; simpl.
  - reflexivity.
  - destruct (String.eqb k0 k) eqn:E0; simpl.
    + apply String.eqb_eq in E0. subst k0.
      destruct (String.eqb k k'); reflexivity.
    + destruct (String.eqb k0 k') eqn:E1.
      * apply String.eqb_eq in E1. subst k0. rewrite String.eqb_sym, E0.
        reflexivity.
      * exact IH.
Qed.

Lemma keys_dict_set_present d k v :
  In k (keys d) -> keys (dict_set d k v) = keys d.
Proof.
  induction d as [|[k0 v0] d IH]; simpl; [contradiction|].
  intros H. destruct (String.eqb k0 k) eqn:E; simpl.
  - apply String.eqb_eq in E. subst. reflexivity.
  - f_equal. apply IH. destruct H as [H|H]; [|assumption].
    subst. rewrite String.eqb_refl in E. discriminate.
Qed.

Lemma backfill_other rows tp st :
  length rows <> 1 -> backfill rows tp st = rows.
Proof.
  unfold backfill. destruct rows as [|r [|r' rows]]; simpl; intros H;
    [reflexivity|lia|reflexivity].
Qed.

(** The backfill leaves a product row a product row. *)
Lemma backfill_rows rows tp st :
  Forall line_row rows -> Forall line_row (backfill rows tp st).
Proof.
  intros H. unfold backfill. destruct rows as [|r [|r' rows]]; try assumption.
  inversion H as [|? ? Hr _]; subst. constructor; [|constructor].
  destruct Hr as [v1 [v2 [v3 [v4 [v5 ->]]]]].
  destruct tp as [tp|], st as [st|];
    unfold get_is_none; simpl; destruct v3, v5; simpl;
    unfold line_row; do 5 eexists; reflexivity.
Qed.

(** With one product row, what the backfill and the update leave in the
    line-item fields. *)
Lemma single_row text r :
  split_product_blocks text = [r] ->
  exists r', parse_invoice_text text = [r'] /\
    dict_get r' "line_total" =
      match total_paid text with
      | Some tp => if get_is_none r "line_total" then Some (VNum tp)
                   else dict_get r "line_total"
      | None => dict_get r "line_total"
      end /\
    dict_get r' "line_subtotal" =
      match inv_subtotal text with
      | Some st => if get_is_none r "line_subtotal" then Some (VNum st)
                   else dict_get r "line_subtotal"
      | None => dict_get r "line_subtotal"
      end /\
    (forall k, k = "product_name"%string \/ k = "deal_plan"%string \/
               k = "line_plan_discount"%string ->
               dict_get r' k = dict_get r k).
Proof.
  intros H. pose proof (split_product_blocks_rows text) as HR.
  header_vars text. rewrite H in *.
  inversion HR as [|? ? Hr _]; subst.
  destruct Hr as [v1 [v2 [v3 [v4 [v5 ->]]]]].
  generalize (invoice_id text). intros iid.
  destruct (total_paid text) as [tp|], (inv_subtotal text) as [st|];
    destruct v3, v5;
    (eexists; split; [reflexivity|]; split; [reflexivity|];
     split; [reflexivity|];
     intros k [->|[->| ->]]; reflexivity).
Qed.

End AssembleFacts.

(** * Keys of the rows *)

Module KeyFacts.
Import Re ScanFacts MatchFacts AssembleFacts.

Lemma keys_dict_set_absent d k v :
  ~ In k (keys d) -> keys (dict_set d k v) = keys d ++ [k].
Proof.
  induction d as [|[k0 v0] d IH]; simpl; intros H; [reflexivity|].
  destruct (String.eqb k0 k) eqn:E.
  - apply String.eqb_eq in E. subst. contradiction H. auto.
  - simpl. f_equal. apply IH. tauto.
Qed.

(** A row of [parse_invoice_text] has its fourteen keys in one of two
    orders: that of the header-only literal, or the line keys followed by
    the keys the update adds. *)
Lemma parse_invoice_text_keys text r :
  In r (parse_invoice_text text) ->
  keys r = row_keys \/ keys r = line_keys ++ header_keys.
Proof.
  pose proof (split_product_blocks_rows text) as HR.
  header_vars text.
  generalize (invoice_id text). intros iid.
  generalize (total_paid text) (inv_subtotal text). intros tp st.
  apply (backfill_rows _ tp st) in HR.
  destruct ((length (backfill (split_product_blocks text) tp st) =? 0)
            && truthy iid).
  - intros [<-|[]]. left. reflexivity.
  - intros H. apply in_map_iff in H. destruct H as [r0 [<- H0]].
    rewrite Forall_forall in HR. apply HR in H0.
    destruct H0 as [v1 [v2 [v3 [v4 [v5 ->]]]]]. right. reflexivity.
Qed.

Lemma line_header_keys_perm : Permutation (line_keys ++ header_keys) row_keys.
Proof.
  exact (Permutation_app_tail
           ["invoice_subtotal"; "invoice_plan_discount_total"; "invoice_tax";
            "invoice_total_paid"]%string
           (Permutation_app_comm line_keys
              ["invoice_id"; "invoice_status"; "invoice_date"; "payment_type";
               "tax_id"]%string)).
Qed.

End KeyFacts.

(** * The amount normaliser *)

Module AmountFacts.
Import Re ReFacts SearchFacts MatchFacts SpecAmount.

Lemma eqc_eq a b : Py.eqc a b = true <-> a = b.
Proof. apply Ascii.eqb_eq. Qed.

Lemma eqc_sym a b : Py.eqc a b = Py.eqc b a.
Proof. apply Ascii.eqb_sym. Qed.

Lemma replace_nil c s :
  Py.replace c [] s = filter (fun d => negb (Py.eqc d c)) s.
Proof.
  unfold Py.replace. induction s as [|d s IH]; simpl; [reflexivity|].
  destruct (Py.eqc d c); simpl; rewrite IH; reflexivity.
Qed.

Lemma replace_one c e s :
  Py.replace c [e] s = map (fun d => if Py.eqc d c then e else d) s.
Proof.
  unfold Py.replace. induction s as [|d s IH]; simpl; [reflexivity|].
  destruct (Py.eqc d c); simpl; rewrite IH; reflexivity.
Qed.

Lemma contains_appears d s : Py.contains (sep_char d) s = appears d s.
Proof.
  unfold Py.contains, appears, is_sep. induction s as [|c s IH]; simpl;
    [reflexivity|]. rewrite IH, eqc_sym. reflexivity.
Qed.


Lemma rfind_later s : forall i lc ld seen,
  (lc < i)%Z -> (ld < i)%Z -> later_inv seen lc ld ->
  later_inv (later_of s seen)
            (Py.rfind_from "," s i lc) (Py.rfind_from "." s i ld).
Proof.
  induction s as [|c s IH]; intros i lc ld seen Hc Hd Hinv; simpl;
    [exact Hinv|].
  unfold is_sep; simpl sep_char.
  destruct (Py.eqc c ",") eqn:E1.
  - apply eqc_eq in E1. subst c. simpl Py.eqc.
    apply IH; simpl; lia.
  - destruct (Py.eqc c ".") eqn:E2.
    + apply IH; simpl; lia.
    + apply IH; try lia. exact Hinv.
Qed.

Lemma later_of_some s : forall d, later_of s (Some d) <> None.
Proof.
  induction s as [|c s IH]; intros d; simpl; [discriminate|].
  destruct (is_sep Comma c); [apply IH|]. destruct (is_sep Dot c); apply IH.
Qed.

Lemma later_of_none s :
  later_of s None = None -> appears Comma s = false /\ appears Dot s = false.
Proof.
  induction s as [|c s IH]; simpl; intros H; [auto|].
  destruct (is_sep Comma c); [apply later_of_some in H; contradiction|].
  destruct (is_sep Dot c); [apply later_of_some in H; contradiction|].
  simpl. auto.
Qed.

Lemma filter_none {A} (p : A -> bool) l :
  existsb p l = false -> filter (fun x => negb (p x)) l = l.
Proof.
  induction l as [|x l IH]; simpl; [reflexivity|].
  intros H. apply orb_false_iff in H. destruct H as [H1 H2].
  rewrite H1. simpl. f_equal. auto.
Qed.

Lemma map_id_dot s :
  map (fun c => if is_sep Dot c then "."%char else c) s = s.
Proof.
  induction s as [|c s IH]; simpl; [reflexivity|]. rewrite IH. f_equal.
  unfold is_sep. simpl. destruct (Py.eqc c ".") eqn:E; [|reflexivity].
  apply eqc_eq in E. auto.
Qed.

(** The separator rewriting of the code is that of the specification. *)
Lemma normalize_separators_spec s :
  normalize_separators s = decimal_point (trim_spaces s).
Proof.
  unfold normalize_separators, decimal_point. cbv zeta.
  cbn [list_ascii_of_string].
  rewrite replace_nil. fold (trim_spaces s). generalize (trim_spaces s).
  clear s. intros s.
  change ","%char with (sep_char Comma). change "."%char with (sep_char Dot).
  rewrite !contains_appears. cbn [sep_char].
  destruct (appears Comma s) eqn:EC, (appears Dot s) eqn:ED; simpl andb;
    cbv iota.
  - pose proof (rfind_later s 0%Z (-1)%Z (-1)%Z None) as H.
    unfold Py.rfind. simpl later_inv in H.
    specialize (H ltac:(lia) ltac:(lia) (conj eq_refl eq_refl)).
    destruct (later_of s None) as [[|]|] eqn:EL; simpl in H.
    + replace (_ >? _)%Z with true by (symmetry; apply Z.gtb_lt; lia).
      unfold with_decimal. rewrite replace_one, replace_nil. reflexivity.
    + replace (_ >? _)%Z with false
        by (symmetry; rewrite Z.gtb_ltb; apply Z.ltb_ge; lia).
      unfold with_decimal. rewrite replace_nil. simpl other.
      rewrite map_id_dot. reflexivity.
    + apply later_of_none in EL. destruct EL as [EL _].
      rewrite EL in EC. discriminate.
  - rewrite replace_one. reflexivity.
  - reflexivity.
  - reflexivity.
Qed.

End AmountFacts.
Module NumberFacts.
Import Re ReFacts SearchFacts MatchFacts SpecAmount AmountFacts.

Lemma counts_greedy_head lo m :
  lo <= m -> counts true lo m = m :: rev (seq lo (m - lo)).
Proof.
  intros H. unfold counts. replace (S m - lo) with (S (m - lo)) by lia.
  rewrite seq_S, rev_app_distr. simpl. f_equal. f_equal. lia.
Qed.

Lemma take_digits_span s : take_digits s = firstn (span Py.isdigit s) s.
Proof.
  induction s as [|c s IH]; simpl; [reflexivity|].
  destruct (Py.isdigit c); simpl; [rewrite IH|]; reflexivity.
Qed.

Lemma drop_digits_span s : drop_digits s = skipn (span Py.isdigit s) s.
Proof.
  induction s as [|c s IH]; simpl; [reflexivity|].
  destruct (Py.isdigit c); simpl; [rewrite IH|]; reflexivity.
Qed.

Lemma length_take_digits s : length (take_digits s) = span Py.isdigit s.
Proof.
  rewrite take_digits_span, length_firstn. pose proof (span_le Py.isdigit s).
  lia.
Qed.


Lemma matches_fraction t :
  exists l,
    matches (Alt (Seq (Chr (chr_is ".")) (Rep true Py.isdigit 1 (Some 2)))
                 Eps) t
    = (frac_len t, []) :: l.
Proof.
  cbn [matches]. destruct t as [|c rest]; [eexists; reflexivity|].
  unfold chr_is, frac_len. destruct (Py.eqc c "."); [|eexists; reflexivity].
  cbn [flat_map fst snd skipn app cap].
  destruct (span Py.isdigit rest) as [|k] eqn:E.
  - eexists; reflexivity.
  - rewrite counts_greedy_head by lia. cbn [map app]. eexists. reflexivity.
Qed.

Lemma number_at_firstn s :
  number_at s =
  firstn (span Py.isdigit s + frac_len (skipn (span Py.isdigit s) s)) s.
Proof.
  unfold number_at. rewrite drop_digits_span, take_digits_span.
  set (n := span Py.isdigit s).
  rewrite <- (firstn_skipn n s) at 4.
  rewrite firstn_app, length_firstn.
  pose proof (span_le Py.isdigit s). fold n in H.
  replace (Nat.min n (length s)) with n by lia.
  rewrite firstn_firstn. replace (Nat.min (n + _) n) with n by lia.
  f_equal. replace (n + frac_len (skipn n s) - n) with (frac_len (skipn n s))
    by lia.
  destruct (skipn n s) as [|c rest]; [reflexivity|].
  unfold frac_len. destruct (Py.eqc c "."); [|reflexivity].
  rewrite take_digits_span, firstn_firstn.
  destruct (span Py.isdigit rest) as [|k] eqn:E; [reflexivity|].
  pose proof (span_le Py.isdigit rest).
  destruct rest as [|d rest]; [simpl in E; discriminate|].
  destruct k; reflexivity.
Qed.

End NumberFacts.
Module NumberSearch.
Import Re ReFacts SearchFacts MatchFacts SpecAmount AmountFacts NumberFacts.

Lemma matches_number_none s :
  span Py.isdigit s = 0 -> matches RE_NUMBER s = [].
Proof.
  intros H. unfold RE_NUMBER, plus. cbn [matches]. rewrite H. reflexivity.
Qed.

Lemma matches_number_some s :
  0 < span Py.isdigit s ->
  exists l,
    matches RE_NUMBER s
    = (length (number_at s), [(1, number_at s)]) :: l.
Proof.
  intros H. unfold RE_NUMBER, plus.
  change (matches (Group 1 ?r) s)
    with (map (fun a => (fst a, (1, firstn (fst a) s) :: snd a))
              (matches r s)).
  change (matches (Seq ?r1 ?r2) s)
    with (flat_map
            (fun a => map (fun b => (fst a + fst b, snd a ++ snd b))
                          (matches r2 (skipn (fst a) s)))
            (matches r1 s)).
  change (matches (Rep true Py.isdigit 1 None) s)
    with (map (fun n => (n, @nil (nat * str)))
              (counts true 1 (span Py.isdigit s))).
  rewrite counts_greedy_head by lia. cbn [map flat_map fst snd].
  destruct (matches_fraction (skipn (span Py.isdigit s) s)) as [l ->].
  cbn [map app fst snd]. rewrite number_at_firstn.
  eexists. f_equal. f_equal. rewrite length_firstn.
  pose proof (span_le Py.isdigit s).
  assert (frac_len (skipn (span Py.isdigit s) s)
          <= length (skipn (span Py.isdigit s) s)).
  { generalize (skipn (span Py.isdigit s) s). intros t.
    unfold frac_len. destruct t as [|c rest]; cbn [length]; [lia|].
    destruct (Py.eqc c "."); [|lia].
    pose proof (span_le Py.isdigit rest).
    destruct (span Py.isdigit rest); lia. }
  rewrite length_skipn in H1. lia.
Qed.

(** The search of the [except] branch finds the first number of the
    specification. *)
Lemma search_number s : forall pos,
  option_map (fun m => group m 1) (search_from RE_NUMBER s pos)
  = first_number s.
Proof.
  induction s as [|c s IH]; intros pos.
  - reflexivity.
  - cbn [first_number]. destruct (Py.isdigit c) eqn:E.
    + destruct (matches_number_some (c :: s)) as [l Hl].
      { simpl. rewrite E. lia. }
      rewrite (search_from_hit _ _ _ _ _ Hl). reflexivity.
    + rewrite search_from_miss.
      * apply IH.
      * apply matches_number_none. simpl. rewrite E. reflexivity.
Qed.

End NumberSearch.
Module FloatFacts.
Import Re ReFacts SearchFacts MatchFacts SpecAmount AmountFacts NumberFacts
       NumberSearch.

(** What being a digit excludes. *)
Lemma digit_char c :
  Py.isdigit c = true ->
  Py.isspace c = false /\ Py.eqc c "-" = false /\ Py.eqc c "+" = false /\
  Py.eqc c "." = false /\ Py.eqc c "_" = false /\ Py.eqc c " " = false /\
  Py.eqc c "," = false /\
  Py.eqc (Py.lower c) "i" = false /\ Py.eqc (Py.lower c) "n" = false /\
  Py.eqc (Py.lower c) "e" = false.
Proof.
  destruct c as [[] [] [] [] [] [] [] []]; vm_compute; intros H;
    try discriminate H; repeat split; reflexivity.
Qed.

Lemma lstrip_head c s : Py.isspace c = false -> Py.lstrip (c :: s) = c :: s.
Proof. intros H. simpl. rewrite H. reflexivity. Qed.

Lemma forallb_rev {A} (p : A -> bool) l : forallb p (rev l) = forallb p l.
Proof.
  induction l as [|x l IH]; simpl; [reflexivity|].
  rewrite forallb_app, IH. simpl. rewrite andb_true_r. apply andb_comm.
Qed.

(** Stripping a string without whitespace changes nothing. *)
Lemma strip_nospace s :
  forallb (fun c => negb (Py.isspace c)) s = true -> Py.strip s = s.
Proof.
  intros H. unfold Py.strip, Py.rstrip.
  assert (L : forall t, forallb (fun c => negb (Py.isspace c)) t = true ->
                        Py.lstrip t = t).
  { intros [|c t] Ht; [reflexivity|]. simpl in Ht.
    apply andb_true_iff in Ht. destruct Ht as [Hc _].
    apply lstrip_head. destruct (Py.isspace c); [discriminate|reflexivity]. }
  rewrite (L s H). rewrite L by (rewrite forallb_rev; exact H).
  apply rev_involutive.
Qed.

Lemma digitpart_tail_digits ds : forall acc rest,
  forallb Py.isdigit ds = true ->
  match rest with
  | c :: _ => Py.isdigit c = false /\ Py.eqc c "_" = false
  | [] => True
  end ->
  Py.digitpart_tail (ds ++ rest) acc = (rev acc ++ ds, rest).
Proof.
  induction ds as [|d ds IH]; intros acc rest Hd Hr.
  - simpl. rewrite app_nil_r. destruct rest as [|c rest]; [reflexivity|].
    destruct Hr as [H1 H2]. simpl. rewrite H1, H2. reflexivity.
  - simpl in Hd. apply andb_true_iff in Hd. destruct Hd as [H1 H2].
    simpl. rewrite H1. rewrite IH by assumption. simpl.
    rewrite <- app_assoc. reflexivity.
Qed.

Lemma digitpart_digits d ds rest :
  forallb Py.isdigit (d :: ds) = true ->
  match rest with
  | c :: _ => Py.isdigit c = false /\ Py.eqc c "_" = false
  | [] => True
  end ->
  Py.digitpart ((d :: ds) ++ rest) = (d :: ds, rest).
Proof.
  intros Hd Hr. simpl in Hd. apply andb_true_iff in Hd. destruct Hd as [H1 H2].
  simpl. rewrite H1. apply (digitpart_tail_digits ds [d] rest H2 Hr).
Qed.

(** [float] accepts digits, optionally followed by a point and digits. *)
Lemma float_decimal d ds frac :
  forallb Py.isdigit (d :: ds) = true ->
  forallb Py.isdigit frac = true ->
  (frac = [] -> Py.float (d :: ds) <> None) /\
  (frac <> [] -> Py.float ((d :: ds) ++ "."%char :: frac) <> None).
Proof.
  intros Hd Hf.
  assert (Hd' := Hd). simpl in Hd'. apply andb_true_iff in Hd'.
  destruct Hd' as [Hc _]. apply digit_char in Hc.
  destruct Hc as [Hsp [Hm [Hp [Hdot [Hu [_ [_ [Hi [Hn He]]]]]]]]].
  assert (NS : forall l, forallb Py.isdigit l = true ->
                         forallb (fun c => negb (Py.isspace c)) l = true).
  { intros l Hl. rewrite forallb_forall in *. intros x Hx.
    apply Hl in Hx. apply digit_char in Hx. destruct Hx as [-> _].
    reflexivity. }
  split.
  - intros _. unfold Py.float.
    rewrite strip_nospace by (apply NS; exact Hd).
    unfold Py.sign. rewrite Hm, Hp.
    cbn [map Py.str_eqb list_ascii_of_string]. rewrite Hi, Hn. cbn [andb orb].
    unfold Py.number.
    rewrite <- (app_nil_r (d :: ds)) at 1.
    rewrite digitpart_digits by (auto; exact I).
    cbn [Py.exponent]. discriminate.
  - intros Hne. unfold Py.float.
    rewrite strip_nospace.
    2:{ rewrite forallb_app. rewrite NS by exact Hd. simpl.
        rewrite NS by exact Hf. reflexivity. }
    unfold Py.sign. cbn [app]. rewrite Hm, Hp.
    cbn [map Py.str_eqb list_ascii_of_string]. rewrite Hi, Hn. cbn [andb orb].
    unfold Py.number.
    change (d :: ds ++ "."%char :: frac) with ((d :: ds) ++ "."%char :: frac).
    rewrite digitpart_digits; [|exact Hd|split; reflexivity].
    cbn [Py.eqc Ascii.eqb Bool.eqb]. 
    destruct frac as [|f frac]; [contradiction|].
    rewrite <- (app_nil_r (f :: frac)).
    rewrite digitpart_digits by (auto; exact I).
    cbn [Py.exponent]. discriminate.
Qed.

End FloatFacts.
Module NormFacts.
Import Re ReFacts SearchFacts MatchFacts SpecAmount AmountFacts NumberFacts
       NumberSearch FloatFacts.

Lemma take_digits_all s : forallb Py.isdigit (take_digits s) = true.
Proof.
  induction s as [|c s IH]; simpl; [reflexivity|].
  destruct (Py.isdigit c) eqn:E; simpl; [rewrite E, IH|]; reflexivity.
Qed.

Lemma forallb_firstn {A} (p : A -> bool) n l :
  forallb p l = true -> forallb p (firstn n l) = true.
Proof.
  revert l. induction n as [|n IH]; intros [|x l] H; simpl in *; auto.
  apply andb_true_iff in H. destruct H as [-> H]. simpl. auto.
Qed.

Lemma float_number_at c s :
  Py.isdigit c = true -> Py.float (number_at (c :: s)) <> None.
Proof.
  intros Hc. unfold number_at. cbn [take_digits drop_digits]. rewrite Hc.
  assert (Hd : forallb Py.isdigit (c :: take_digits s) = true)
    by (simpl; rewrite Hc, take_digits_all; reflexivity).
  destruct (drop_digits s) as [|e rest].
  - rewrite app_nil_r. apply (float_decimal c (take_digits s) []); auto.
  - destruct (Py.eqc e ".") eqn:E.
    + apply eqc_eq in E. subst e.
      destruct (firstn 2 (take_digits rest)) as [|f frac] eqn:F.
      * rewrite app_nil_r. apply (float_decimal c (take_digits s) []); auto.
      * apply (float_decimal c (take_digits s) (f :: frac)); auto.
        -- rewrite <- F. apply forallb_firstn, take_digits_all.
        -- discriminate.
    + rewrite app_nil_r. apply (float_decimal c (take_digits s) []); auto.
Qed.

(** The call of [float] in the [except] branch, the one call outside a
    [try], never raises: what the pattern found is a number. *)
Lemma first_number_float s w :
  first_number s = Some w -> Py.float w <> None.
Proof.
  induction s as [|c s IH]; simpl; [discriminate|].
  destruct (Py.isdigit c) eqn:E; [|exact IH].
  intros H. inversion H. apply float_number_at. exact E.
Qed.

Lemma first_number_digit s :
  has_digit s = true -> first_number s <> None.
Proof.
  unfold has_digit. induction s as [|c s IH]; simpl; [discriminate|].
  destruct (Py.isdigit c); [discriminate|]. exact IH.
Qed.

(** [norm_amount] is the AmountNormalizer of the specification. *)
Lemma norm_amount_spec s : norm_amount s = AmountNormalizer s.
Proof.
  destruct s as [s|]; [|reflexivity].
  unfold AmountNormalizer. cbv zeta.
  rewrite <- normalize_separators_spec, <- (search_number _ 0).
  destruct s as [|c s]; [reflexivity|].
  unfold norm_amount. cbv zeta. fold (search RE_NUMBER
    (normalize_separators (c :: s))).
  destruct (Py.float (normalize_separators (c :: s))); [reflexivity|].
  destruct (search RE_NUMBER (normalize_separators (c :: s))); reflexivity.
Qed.

Lemma existsb_rev {A} (p : A -> bool) l : existsb p (rev l) = existsb p l.
Proof.
  induction l as [|x l IH]; simpl; [reflexivity|].
  rewrite existsb_app, IH. simpl. rewrite orb_false_r. apply orb_comm.
Qed.

Lemma has_digit_lstrip s : has_digit (Py.lstrip s) = has_digit s.
Proof.
  unfold has_digit. induction s as [|c s IH]; simpl; [reflexivity|].
  destruct (Py.isspace c) eqn:E; [|reflexivity].
  rewrite IH. destruct (Py.isdigit c) eqn:D; [|reflexivity].
  apply digit_char in D. destruct D as [D _]. congruence.
Qed.

Lemma has_digit_strip s : has_digit (Py.strip s) = has_digit s.
Proof.
  unfold Py.strip, Py.rstrip. unfold has_digit at 1. rewrite existsb_rev.
  fold (has_digit (Py.lstrip (rev (Py.lstrip s)))).
  rewrite has_digit_lstrip. unfold has_digit at 1. rewrite existsb_rev.
  apply has_digit_lstrip.
Qed.

Lemma has_digit_filter p s :
  (forall c, Py.isdigit c = true -> p c = true) ->
  has_digit (filter p s) = has_digit s.
Proof.
  intros H. unfold has_digit. induction s as [|c s IH]; simpl; [reflexivity|].
  destruct (p c) eqn:E; simpl; rewrite IH; [reflexivity|].
  destruct (Py.isdigit c) eqn:D; [|reflexivity].
  apply H in D. congruence.
Qed.

Lemma has_digit_map f s :
  (forall c, Py.isdigit (f c) = Py.isdigit c) ->
  has_digit (map f s) = has_digit s.
Proof.
  intros H. unfold has_digit. induction s as [|c s IH]; simpl; [reflexivity|].
  rewrite H, IH. reflexivity.
Qed.

Lemma is_sep_digit d c : Py.isdigit c = true -> is_sep d c = false.
Proof.
  intros H. apply digit_char in H.
  destruct H as [_ [_ [_ [H1 [_ [_ [H2 _]]]]]]].
  destruct d; assumption.
Qed.

Lemma to_point_digit d c :
  Py.isdigit (if is_sep d c then "."%char else c) = Py.isdigit c.
Proof.
  destruct (is_sep d c) eqn:E; [|reflexivity].
  destruct (Py.isdigit c) eqn:D.
  - rewrite (is_sep_digit d c D) in E. discriminate.
  - reflexivity.
Qed.

Lemma has_digit_normalize s :
  has_digit (normalize_separators s) = has_digit s.
Proof.
  rewrite normalize_separators_spec. unfold decimal_point, trim_spaces.
  set (t := filter _ (Py.strip s)).
  assert (Ht : has_digit t = has_digit s).
  { unfold t. rewrite has_digit_filter; [apply has_digit_strip|].
    intros c D. apply digit_char in D.
    destruct D as [_ [_ [_ [_ [_ [-> _]]]]]]. reflexivity. }
  rewrite <- Ht.
  destruct (appears Comma t && appears Dot t).
  - destruct (later_of t None) as [d|]; [|reflexivity].
    unfold with_decimal. rewrite has_digit_map by (apply to_point_digit).
    apply has_digit_filter. intros c D. rewrite is_sep_digit by exact D.
    reflexivity.
  - destruct (appears Comma t); [|reflexivity].
    apply has_digit_map. apply to_point_digit.
Qed.

(** A token with a digit always normalises to a number. *)
Lemma norm_amount_digit s :
  has_digit s = true -> norm_amount (Some s) <> None.
Proof.
  intros H. rewrite norm_amount_spec. unfold AmountNormalizer. cbv zeta.
  rewrite <- normalize_separators_spec.
  destruct (Py.float (normalize_separators s)); [discriminate|].
  destruct (first_number (normalize_separators s)) as [w|] eqn:E.
  - apply first_number_float in E. exact E.
  - apply first_number_digit in E; [contradiction|].
    rewrite has_digit_normalize. exact H.
Qed.

End NormFacts.

(** * The date and the earliest match *)

Module DateFacts.
Import Re ReFacts SearchFacts MatchFacts.

Lemma parse_date_in_first_some pats text :
  parse_date_in pats text
  = first_some (map (fun p => date_by (fst p) (snd p) text) pats).
Proof.
  induction pats as [|[fmt rx] pats IH]; [reflexivity|].
  cbn [parse_date_in map first_some fst snd]. unfold date_by.
  destruct (search rx text) as [m|]; [|exact IH].
  destruct (Datetime.strptime (group m 1) fmt); [reflexivity|exact IH].
Qed.

(** A search finds its earliest match. *)
Lemma search_earliest r pre rest :
  earliest r pre rest ->
  exists m, search r (pre ++ rest) = Some m /\
            m_start m = length pre /\
            re_match r rest = Some (MatchObj 0 (m_len m) (m_groups m)).
Proof.
  intros [Hno Hm]. unfold search. rewrite search_from_skip by exact Hno.
  unfold re_match. destruct (matches r rest) as [|a l] eqn:E;
    [contradiction|].
  rewrite (search_from_hit _ _ _ _ _ E). eexists. split; [reflexivity|].
  simpl. auto.
Qed.

Lemma search_earliest_group r pre rest :
  earliest r pre rest ->
  option_map (fun m => group m 1) (search r (pre ++ rest)) = value_at r rest.
Proof.
  intros H. destruct (search_earliest r pre rest H) as [m [-> [_ E]]].
  unfold value_at. rewrite E. reflexivity.
Qed.

Lemma search_earliest_some r pre rest :
  earliest r pre rest ->
  exists m, search r (pre ++ rest) = Some m /\
            value_at r rest = Some (group m 1).
Proof.
  intros H. destruct (search_earliest r pre rest H) as [m [E [_ E']]].
  exists m. split; [exact E|]. unfold value_at. rewrite E'. reflexivity.
Qed.

Lemma strptime_valid data fmt d :
  Datetime.strptime data fmt = Some d ->
  Datetime.valid_date (Datetime.year d) (Datetime.month d) (Datetime.day d)
  = true.
Proof.
  unfold Datetime.strptime.
  destruct (Datetime.format_regex fmt); [|discriminate].
  destruct (re_match _ data) as [found|]; [|discriminate].
  destruct (negb _); [discriminate|].
  destruct (Datetime.valid_date _ _ _) eqn:E; [|discriminate].
  intros H. inversion H. subst d. exact E.
Qed.

End DateFacts.

(** * Pieces of a text and words in them *)

Module TextFacts.
Import Re ReFacts SearchFacts MatchFacts.

Lemma starts_with_i_app w : forall a b,
  starts_with_i w a = true -> starts_with_i w (a ++ b) = true.
Proof.
  induction w as [|c w IH]; intros a b H; [reflexivity|].
  destruct a as [|d a]; [discriminate|]. simpl in *.
  apply andb_true_iff in H. destruct H as [-> H]. simpl. auto.
Qed.

Lemma occurs_i_nil_l s : occurs_i [] s = true.
Proof. destruct s; reflexivity. Qed.

Lemma occurs_i_app_l w : forall a b,
  occurs_i w a = true -> occurs_i w (a ++ b) = true.
Proof.
  induction a as [|d a IH]; intros b H.
  - simpl in H. rewrite orb_false_r in H.
    destruct w; [apply occurs_i_nil_l|discriminate].
  - simpl in H. apply orb_true_iff in H. cbn [app occurs_i].
    apply orb_true_iff. destruct H as [H|H].
    + left. apply (starts_with_i_app w (d :: a) b H).
    + right. auto.
Qed.

Lemma occurs_i_app_r w : forall a b,
  occurs_i w b = true -> occurs_i w (a ++ b) = true.
Proof.
  induction a as [|d a IH]; intros b H; [exact H|].
  cbn [app occurs_i]. rewrite IH by exact H. apply orb_true_r.
Qed.

Lemma occurs_i_piece w t s :
  piece t s -> occurs_i w t = true -> occurs_i w s = true.
Proof.
  intros [a [b ->]] H. apply occurs_i_app_r, occurs_i_app_l. exact H.
Qed.

Lemma piece_refl s : piece s s.
Proof. exists [], []. rewrite app_nil_r. reflexivity. Qed.

Lemma piece_trans t u s : piece t u -> piece u s -> piece t s.
Proof.
  intros [a [b ->]] [c [d ->]]. exists (c ++ a), (b ++ d).
  rewrite <- !app_assoc. reflexivity.
Qed.

Lemma starts_with_i_skipn w s k :
  starts_with_i w (skipn k s) = true -> occurs_i w s = true.
Proof.
  intros H. apply (occurs_i_piece w (skipn k s)).
  - exists (firstn k s), []. rewrite app_nil_r, firstn_skipn. reflexivity.
  - destruct (skipn k s); simpl; rewrite H; reflexivity.
Qed.

Lemma starts_with_i_split w x : forall a b,
  avoids w x -> starts_with_i w (a ++ x :: b) = true ->
  starts_with_i w a = true.
Proof.
  induction w as [|c w IH]; intros a b Hx H; [reflexivity|].
  destruct a as [|d a].
  - simpl in H. rewrite (Hx c) in H by (left; reflexivity). discriminate.
  - simpl in *. apply andb_true_iff in H. destruct H as [-> H]. simpl.
    apply (IH a b); [|exact H]. intros e He. apply Hx. right. exact He.
Qed.

Lemma occurs_i_split w x : forall a b,
  w <> [] -> avoids w x -> occurs_i w (a ++ x :: b) = true ->
  occurs_i w a = true \/ occurs_i w b = true.
Proof.
  induction a as [|d a IH]; intros b Hw Hx H.
  - cbn [app occurs_i] in H. apply orb_true_iff in H. destruct H as [H|H].
    + destruct w as [|c w]; [contradiction|]. simpl in H.
      rewrite (Hx c) in H by (left; reflexivity). discriminate.
    + right. exact H.
  - cbn [app occurs_i] in H. apply orb_true_iff in H. destruct H as [H|H].
    + left. apply (starts_with_i_split w x (d :: a) b Hx) in H.
      simpl occurs_i. rewrite H. reflexivity.
    + destruct (IH b Hw Hx H) as [H'|H']; [left|right; exact H'].
      simpl occurs_i. rewrite H'. apply orb_true_r.
Qed.

Lemma join_cons sep p ps :
  Py.join sep (p :: ps)
  = p ++ match ps with [] => [] | _ => sep ++ Py.join sep ps end.
Proof. destruct ps; simpl; [rewrite app_nil_r|]; reflexivity. Qed.

(** A word without a line feed that stands in joined lines stands in one
    of the lines. *)
Lemma occurs_i_join w parts :
  w <> [] -> avoids w LF -> occurs_i w (Py.join [LF] parts) = true ->
  exists p, In p parts /\ occurs_i w p = true.
Proof.
  intros Hw Hx. induction parts as [|p ps IH]; intros H.
  - simpl in H. rewrite orb_false_r in H. destruct w; [contradiction|].
    discriminate.
  - rewrite join_cons in H. destruct ps as [|q ps].
    + rewrite app_nil_r in H. exists p. split; [left; reflexivity|exact H].
    + cbn [app] in H. apply occurs_i_split in H; [|exact Hw|exact Hx].
      destruct H as [H|H].
      * exists p. split; [left; reflexivity|exact H].
      * destruct (IH H) as [p' [Hin Hp]]. exists p'. split; [right|];
          assumption.
Qed.

Lemma lstrip_piece s : exists a, s = a ++ Py.lstrip s.
Proof.
  induction s as [|c s [a IH]]; [exists []; reflexivity|].
  simpl. destruct (Py.isspace c); [|exists []; reflexivity].
  exists (c :: a). simpl. f_equal. exact IH.
Qed.

Lemma strip_piece s : piece (Py.strip s) s.
Proof.
  unfold Py.strip, Py.rstrip.
  destruct (lstrip_piece s) as [a Ha].
  destruct (lstrip_piece (rev (Py.lstrip s))) as [b Hb].
  exists a, (rev b). rewrite Ha at 1. f_equal.
  rewrite <- (rev_involutive (Py.lstrip s)) at 1. rewrite Hb at 1.
  apply rev_app_distr.
Qed.

Lemma splitlines_aux_piece n : forall s cur l,
  length s <= n -> In l (Py.splitlines_aux s cur) -> piece l (rev cur ++ s).
Proof.
  induction n as [|n IH]; intros s cur l Hn Hin.
  - destruct s; [|simpl in Hn; lia]. simpl in Hin.
    destruct cur as [|c cur]; [contradiction|].
    destruct Hin as [<-|[]]. rewrite app_nil_r. apply piece_refl.
  - destruct s as [|c s].
    + simpl in Hin. destruct cur as [|c cur]; [contradiction|].
      destruct Hin as [<-|[]]. rewrite app_nil_r. apply piece_refl.
    + simpl in Hn. cbn [Py.splitlines_aux] in Hin.
      destruct (Py.islinebreak c).
      * destruct Hin as [<-|Hin].
        { exists [], (c :: s). reflexivity. }
        destruct s as [|d s]; [contradiction|].
        destruct ((Py.ord c =? 13) && (Py.ord d =? 10)).
        -- apply IH in Hin; [|simpl in Hn; lia]. destruct Hin as [a [b E]].
           simpl in E. exists (rev cur ++ c :: d :: a), b. rewrite E.
           rewrite <- !app_assoc. reflexivity.
        -- apply IH in Hin; [|lia]. destruct Hin as [a [b E]].
           simpl in E. exists (rev cur ++ c :: a), b. rewrite E.
           rewrite <- !app_assoc. reflexivity.
      * apply IH in Hin; [|lia]. simpl in Hin.
        rewrite <- app_assoc in Hin. exact Hin.
Qed.

Lemma nonempty_lines_piece text l :
  In l (nonempty_lines text) -> piece l text.
Proof.
  unfold nonempty_lines. intros H. apply in_map_iff in H.
  destruct H as [l0 [<- H]]. apply filter_In in H. destruct H as [H _].
  apply (splitlines_aux_piece (length text)) in H; [|lia].
  simpl in H. eapply piece_trans; [apply strip_piece|exact H].
Qed.

Lemma window_firstn lines i width :
  window lines i width = Py.join [LF] (firstn width (skipn i lines)).
Proof.
  unfold window, Py.slice. replace (i + width - i) with width by lia.
  reflexivity.
Qed.

Lemma in_firstn {A} (x : A) n : forall l, In x (firstn n l) -> In x l.
Proof.
  induction n as [|n IH]; intros [|y l] H; simpl in *; try contradiction.
  destruct H as [H|H]; [left; exact H|right; auto].
Qed.

Lemma in_skipn {A} (x : A) n : forall l, In x (skipn n l) -> In x l.
Proof.
  induction n as [|n IH]; intros [|y l] H; simpl in *; try assumption.
  right. auto.
Qed.

Lemma in_slice {A} (x : A) n i l : In x (firstn n (skipn i l)) -> In x l.
Proof. intros H. apply in_firstn in H. apply in_skipn in H. exact H. Qed.

(** A word without a line feed that stands in a window of the lines
    stands in the text. *)
Lemma occurs_i_window w text i width :
  w <> [] -> avoids w LF ->
  occurs_i w (window (nonempty_lines text) i width) = true ->
  occurs_i w text = true.
Proof.
  intros Hw Hx H. rewrite window_firstn in H.
  apply occurs_i_join in H; [|exact Hw|exact Hx].
  destruct H as [p [Hin Hp]]. apply in_slice in Hin.
  apply nonempty_lines_piece in Hin.
  eapply occurs_i_piece; eassumption.
Qed.

End TextFacts.

(** * Product blocks *)

Module ProductFacts.
Import Re ReFacts SearchFacts MatchFacts ScanFacts TextFacts.

Lemma nonempty_in {A} (l : list A) : l <> [] <-> exists a, In a l.
Proof.
  destruct l as [|a l]; split.
  - intros H. contradiction.
  - intros [a []].
  - intros _. exists a. left. reflexivity.
  - intros _. discriminate.
Qed.

(** Whether the tail matches does not depend on the number of its
    group. *)
Lemma amount_tail_group g g' s :
  matches (amount_tail g) s <> [] -> matches (amount_tail g') s <> [].
Proof.
  intros H. apply nonempty_in in H. destruct H as [a H].
  unfold amount_tail in *. cbn [cat] in *.
  apply in_matches_seq in H. destruct H as [a1 [a2 [H1 [H2 ->]]]].
  apply in_matches_seq in H2. destruct H2 as [b1 [b2 [H3 [H4 ->]]]].
  apply in_matches_seq in H4. destruct H4 as [c1 [c2 [H5 [H6 ->]]]].
  apply in_matches_group in H6. destruct H6 as [d [H7 ->]].
  apply nonempty_in. eexists.
  apply in_matches_seq. exists a1. eexists. split; [exact H1|]. split;
    [|reflexivity].
  apply in_matches_seq. exists b1. eexists. split; [exact H3|]. split;
    [|reflexivity].
  apply in_matches_seq. exists c1. eexists. split; [exact H5|]. split;
    [|reflexivity].
  apply in_matches_group. exists d. split; [exact H7|reflexivity].
Qed.

Lemma RE_LINE_TOTAL_eq : RE_LINE_TOTAL = Seq (liti "Total") (amount_tail 1).
Proof. reflexivity. Qed.

Lemma RE_LINE_SUBTOTAL_eq :
  RE_LINE_SUBTOTAL = Seq (liti "Subtotal") (amount_tail 1).
Proof. reflexivity. Qed.

Lemma RE_PRODUCT_NAME_WITH_SUBTOTAL_eq :
  RE_PRODUCT_NAME_WITH_SUBTOTAL
  = Seq (Group 1 (Seq (Chr alnum) (Rep false any 0 (Some 80))))
        (Seq (plus ws) (Seq (liti "Subtotal") (amount_tail 2))).
Proof. reflexivity. Qed.

Lemma starts_with_i_tail u : forall v s,
  starts_with_i (u ++ v) s = true ->
  starts_with_i v (skipn (length u) s) = true.
Proof.
  induction u as [|c u IH]; intros v s H; [exact H|].
  destruct s as [|d s]; [discriminate|]. simpl in *.
  apply andb_true_iff in H. destruct H as [_ H]. auto.
Qed.

Lemma starts_with_subtotal_total s :
  starts_with_i "Subtotal" s = true ->
  starts_with_i "Total" (skipn 3 s) = true.
Proof.
  intros H.
  exact (starts_with_i_tail (list_ascii_of_string "Sub")
           (list_ascii_of_string "total") s H).
Qed.

(** The total pattern matches inside a match of "Subtotal" and an amount,
    three characters in. *)
Lemma subtotal_total g s :
  matches (Seq (liti "Subtotal") (amount_tail g)) s <> [] ->
  matches RE_LINE_TOTAL (skipn 3 s) <> [].
Proof.
  intros H. apply nonempty_in in H. destruct H as [a H].
  apply in_matches_seq in H. destruct H as [a1 [a2 [H1 [H2 _]]]].
  apply in_matches_liti in H1. destruct H1 as [-> H1]. cbn [fst length] in H2.
  assert (T : matches (amount_tail 1) (skipn 5 (skipn 3 s)) <> []).
  { rewrite skipn_skipn. apply (amount_tail_group g).
    apply nonempty_in. exists a2. exact H2. }
  apply nonempty_in in T. destruct T as [b T].
  rewrite RE_LINE_TOTAL_eq. apply nonempty_in. eexists.
  apply in_matches_seq. exists (5, []). exists b. split; [|split].
  - apply in_matches_liti. split; [reflexivity|].
    apply starts_with_subtotal_total. exact H1.
  - exact T.
  - reflexivity.
Qed.

(** Where the name pattern matches, "Subtotal" and an amount stand a
    little further on. *)
Lemma name_match_subtotal s a :
  In a (matches RE_PRODUCT_NAME_WITH_SUBTOTAL s) ->
  exists j, matches (Seq (liti "Subtotal") (amount_tail 2)) (skipn j s) <> []
            /\ starts_with_i "Subtotal" (skipn j s) = true.
Proof.
  rewrite RE_PRODUCT_NAME_WITH_SUBTOTAL_eq. intros H.
  apply in_matches_seq in H. destruct H as [a1 [a2 [_ [H2 _]]]].
  apply in_matches_seq in H2. destruct H2 as [b1 [b2 [_ [H4 _]]]].
  rewrite skipn_skipn in H4. eexists. split.
  - apply nonempty_in. exists b2. exact H4.
  - apply in_matches_seq in H4. destruct H4 as [c1 [c2 [H5 _]]].
    apply in_matches_liti in H5. destruct H5 as [_ H5]. exact H5.
Qed.

Lemma search_from_suffix r t : forall a pos,
  matches r t <> [] -> search_from r (a ++ t) pos <> None.
Proof.
  induction a as [|c a IH]; intros pos H.
  - simpl app. destruct (matches r t) as [|x l] eqn:E; [contradiction|].
    rewrite (search_from_hit _ _ _ _ _ E). discriminate.
  - cbn [app]. destruct (matches r (c :: a ++ t)) as [|x l] eqn:E.
    + rewrite search_from_miss by exact E. apply IH. exact H.
    + rewrite (search_from_hit _ _ _ _ _ E). discriminate.
Qed.

Lemma join_firstn_prefix (sep : str) n m : forall l,
  n <= m ->
  exists x, Py.join sep (firstn m l) = Py.join sep (firstn n l) ++ x.
Proof.
  revert m. induction n as [|n IH]; intros m l H.
  - simpl. eexists. reflexivity.
  - destruct m as [|m]; [lia|]. destruct l as [|p l].
    + exists []. reflexivity.
    + cbn [firstn]. rewrite !join_cons.
      destruct (IH m l ltac:(lia)) as [x Hx].
      destruct (firstn n l) as [|q qs] eqn:En.
      * rewrite app_nil_r. eexists. reflexivity.
      * destruct (firstn m l) as [|q' qs'] eqn:Em.
        -- exfalso. destruct n; [simpl in En; discriminate|].
           destruct l; [simpl in En; discriminate|].
           destruct m; [lia|]. simpl in Em. discriminate.
        -- rewrite Hx. exists x. rewrite <- !app_assoc. reflexivity.
Qed.

Lemma window_prefix lines i :
  exists x, window lines i 25 = window lines i 12 ++ x.
Proof.
  rewrite !window_firstn. apply join_firstn_prefix. lia.
Qed.

(** Where a product block was detected, the total pattern matches in the
    wider window. *)
Lemma name_total lines i m :
  search RE_PRODUCT_NAME_WITH_SUBTOTAL (window lines i 12) = Some m ->
  exists mt, search RE_LINE_TOTAL (window lines i 25) = Some mt.
Proof.
  intros H. apply search_some_in in H.
  destruct H as [k [a [_ [Ha _]]]].
  apply name_match_subtotal in Ha. destruct Ha as [j [Hj _]].
  apply subtotal_total in Hj. rewrite !skipn_skipn in Hj.
  destruct (window_prefix lines i) as [x Hx].
  set (w := window lines i 12) in *.
  assert (N : search RE_LINE_TOTAL (window lines i 25) <> None).
  { rewrite Hx. rewrite <- (firstn_skipn (3 + (j + k)) w) at 1.
    rewrite <- app_assoc. unfold search. apply search_from_suffix.
    apply nonempty_in in Hj. destruct Hj as [b Hb].
    apply nonempty_in. exists b. apply matches_app_in. exact Hb. }
  destruct (search RE_LINE_TOTAL (window lines i 25)) as [mt|];
    [eauto|contradiction].
Qed.

Lemma name_match_occurs s m :
  search RE_PRODUCT_NAME_WITH_SUBTOTAL s = Some m ->
  occurs_i "Subtotal" s = true.
Proof.
  intros H. apply search_some_in in H.
  destruct H as [k [a [_ [Ha _]]]].
  apply name_match_subtotal in Ha. destruct Ha as [j [_ Hj]].
  rewrite skipn_skipn in Hj. eapply starts_with_i_skipn. exact Hj.
Qed.

Lemma subtotal_avoids_LF : avoids "Subtotal" LF.
Proof.
  intros c H. simpl in H.
  repeat (destruct H as [<-|H]; [reflexivity|]). contradiction.
Qed.

(** A text without the word "Subtotal" has no product block. *)
Lemma no_subtotal_no_rows text :
  occurs_i "Subtotal" text = false -> split_product_blocks text = [].
Proof.
  intros H.
  apply (scan_loop_invariant (fun rows => rows = []) (nonempty_lines text))
    with (fuel := length (nonempty_lines text)) (st := Scan 0 []).
  - intros st Hst. unfold scan_step.
    destruct (search RE_PRODUCT_NAME_WITH_SUBTOTAL _) as [m|] eqn:E;
      [|exact Hst].
    apply name_match_occurs in E. apply occurs_i_window in E.
    + rewrite E in H. discriminate.
    + discriminate.
    + apply subtotal_avoids_LF.
  - reflexivity.
  - apply scan_loop_terminates.
Qed.

(** Every row of [split_product_blocks] was built where the name pattern
    matched. *)
Lemma split_product_blocks_block_rows text :
  Forall (block_row (nonempty_lines text)) (split_product_blocks text).
Proof.
  apply (scan_loop_invariant (Forall (block_row (nonempty_lines text)))
           (nonempty_lines text))
    with (fuel := length (nonempty_lines text)) (st := Scan 0 []).
  - intros st H. unfold scan_step.
    destruct (search RE_PRODUCT_NAME_WITH_SUBTOTAL _) as [m|] eqn:E;
      simpl; [|assumption].
    apply Forall_app. split; [assumption|].
    constructor; [|constructor]. exists (cursor st), m. auto.
  - constructor.
  - apply scan_loop_terminates.
Qed.

End ProductFacts.

(** * Lines in any order *)

Module LineFacts.
Import Re ReFacts SearchFacts MatchFacts DateFacts.

Lemma search_from_app_closed r : forall s x pos,
  (forall q, q < length s -> closed r (skipn q s) = true) ->
  matches r [] = [] ->
  search_from r (s ++ x) pos =
  match search_from r s pos with
  | Some m => Some m
  | None => search_from r x (pos + length s)
  end.
Proof.
  induction s as [|c s IH]; intros x pos Hc He.
  - rewrite (search_from_nil_miss r pos He). simpl. f_equal. lia.
  - assert (C0 : closed r (c :: s) = true) by (apply (Hc 0); simpl; lia).
    pose proof (matches_closed r (c :: s) x C0) as E.
    cbn [app] in *. destruct (matches r (c :: s)) as [|a l] eqn:Em.
    + rewrite search_from_miss by exact E.
      rewrite (search_from_miss r c s pos Em).
      rewrite IH; [|intros q Hq; apply (Hc (S q)); simpl; lia|exact He].
      replace (S pos + length s) with (pos + length (c :: s))
        by (simpl; lia).
      reflexivity.
    + rewrite (search_from_hit _ _ pos _ _ E).
      rewrite (search_from_hit _ _ pos _ _ Em). reflexivity.
Qed.

Lemma search_from_group1 r s p q :
  option_map (fun m => group m 1) (search_from r s p)
  = option_map (fun m => group m 1) (search_from r s q).
Proof.
  pose proof (search_from_groups r s p q) as H.
  destruct (search_from r s p) as [m|], (search_from r s q) as [m'|];
    simpl in *; try discriminate; [|reflexivity].
  inversion H as [H']. unfold group. rewrite H'. reflexivity.
Qed.

Lemma line_local_closed r l q :
  line_local r l = true -> q < length (l ++ [LF]) ->
  closed r (skipn q (l ++ [LF])) = true.
Proof.
  unfold line_local. rewrite forallb_forall. intros H Hq. apply H.
  apply in_seq. rewrite length_app in Hq. simpl in Hq. lia.
Qed.

(** On lines that keep the attempts of [r] within themselves, the search
    reports the value of the first line that has one. *)
Lemma search_unlines r ls :
  matches r [] = [] ->
  (forall l, In l ls -> line_local r l = true) ->
  forall pos,
    option_map (fun m => group m 1) (search_from r (unlines ls) pos)
    = first_some (map (line_value r) ls).
Proof.
  intros He. induction ls as [|l ls IH]; intros Hl pos.
  - simpl. rewrite He. reflexivity.
  - change (unlines (l :: ls)) with ((l ++ [LF]) ++ unlines ls).
    rewrite search_from_app_closed;
      [|intros q Hq; apply line_local_closed; [apply Hl; left; reflexivity
                                              |exact Hq]
       |exact He].
    cbn [map first_some]. unfold line_value at 1. unfold search.
    rewrite (search_from_group1 r (l ++ [LF]) 0 pos).
    destruct (search_from r (l ++ [LF]) pos) as [m|]; [reflexivity|].
    simpl option_map. apply IH. intros l' Hl'. apply Hl. right. exact Hl'.
Qed.

Lemma first_some_filter {A} (os : list (option A)) :
  first_some os = first_some (filter (fun o => negb (is_none o)) os).
Proof.
  induction os as [|[a|] os IH]; simpl; auto.
Qed.

Lemma matching_lines_values r ls :
  filter (fun o => negb (is_none o)) (map (line_value r) ls)
  = map (line_value r) (matching_lines r ls).
Proof.
  unfold matching_lines. induction ls as [|l ls IH]; simpl; [reflexivity|].
  destruct (negb (is_none (line_value r l))); simpl; rewrite IH; reflexivity.
Qed.

Lemma matching_lines_perm r ls ls' :
  Permutation ls ls' ->
  Permutation (matching_lines r ls) (matching_lines r ls').
Proof.
  unfold matching_lines. intros P. induction P; simpl.
  - constructor.
  - destruct (negb _); [constructor|]; assumption.
  - destruct (negb (is_none (line_value r y))),
             (negb (is_none (line_value r x))); try constructor;
      apply Permutation_refl.
  - eapply Permutation_trans; eassumption.
Qed.

Lemma perm_short {A} (l l' : list A) :
  Permutation l l' -> length l <= 1 -> l = l'.
Proof.
  intros P H. destruct l as [|a [|b l]]; simpl in H; try lia.
  - apply Permutation_nil in P. auto.
  - apply Permutation_length_1_inv in P. auto.
Qed.

(** The value on lines in one order is the value on them in another. *)
Lemma one_line_field_perm r ls ls' :
  matches r [] = [] -> Permutation ls ls' -> one_line_field r ls ->
  option_map (fun m => group m 1) (search r (unlines ls))
  = option_map (fun m => group m 1) (search r (unlines ls')).
Proof.
  intros He P [Hloc Hone]. unfold search.
  rewrite !search_unlines; try assumption.
  - rewrite (first_some_filter (map (line_value r) ls)).
    rewrite (first_some_filter (map (line_value r) ls')).
    rewrite !matching_lines_values.
    rewrite (perm_short _ _ (matching_lines_perm r ls ls' P) Hone).
    reflexivity.
  - intros l Hl. apply Hloc. eapply Permutation_in; [|exact Hl].
    apply Permutation_sym. exact P.
Qed.

(** Taking a line without a value away leaves the value. *)
Lemma one_line_field_drop r a l b :
  matches r [] = [] ->
  (forall l', In l' (a ++ l :: b) -> line_local r l' = true) ->
  line_value r l = None ->
  option_map (fun m => group m 1) (search r (unlines (a ++ l :: b)))
  = option_map (fun m => group m 1) (search r (unlines (a ++ b))).
Proof.
  intros He Hloc Hv. unfold search. rewrite !search_unlines; try assumption.
  - rewrite !map_app. cbn [map]. rewrite Hv.
    induction (map (line_value r) a) as [|[x|] os IH]; simpl; auto.
  - intros l' Hl'. apply Hloc. apply in_app_or in Hl'. apply in_or_app.
    destruct Hl' as [H|H]; [left|right; right]; exact H.
Qed.

Lemma header_patterns_nonempty r :
  In r header_patterns -> matches r [] = [].
Proof.
  intros H. unfold header_patterns in H. simpl in H.
  repeat (destruct H as [<-|H]; [vm_compute; reflexivity|]). contradiction.
Qed.

End LineFacts.

Module HeaderFacts.
Import Re ReFacts SearchFacts MatchFacts DateFacts LineFacts.

Lemma found_some r t1 t2 :
  found r t1 = found r t2 ->
  match search r t1, search r t2 with
  | Some m1, Some m2 => group m1 1 = group m2 1
  | None, None => True
  | _, _ => False
  end.
Proof.
  unfold found. destruct (search r t1), (search r t2); simpl; intros H;
    try discriminate; [inversion H; reflexivity|exact I].
Qed.

Lemma parse_date_in_found pats t1 t2 :
  (forall p, In p pats -> found (snd p) t1 = found (snd p) t2) ->
  parse_date_in pats t1 = parse_date_in pats t2.
Proof.
  induction pats as [|[fmt rx] pats IH]; intros H; [reflexivity|].
  cbn [parse_date_in].
  pose proof (found_some rx t1 t2 (H (fmt, rx) (or_introl eq_refl))) as E.
  assert (IH' : parse_date_in pats t1 = parse_date_in pats t2)
    by (apply IH; intros p Hp; apply H; right; exact Hp).
  destruct (search rx t1) as [m1|], (search rx t2) as [m2|];
    try contradiction; [|exact IH'].
  rewrite E. destruct (Datetime.strptime (group m2 1) fmt);
    [reflexivity|exact IH'].
Qed.

(** A header field is a function of what its patterns find. *)
Lemma header_value_found k t1 t2 :
  (forall r, In r (nth k field_patterns []) -> found r t1 = found r t2) ->
  nth k (header_values t1) VNone = nth k (header_values t2) VNone.
Proof.
  intros H.
  assert (F : forall r, In r (nth k field_patterns []) ->
     match search r t1, search r t2 with
     | Some m1, Some m2 => group m1 1 = group m2 1
     | None, None => True
     | _, _ => False
     end) by (intros r Hr; apply found_some, H, Hr).
  destruct k as [|[|[|[|[|[|[|[|[|k]]]]]]]]]; [| | | | | | | | |reflexivity].
  - specialize (F RE_INVOICE_ID (or_introl eq_refl)). cbn [nth header_values].
    unfold invoice_id.
    destruct (search RE_INVOICE_ID t1), (search RE_INVOICE_ID t2);
      try contradiction; simpl; [rewrite F|]; reflexivity.
  - specialize (F RE_STATUS (or_introl eq_refl)). cbn [nth header_values].
    unfold invoice_stat.
    destruct (search RE_STATUS t1), (search RE_STATUS t2);
      try contradiction; simpl; [rewrite F|]; reflexivity.
  - cbn [nth header_values]. unfold inv_date, parse_date. f_equal.
    apply parse_date_in_found. intros p Hp. apply H.
    cbn [nth field_patterns]. apply in_map. exact Hp.
  - specialize (F RE_PAYMENT (or_introl eq_refl)). cbn [nth header_values].
    unfold payment_type.
    destruct (search RE_PAYMENT t1), (search RE_PAYMENT t2);
      try contradiction; simpl; [rewrite F|]; reflexivity.
  - specialize (F RE_TAXID (or_introl eq_refl)). cbn [nth header_values].
    unfold tax_id.
    destruct (search RE_TAXID t1), (search RE_TAXID t2);
      try contradiction; simpl; [rewrite F|]; reflexivity.
  - specialize (F RE_INVOICE_SUBTOTAL (or_introl eq_refl)).
    cbn [nth header_values]. unfold inv_subtotal.
    destruct (search RE_INVOICE_SUBTOTAL t1), (search RE_INVOICE_SUBTOTAL t2);
      try contradiction; cbn [amount_of]; [rewrite F|]; reflexivity.
  - specialize (F RE_PLAN_DISCOUNT_TOT (or_introl eq_refl)).
    cbn [nth header_values]. unfold plan_disc_tot.
    destruct (search RE_PLAN_DISCOUNT_TOT t1),
             (search RE_PLAN_DISCOUNT_TOT t2);
      try contradiction; cbn [amount_of]; [rewrite F|]; reflexivity.
  - specialize (F RE_INVOICE_TAX (or_introl eq_refl)).
    cbn [nth header_values]. unfold inv_tax.
    destruct (search RE_INVOICE_TAX t1), (search RE_INVOICE_TAX t2);
      try contradiction; cbn [amount_of]; [rewrite F|]; reflexivity.
  - specialize (F RE_TOTAL_PAID (or_introl eq_refl)).
    cbn [nth header_values]. unfold total_paid.
    destruct (search RE_TOTAL_PAID t1), (search RE_TOTAL_PAID t2);
      try contradiction; cbn [amount_of]; [rewrite F|]; reflexivity.
Qed.

Lemma field_patterns_header k r :
  In r (nth k field_patterns []) -> In r header_patterns.
Proof.
  intros H.
  destruct k as [|[|[|[|[|[|[|[|[|k]]]]]]]]];
    try (simpl in H; unfold header_patterns; simpl; tauto).
  destruct k; contradiction.
Qed.

End HeaderFacts.

(** * Groups are bound *)

Module GroupFacts.
Import Re ReFacts SearchFacts MatchFacts.

Lemma lookup_group_app g c1 c2 :
  lookup_group g (c1 ++ c2) =
  match lookup_group g c1 with
  | Some v => Some v
  | None => lookup_group g c2
  end.
Proof.
  induction c1 as [|[k v] c1 IH]; simpl; [reflexivity|].
  destruct (k =? g); [reflexivity|exact IH].
Qed.

(** A group that [binds] finds has a value in every match. *)
Lemma binds_sound g r : forall s a,
  binds g r = true -> In a (matches r s) -> lookup_group g (snd a) <> None.
Proof.
  induction r as [|p|r1 IH1 r2 IH2|r1 IH1 r2 IH2|gr p lo hi|k r IH];
    intros s a Hb Ha; simpl in Hb; try discriminate.
  - apply in_matches_seq in Ha. destruct Ha as [a1 [a2 [H1 [H2 ->]]]].
    simpl. rewrite lookup_group_app.
    apply orb_true_iff in Hb. destruct Hb as [Hb|Hb].
    + pose proof (IH1 _ _ Hb H1) as N.
      destruct (lookup_group g (snd a1)); [discriminate|contradiction].
    + destruct (lookup_group g (snd a1)); [discriminate|].
      apply (IH2 _ _ Hb H2).
  - apply andb_true_iff in Hb. destruct Hb as [Hb1 Hb2].
    simpl in Ha. apply in_app_or in Ha. destruct Ha as [Ha|Ha]; eauto.
  - apply in_matches_group in Ha. destruct Ha as [b [Hb' ->]]. simpl.
    destruct (k =? g) eqn:E; [discriminate|]. simpl in Hb. eauto.
Qed.

(** Group 1 is bound in every match the program looks at, so [group]
    never falls back on its default. *)
Lemma program_group_bound r s m :
  In r program_patterns -> search r s = Some m ->
  lookup_group 1 (m_groups m) <> None.
Proof.
  intros Hr H. apply search_some_in in H.
  destruct H as [k [a [_ [Ha [-> _]]]]].
  apply (binds_sound 1 r (skipn k s) a); [|exact Ha].
  unfold program_patterns, header_patterns in Hr. simpl in Hr.
  repeat (destruct Hr as [<-|Hr]; [reflexivity|]). contradiction.
Qed.

End GroupFacts.

(** * What a group holds *)

Module ShapeFacts.
Import Re ReFacts SearchFacts MatchFacts.

Lemma groupless_captures r : forall s a,
  groupless r = true -> In a (matches r s) -> snd a = [].
Proof.
  induction r as [|p|r1 IH1 r2 IH2|r1 IH1 r2 IH2|g p lo hi|g r IH];
    intros s a Hg Ha; simpl in Hg; try discriminate.
  - destruct Ha as [<-|[]]. reflexivity.
  - simpl in Ha. destruct s as [|c s]; [contradiction|].
    destruct (p c); [|contradiction]. destruct Ha as [<-|[]]. reflexivity.
  - apply andb_true_iff in Hg. destruct Hg as [G1 G2].
    apply in_matches_seq in Ha. destruct Ha as [a1 [a2 [H1 [H2 ->]]]].
    simpl. rewrite (IH1 _ _ G1 H1), (IH2 _ _ G2 H2). reflexivity.
  - apply andb_true_iff in Hg. destruct Hg as [G1 G2].
    simpl in Ha. apply in_app_or in Ha. destruct Ha; eauto.
  - apply in_matches_rep in Ha. destruct Ha as [n [-> _]]. reflexivity.
Qed.

(** After a part without groups, the groups are those of the rest. *)
Lemma seq_groupless r1 r2 s a :
  groupless r1 = true -> In a (matches (Seq r1 r2) s) ->
  exists k a2, In a2 (matches r2 (skipn k s)) /\ snd a = snd a2.
Proof.
  intros G Ha. apply in_matches_seq in Ha.
  destruct Ha as [a1 [a2 [H1 [H2 ->]]]]. exists (fst a1), a2.
  split; [exact H2|]. simpl. rewrite (groupless_captures _ _ _ G H1).
  reflexivity.
Qed.

Lemma forallb_firstn_span p n : forall s,
  n <= span p s -> forallb p (firstn n s) = true.
Proof.
  induction n as [|n IH]; intros s H; [reflexivity|].
  destruct s as [|c s]; [reflexivity|]. simpl in *.
  destruct (p c); [|lia]. simpl. apply IH. lia.
Qed.

(** A quantified class in a group: what the group holds. *)
Lemma group_rep g greedy p lo hi s a :
  In a (matches (Group g (Rep greedy p lo hi)) s) ->
  exists w, snd a = [(g, w)] /\ forallb p w = true /\ lo <= length w /\
            (forall h, hi = Some h -> length w <= h).
Proof.
  intros Ha. apply in_matches_group in Ha. destruct Ha as [b [Hb ->]].
  apply in_matches_rep in Hb. destruct Hb as [n [-> [Hlo Hhi]]].
  pose proof (cap_le hi (span p s)) as Hc. pose proof (span_le p s) as Hs.
  exists (firstn n s). simpl. split; [reflexivity|]. split; [|split].
  - apply forallb_firstn_span. lia.
  - rewrite length_firstn. lia.
  - intros h ->. rewrite length_firstn. simpl in Hhi. lia.
Qed.

End ShapeFacts.

Module TokenFacts.
Import Re ReFacts SearchFacts MatchFacts ShapeFacts.

(** Walks through the leading parts of a pattern that have no group. *)
Ltac peel H :=
  repeat (apply seq_groupless in H; [|reflexivity];
          let k := fresh "k" in
          let a := fresh "a" in
          let E := fresh "E" in
          destruct H as [k [a [H E]]]; rewrite E; clear E).

Lemma search_group r s m :
  search r s = Some m ->
  exists k a, In a (matches r (skipn k s)) /\
              group m 1 = match lookup_group 1 (snd a) with
                          | Some v => v
                          | None => []
                          end.
Proof.
  intros H. apply search_some_in in H.
  destruct H as [k [a [_ [Ha [Hc _]]]]]. exists k, a.
  split; [exact Ha|]. unfold group. rewrite Hc. reflexivity.
Qed.

(** The token of an amount pattern is made of digits, points and commas,
    and is not empty. *)
Lemma amount_token r s m :
  In r amount_patterns -> search r s = Some m ->
  forallb amountc (group m 1) = true /\ 1 <= length (group m 1).
Proof.
  intros Hr H. apply search_group in H. destruct H as [k [a [Ha ->]]].
  unfold amount_patterns in Hr. simpl in Hr.
  repeat (destruct Hr as [<-|Hr];
          [match type of Ha with
           | In _ (matches ?R _) => unfold R in Ha
           end;
           cbn [cat] in Ha; peel Ha; apply group_rep in Ha;
           destruct Ha as [w [-> [Hw [Hl _]]]]; simpl; auto|]).
  contradiction.
Qed.

End TokenFacts.

Module FiniteFacts.
Import Re ReFacts SearchFacts MatchFacts ShapeFacts TokenFacts SpecAmount
       AmountFacts NumberFacts NumberSearch FloatFacts NormFacts TextFacts.

Lemma forallb_piece {A} (p : A -> bool) (t s : list A) :
  (exists a b, s = a ++ t ++ b) -> forallb p s = true -> forallb p t = true.
Proof.
  intros [a [b ->]] H. rewrite !forallb_app in H.
  apply andb_true_iff in H. destruct H as [_ H].
  apply andb_true_iff in H. destruct H as [H _]. exact H.
Qed.

(** What a digit or a point excludes. *)
Lemma digit_or_dot_char c :
  digit_or_dot c = true ->
  Py.eqc c "-" = false /\ Py.eqc c "+" = false /\
  Py.eqc (Py.lower c) "i" = false /\ Py.eqc (Py.lower c) "n" = false.
Proof.
  destruct c as [[] [] [] [] [] [] [] []]; vm_compute; intros H;
    try discriminate H; repeat split; reflexivity.
Qed.

Lemma decimal_finite neg ds e : exists m e', Py.decimal neg ds e = Py.Fdec neg m e'.
Proof.
  unfold Py.decimal. destruct (_ =? 0)%N; [eauto|].
  destruct (Py.norm10 _ _ _). eauto.
Qed.

Lemma digitpart_digit s ds rest :
  Py.digitpart s = (ds, rest) -> ds <> [] -> has_digit s = true.
Proof.
  unfold Py.digitpart. destruct s as [|c s]; [intros H; inversion H; congruence|].
  destruct (Py.isdigit c) eqn:E.
  - intros _ _. unfold has_digit. simpl. rewrite E. reflexivity.
  - intros H. inversion H. congruence.
Qed.

Lemma digitpart_tail_acc n : forall t acc,
  length t <= n ->
  exists more, fst (Py.digitpart_tail t acc) = rev acc ++ more.
Proof.
  induction n as [|n IH]; intros t acc Hn.
  - destruct t; [|simpl in Hn; lia]. exists []. simpl.
    rewrite app_nil_r. reflexivity.
  - destruct t as [|d t]; [exists []; simpl; rewrite app_nil_r; reflexivity|].
    simpl in Hn. cbn [Py.digitpart_tail].
    destruct (Py.isdigit d).
    + destruct (IH t (d :: acc) ltac:(lia)) as [more E]. rewrite E.
      exists (d :: more). simpl. rewrite <- app_assoc. reflexivity.
    + destruct (Py.eqc d "_");
        [|exists []; simpl; rewrite app_nil_r; reflexivity].
      destruct t as [|d' t];
        [exists []; simpl; rewrite app_nil_r; reflexivity|].
      destruct (Py.isdigit d');
        [|exists []; simpl; rewrite app_nil_r; reflexivity].
      destruct (IH t (d' :: acc) ltac:(simpl in Hn; lia)) as [more E].
      rewrite E. exists (d' :: more). simpl. rewrite <- app_assoc.
      reflexivity.
Qed.

Lemma digitpart_none s ds rest :
  Py.digitpart s = (ds, rest) -> ds = [] -> rest = s.
Proof.
  unfold Py.digitpart. destruct s as [|c s]; [intros H; inversion H; auto|].
  destruct (Py.isdigit c) eqn:E.
  - intros H ->. exfalso.
    destruct (digitpart_tail_acc (length s) s [c] (le_n _)) as [more E'].
    rewrite H in E'. simpl in E'. discriminate.
  - intros H _. inversion H. reflexivity.
Qed.

Lemma number_digit u ip fp rest :
  Py.number u = Some (ip, fp, rest) -> has_digit u = true.
Proof.
  unfold Py.number. destruct (Py.digitpart u) as [ip' r1] eqn:D.
  destruct ip' as [|i ip'].
  - rewrite (digitpart_none _ _ _ D eq_refl).
    destruct u as [|c r2]; [discriminate|].
    destruct (Py.eqc c "."); [|discriminate].
    destruct (Py.digitpart r2) as [fp' r3] eqn:D2.
    destruct fp' as [|f fp']; [discriminate|]. intros _.
    assert (H : has_digit r2 = true)
      by (eapply digitpart_digit; [exact D2|discriminate]).
    unfold has_digit in *. simpl. rewrite H. apply orb_true_r.
  - intros _. eapply digitpart_digit; [exact D|discriminate].
Qed.

(** On digits and points [float] gives a finite decimal that is not
    negative, or nothing. *)
Lemma float_plain s x :
  forallb digit_or_dot s = true -> Py.float s = Some x ->
  finite_nonneg x /\ has_digit s = true.
Proof.
  intros Hs. rewrite <- (has_digit_strip s).
  assert (Hu : forallb digit_or_dot (Py.strip s) = true)
    by (eapply forallb_piece; [apply strip_piece|exact Hs]).
  unfold Py.float. destruct (Py.strip s) as [|c u] eqn:Eu.
  - vm_compute. discriminate.
  - simpl in Hu. apply andb_true_iff in Hu. destruct Hu as [Hc _].
    apply digit_or_dot_char in Hc. destruct Hc as [H1 [H2 [H3 H4]]].
    unfold Py.sign. rewrite H1, H2.
    cbn [map Py.str_eqb list_ascii_of_string]. rewrite H3, H4.
    cbn [andb orb].
    destruct (Py.number (c :: u)) as [[[ip fp] rest]|] eqn:N; [|discriminate].
    destruct (Py.exponent rest); [|discriminate].
    intros H. inversion H. split.
    + destruct (decimal_finite false (ip ++ fp)
                  (z - Z.of_nat (length fp))) as [m [e E]].
      exists m, e. exact E.
    + eapply number_digit. exact N.
Qed.

Lemma amountc_cases c :
  amountc c = true -> Py.eqc c "," = false -> digit_or_dot c = true.
Proof.
  unfold amountc, digit_or_dot. intros H E. rewrite E in H.
  rewrite orb_false_r in H. exact H.
Qed.

Lemma forallb_filter {A} (p q : A -> bool) l :
  forallb p l = true -> forallb p (filter q l) = true.
Proof.
  induction l as [|x l IH]; simpl; [reflexivity|].
  intros H. apply andb_true_iff in H. destruct H as [Hx Hl].
  destruct (q x); simpl; [rewrite Hx|]; auto.
Qed.

Lemma forallb_map_point d s :
  forallb amountc s = true ->
  (d = Dot -> appears Comma s = false) ->
  forallb digit_or_dot
          (map (fun c => if is_sep d c then "."%char else c) s) = true.
Proof.
  intros H Hd. induction s as [|c s IH]; [reflexivity|].
  simpl in H. apply andb_true_iff in H. destruct H as [Hc Hs].
  cbn [map forallb]. rewrite IH.
  - rewrite andb_true_r. destruct (is_sep d c) eqn:E; [reflexivity|].
    apply amountc_cases; [exact Hc|].
    destruct d; [exact E|].
    specialize (Hd eq_refl). simpl in Hd. apply orb_false_iff in Hd.
    destruct Hd as [Hd _]. exact Hd.
  - exact Hs.
  - intros ->. specialize (Hd eq_refl). simpl in Hd.
    apply orb_false_iff in Hd. destruct Hd as [_ Hd]. exact Hd.
Qed.

Lemma appears_filter_other d s :
  appears (other d) (filter (fun c => negb (is_sep (other d) c)) s) = false.
Proof.
  unfold appears. induction s as [|c s IH]; [reflexivity|]. simpl.
  destruct (is_sep (other d) c) eqn:E; simpl; [exact IH|].
  rewrite E, IH. reflexivity.
Qed.

(** The separators rewritten, a token is made of digits and points. *)
Lemma normalize_token tok :
  forallb amountc tok = true ->
  forallb digit_or_dot (normalize_separators tok) = true.
Proof.
  intros H. rewrite normalize_separators_spec.
  assert (Ht : forallb amountc (trim_spaces tok) = true).
  { unfold trim_spaces. apply forallb_filter.
    eapply forallb_piece; [apply strip_piece|exact H]. }
  generalize dependent (trim_spaces tok). clear H tok. intros t Ht.
  unfold decimal_point.
  destruct (appears Comma t && appears Dot t) eqn:B.
  - destruct (later_of t None) as [d|] eqn:L.
    + unfold with_decimal. apply forallb_map_point.
      * apply forallb_filter. exact Ht.
      * intros ->. apply (appears_filter_other Dot).
    + apply later_of_none in L. destruct L as [L _].
      rewrite L in B. discriminate.
  - destruct (appears Comma t) eqn:C.
    + apply (forallb_map_point Comma); [exact Ht|discriminate].
    + rewrite <- (map_id_dot t). apply (forallb_map_point Dot); [exact Ht|].
      intros _. exact C.
Qed.

Lemma take_digits_plain s : forallb digit_or_dot (take_digits s) = true.
Proof.
  induction s as [|c s IH]; simpl; [reflexivity|].
  destruct (Py.isdigit c) eqn:E; [|reflexivity]. simpl.
  unfold digit_or_dot at 1. rewrite E. exact IH.
Qed.

Lemma number_at_plain s : forallb digit_or_dot (number_at s) = true.
Proof.
  unfold number_at. rewrite forallb_app, take_digits_plain.
  destruct (drop_digits s) as [|c rest]; [reflexivity|].
  destruct (Py.eqc c ".") eqn:E; [|reflexivity].
  assert (G : forall n l, forallb digit_or_dot l = true ->
                          forallb digit_or_dot (firstn n l) = true).
  { induction n as [|n IHn]; intros [|x l] Hl; simpl in *; auto.
    apply andb_true_iff in Hl. destruct Hl as [-> Hl]. simpl. auto. }
  pose proof (G 2 _ (take_digits_plain rest)) as F.
  destruct (firstn 2 (take_digits rest)) as [|f frac]; [reflexivity|].
  change (forallb digit_or_dot (c :: f :: frac))
    with (digit_or_dot c && forallb digit_or_dot (f :: frac)).
  rewrite F. unfold digit_or_dot. rewrite E, orb_true_r. reflexivity.
Qed.

Lemma first_number_plain s w :
  first_number s = Some w -> forallb digit_or_dot w = true.
Proof.
  induction s as [|c s IH]; simpl; [discriminate|].
  destruct (Py.isdigit c); [|exact IH]. intros H. inversion H.
  apply number_at_plain.
Qed.

(** An amount token normalises to a finite decimal that is not negative
    when it has a digit, and to [None] when it has none. *)
Lemma norm_amount_token tok :
  forallb amountc tok = true ->
  match norm_amount (Some tok) with
  | Some x => finite_nonneg x /\ has_digit tok = true
  | None => has_digit tok = false
  end.
Proof.
  intros H. destruct (norm_amount (Some tok)) as [x|] eqn:E.
  - rewrite norm_amount_spec in E. unfold AmountNormalizer in E.
    cbv zeta in E. rewrite <- normalize_separators_spec in E.
    rewrite <- (has_digit_normalize tok).
    pose proof (normalize_token tok H) as Hn.
    destruct (Py.float (normalize_separators tok)) as [y|] eqn:F.
    + inversion E. subst y. apply (float_plain _ _ Hn F).
    + destruct (first_number (normalize_separators tok)) as [w|] eqn:W;
        [|discriminate].
      split.
      * apply (float_plain w x); [|exact E].
        eapply first_number_plain. exact W.
      * destruct (has_digit (normalize_separators tok)) eqn:D;
          [reflexivity|].
        exfalso. clear -W D. unfold has_digit in D.
        induction (normalize_separators tok) as [|c s IH];
          simpl in *; [discriminate|].
        apply orb_false_iff in D. destruct D as [D1 D2].
        rewrite D1 in W. auto.
  - destruct (has_digit tok) eqn:D; [|reflexivity].
    exfalso. apply (norm_amount_digit tok D). exact E.
Qed.

End FiniteFacts.

Module RowAmountFacts.
Import Re ReFacts SearchFacts MatchFacts ScanFacts AssembleFacts ShapeFacts
       TokenFacts FiniteFacts.

Lemma amount_of_finite r s x :
  In r amount_patterns -> amount_of (search r s) = Some x -> finite_nonneg x.
Proof.
  intros Hr. unfold amount_of.
  destruct (search r s) as [m|] eqn:E; [|discriminate].
  destruct (amount_token r s m Hr E) as [Ht _].
  pose proof (norm_amount_token _ Ht) as N. intros H.
  unfold str in *. rewrite H in N. apply N.
Qed.

Lemma amounts_finite_nil : amounts_finite [].
Proof. intros k x H. discriminate. Qed.

Lemma amounts_finite_set d k v :
  amounts_finite d -> (forall x, v = VNum x -> finite_nonneg x) ->
  amounts_finite (dict_set d k v).
Proof.
  intros Hd Hv k' x H. rewrite dict_get_set in H.
  destruct (String.eqb k k'); [inversion H; auto|eauto].
Qed.

Lemma amounts_finite_update e : forall d,
  amounts_finite d ->
  Forall (fun kv => forall x, snd kv = VNum x -> finite_nonneg x) e ->
  amounts_finite (dict_update d e).
Proof.
  unfold dict_update. induction e as [|[k v] e IH]; intros d Hd He; simpl;
    [exact Hd|].
  inversion He as [|? ? Hv He']; subst. apply IH; [|exact He'].
  apply amounts_finite_set; assumption.
Qed.

Lemma of_str_not_num o x : of_str o = VNum x -> finite_nonneg x.
Proof. destruct o; discriminate. Qed.

Lemma of_num_amount r s x :
  In r amount_patterns -> of_num (amount_of (search r s)) = VNum x ->
  finite_nonneg x.
Proof.
  intros Hr H. destruct (amount_of (search r s)) as [y|] eqn:E;
    [|discriminate].
  inversion H. subst y. eapply amount_of_finite; eassumption.
Qed.

Ltac amount_pattern := unfold amount_patterns; simpl; tauto.

Lemma product_row_amounts m w : amounts_finite (product_row m w).
Proof.
  unfold product_row, dict_lit. cbv zeta.
  apply amounts_finite_update; [apply amounts_finite_nil|].
  repeat constructor; simpl; intros x H; try discriminate.
  - eapply of_str_not_num. exact H.
  - eapply (of_num_amount RE_LINE_SUBTOTAL); [amount_pattern|exact H].
  - eapply (of_num_amount RE_LINE_PLAN_DISCOUNT); [amount_pattern|exact H].
  - eapply (of_num_amount RE_LINE_TOTAL); [amount_pattern|exact H].
Qed.

Lemma split_product_blocks_amounts text :
  Forall amounts_finite (split_product_blocks text).
Proof.
  apply (scan_loop_invariant (Forall amounts_finite) (nonempty_lines text))
    with (fuel := length (nonempty_lines text)) (st := Scan 0 []).
  - intros st H. unfold scan_step.
    destruct (search RE_PRODUCT_NAME_WITH_SUBTOTAL _); simpl; [|assumption].
    apply Forall_app. split; [assumption|].
    constructor; [apply product_row_amounts|constructor].
  - constructor.
  - apply scan_loop_terminates.
Qed.

Lemma backfill_amounts rows tp st :
  (forall x, tp = Some x -> finite_nonneg x) ->
  (forall x, st = Some x -> finite_nonneg x) ->
  Forall amounts_finite rows -> Forall amounts_finite (backfill rows tp st).
Proof.
  intros Htp Hst H. unfold backfill.
  destruct rows as [|r [|r' rows]]; try assumption.
  inversion H as [|? ? Hr _]; subst. constructor; [|constructor].
  assert (A : amounts_finite
                match tp with
                | Some tp0 => if get_is_none r "line_total"
                              then dict_set r "line_total" (VNum tp0) else r
                | None => r
                end).
  { destruct tp as [t|]; [|exact Hr]. destruct (get_is_none r "line_total");
      [|exact Hr]. apply amounts_finite_set; [exact Hr|].
    intros x E. inversion E. subst. auto. }
  destruct st as [s|]; [|exact A].
  destruct (get_is_none _ "line_subtotal"); [|exact A].
  apply amounts_finite_set; [exact A|]. intros x E. inversion E. subst. auto.
Qed.

(** Every number in a row of [parse_invoice_text] is a finite decimal
    that is not negative. *)
Lemma parse_invoice_text_amounts text :
  Forall amounts_finite (parse_invoice_text text).
Proof.
  pose proof (split_product_blocks_amounts text) as HR.
  unfold parse_invoice_text. cbv zeta.
  assert (F : forall r o, In r amount_patterns ->
                forall x, of_num (amount_of (search r o)) = VNum x ->
                          finite_nonneg x)
    by (intros r o Hr x; apply of_num_amount; exact Hr).
  assert (Hsub : forall x, inv_subtotal text = Some x -> finite_nonneg x)
    by (intros x; apply amount_of_finite; amount_pattern).
  assert (Htp : forall x, total_paid text = Some x -> finite_nonneg x)
    by (intros x; apply amount_of_finite; amount_pattern).
  apply (backfill_amounts _ (total_paid text) (inv_subtotal text) Htp Hsub)
    in HR.
  destruct ((length _ =? 0) && truthy (invoice_id text)).
  - constructor; [|constructor]. unfold dict_lit.
    apply amounts_finite_update; [apply amounts_finite_nil|].
    repeat constructor; simpl; intros x H; try discriminate;
      try (eapply of_str_not_num; exact H).
    + apply (F RE_INVOICE_SUBTOTAL text); [amount_pattern|exact H].
    + apply (F RE_PLAN_DISCOUNT_TOT text); [amount_pattern|exact H].
    + apply (F RE_INVOICE_TAX text); [amount_pattern|exact H].
    + apply (F RE_TOTAL_PAID text); [amount_pattern|exact H].
  - apply Forall_map. eapply Forall_impl; [|exact HR].
    intros r Hr. apply amounts_finite_update; [exact Hr|].
    repeat constructor; simpl; intros x H; try discriminate;
      try (eapply of_str_not_num; exact H).
    + apply (F RE_INVOICE_SUBTOTAL text); [amount_pattern|exact H].
    + apply (F RE_PLAN_DISCOUNT_TOT text); [amount_pattern|exact H].
    + apply (F RE_INVOICE_TAX text); [amount_pattern|exact H].
    + apply (F RE_TOTAL_PAID text); [amount_pattern|exact H].
Qed.

End RowAmountFacts.

Module FieldFacts.
Import Re ReFacts SearchFacts MatchFacts ScanFacts AssembleFacts ShapeFacts
       TokenFacts FloatFacts TextFacts.

(** Every row carries the header values of its text. *)
Lemma parse_invoice_text_header text r :
  In r (parse_invoice_text text) ->
  map (dict_get r) header_keys = map Some (header_values text).
Proof.
  pose proof (split_product_blocks_rows text) as HR.
  unfold header_values. unfold parse_invoice_text. cbv zeta.
  generalize (invoice_stat text) (payment_type text) (inv_date text)
             (tax_id text) (plan_disc_tot text) (inv_tax text)
             (invoice_id text).
  intros stat pay dt tax disc itx iid.
  apply (backfill_rows _ (total_paid text) (inv_subtotal text)) in HR.
  generalize dependent (backfill (split_product_blocks text)
                                 (total_paid text) (inv_subtotal text)).
  generalize (total_paid text) (inv_subtotal text). intros tp st rows HR.
  destruct ((length rows =? 0) && truthy iid).
  - intros [<-|[]]. reflexivity.
  - intros H. apply in_map_iff in H. destruct H as [r0 [<- H0]].
    rewrite Forall_forall in HR. apply HR in H0.
    destruct H0 as [v1 [v2 [v3 [v4 [v5 ->]]]]]. reflexivity.
Qed.

Lemma in_matches_alt r1 r2 s a :
  In a (matches (Alt r1 r2) s) <->
  In a (matches r1 s) \/ In a (matches r2 s).
Proof. simpl. apply in_app_iff. Qed.

Lemma upper_lower c : Py.upper_char (Py.lower c) = Py.upper_char c.
Proof. destruct c as [[] [] [] [] [] [] [] []]; reflexivity. Qed.

Lemma upper_starts_with w : forall s,
  starts_with_i w s = true ->
  Py.upper (firstn (length w) s) = Py.upper w.
Proof.
  induction w as [|c w IH]; intros s H; [reflexivity|].
  destruct s as [|d s]; [discriminate|]. simpl in H.
  apply andb_true_iff in H. destruct H as [Hc Hw].
  unfold chr_isi in Hc. apply Ascii.eqb_eq in Hc.
  cbn [length firstn Py.upper map]. f_equal.
  - rewrite <- (upper_lower d), Hc. apply upper_lower.
  - apply IH. exact Hw.
Qed.

(** A status is one of the two words, in capitals. *)
Lemma invoice_stat_values text s :
  invoice_stat text = Some s ->
  s = list_ascii_of_string "PAID" \/ s = list_ascii_of_string "REFUNDED".
Proof.
  unfold invoice_stat. destruct (search RE_STATUS text) as [m|] eqn:E;
    [|discriminate].
  intros H. inversion H as [Hs]. clear H Hs.
  apply search_group in E. destruct E as [k [a [Ha ->]]].
  unfold RE_STATUS in Ha. cbn [cat] in Ha. peel Ha.
  apply in_matches_group in Ha. destruct Ha as [b [Hb ->]].
  apply in_matches_alt in Hb. cbn [fst snd lookup_group Nat.eqb].
  destruct Hb as [Hb|Hb]; apply in_matches_liti in Hb;
    destruct Hb as [-> Hb]; [left|right];
    exact (upper_starts_with _ _ Hb).
Qed.

(** An invoice id has at least 16 characters, all of them hexadecimal
    digits or hyphens. *)
Lemma invoice_id_shape text g :
  invoice_id text = Some g -> 16 <= length g /\ forallb hexdash g = true.
Proof.
  unfold invoice_id. destruct (search RE_INVOICE_ID text) as [m|] eqn:E;
    [|discriminate].
  intros H. inversion H as [Hs]. clear H Hs.
  apply search_group in E. destruct E as [k [a [Ha ->]]].
  unfold RE_INVOICE_ID in Ha. cbn [cat] in Ha. peel Ha.
  apply group_rep in Ha. destruct Ha as [w [-> [Hw [Hl _]]]]. simpl. auto.
Qed.

Lemma alnumdash_nospace c : alnumdash c = true -> Py.isspace c = false.
Proof.
  destruct c as [[] [] [] [] [] [] [] []]; vm_compute; intros H;
    try discriminate H; reflexivity.
Qed.

(** A tax id is a token of letters, digits and hyphens, and is not
    empty. *)
Lemma tax_id_shape text t :
  tax_id text = Some t -> 1 <= length t /\ forallb alnumdash t = true.
Proof.
  unfold tax_id, stripped_of. destruct (search RE_TAXID text) as [m|] eqn:E;
    [|discriminate].
  intros H. inversion H as [Hs]. clear H Hs.
  apply search_group in E. destruct E as [k [a [Ha ->]]].
  unfold RE_TAXID in Ha. cbn [cat] in Ha. peel Ha.
  apply group_rep in Ha. destruct Ha as [w [-> [Hw [Hl _]]]]. simpl.
  rewrite strip_nospace; [auto|].
  rewrite forallb_forall in *. intros c Hc. apply Hw in Hc.
  rewrite (alnumdash_nospace c Hc). reflexivity.
Qed.

End FieldFacts.

Module StripFacts.
Import Re ReFacts SearchFacts MatchFacts ScanFacts ShapeFacts TokenFacts
       FloatFacts TextFacts ProductFacts.

Lemma lstrip_head_clean s : head_clean (Py.lstrip s).
Proof.
  induction s as [|c s IH]; simpl; [exact I|].
  destruct (Py.isspace c) eqn:E; [exact IH|exact E].
Qed.

Lemma lstrip_keeps_last c : forall a,
  Py.isspace c = false ->
  exists u, Py.lstrip (a ++ [c]) = u ++ [c] /\ length u <= length a.
Proof.
  induction a as [|d a IH]; intros Hc.
  - exists []. simpl. rewrite Hc. auto.
  - simpl. destruct (Py.isspace d).
    + destruct (IH Hc) as [u [E L]]. exists u. split; [exact E|lia].
    + exists (d :: a). auto.
Qed.

(** Stripping keeps a first character that is not whitespace. *)
Lemma strip_keeps_head c t :
  Py.isspace c = false ->
  exists u, Py.strip (c :: t) = c :: u /\ length u <= length t.
Proof.
  intros Hc. unfold Py.strip, Py.rstrip. rewrite lstrip_head by exact Hc.
  cbn [rev]. destruct (lstrip_keeps_last c (rev t) Hc) as [u [E L]].
  rewrite E, rev_app_distr. exists (rev u). split; [reflexivity|].
  rewrite length_rev in *. exact L.
Qed.

(** What [strip] returns begins and ends without whitespace. *)
Lemma strip_clean s :
  head_clean (Py.strip s) /\ head_clean (rev (Py.strip s)).
Proof.
  split.
  - pose proof (lstrip_head_clean s) as H. unfold Py.strip.
    destruct (Py.lstrip s) as [|c t]; [exact I|]. simpl in H.
    unfold Py.rstrip. cbn [rev].
    destruct (lstrip_keeps_last c (rev t) H) as [u [E _]].
    rewrite E, rev_app_distr. exact H.
  - unfold Py.strip, Py.rstrip. rewrite rev_involutive.
    apply lstrip_head_clean.
Qed.

(** A payment type has no line feed and no whitespace around it. *)
Lemma payment_type_shape text p :
  payment_type text = Some p ->
  forallb (notc LF) p = true /\ head_clean p /\ head_clean (rev p).
Proof.
  unfold payment_type, stripped_of.
  destruct (search RE_PAYMENT text) as [m|] eqn:E; [|discriminate].
  intros H. inversion H as [Hs]. clear H Hs.
  split; [|apply strip_clean].
  apply search_group in E. destruct E as [k [a [Ha ->]]].
  unfold RE_PAYMENT in Ha. cbn [cat] in Ha. peel Ha.
  apply group_rep in Ha. destruct Ha as [w [-> [Hw _]]]. simpl.
  eapply FiniteFacts.forallb_piece; [apply strip_piece|exact Hw].
Qed.

Lemma alnum_nospace c : alnum c = true -> Py.isspace c = false.
Proof.
  destruct c as [[] [] [] [] [] [] [] []]; vm_compute; intros H;
    try discriminate H; reflexivity.
Qed.

(** The name of a product block begins with a letter or a digit and has
    at most 81 characters. *)
Lemma product_name_shape m s :
  search RE_PRODUCT_NAME_WITH_SUBTOTAL s = Some m ->
  exists c u, Py.strip (group m 1) = c :: u /\ alnum c = true /\
              length u <= 80.
Proof.
  intros E. apply search_group in E. destruct E as [k [a [Ha ->]]].
  rewrite RE_PRODUCT_NAME_WITH_SUBTOTAL_eq in Ha.
  apply in_matches_seq in Ha. destruct Ha as [a1 [a2 [H1 [H2 ->]]]].
  apply in_matches_group in H1. destruct H1 as [b [Hb ->]].
  apply in_matches_seq in Hb. destruct Hb as [b1 [b2 [H3 [H4 ->]]]].
  apply in_matches_rep in H4. destruct H4 as [n [-> [_ Hn]]].
  simpl in H3. destruct (skipn k s) as [|c t] eqn:Es; [contradiction|].
  destruct (alnum c) eqn:Ec; [|contradiction].
  destruct H3 as [<-|[]]. cbn [fst snd app lookup_group Nat.eqb Nat.add firstn].
  destruct (strip_keeps_head c (firstn n t) (alnum_nospace c Ec))
    as [u [Eu Lu]].
  exists c, u. split; [exact Eu|]. split; [exact Ec|].
  rewrite length_firstn in Lu. unfold cap in Hn.
  pose proof (Nat.le_min_l 80 (span any (skipn (fst (1, @nil (nat * str))) (c :: t)))).
  unfold str in *. lia.
Qed.

End StripFacts.

Module BoundFacts.
Import Re ReFacts SearchFacts MatchFacts ScanFacts TextFacts ProductFacts.

(** What holds of the state at the start and is kept by every turn taken
    below the end of the lines holds of the state the loop stops in. *)
Lemma scan_loop_state_invariant (P : scan -> Prop) lines :
  (forall st, cursor st < length lines -> P st -> P (scan_step lines st)) ->
  forall fuel st out,
    P st -> scan_loop fuel lines st = Some out ->
    exists st', P st' /\ rows st' = out /\ length lines <= cursor st'.
Proof.
  intros Hstep. induction fuel as [|fuel IH]; intros st out HP H;
    rewrite scan_loop_unfold in H;
    destruct (cursor st <? length lines) eqn:E; try discriminate.
  - apply Nat.ltb_ge in E. inversion H. eauto.
  - apply Nat.ltb_lt in E. eapply IH; [|exact H]. auto.
  - apply Nat.ltb_ge in E. inversion H. eauto.
Qed.

(** Each row uses up six lines: the rows number at most a sixth of the
    lines, rounded up. *)
Lemma split_product_blocks_bound text :
  6 * length (split_product_blocks text) <= length (nonempty_lines text) + 5.
Proof.
  destruct (scan_loop_state_invariant
              (fun st => 6 * length (rows st) <= cursor st /\
                         cursor st <= length (nonempty_lines text) + 5)
              (nonempty_lines text))
    with (fuel := length (nonempty_lines text)) (st := Scan 0 [])
         (out := split_product_blocks text)
    as [st' [[H1 H2] [Hr _]]].
  - intros st Hlt [H1 H2]. unfold scan_step.
    destruct (search RE_PRODUCT_NAME_WITH_SUBTOTAL _); simpl.
    + rewrite length_app. simpl. lia.
    + lia.
  - simpl. lia.
  - apply scan_loop_terminates.
  - rewrite <- Hr. lia.
Qed.

Lemma starts_with_i_length w : forall s,
  starts_with_i w s = true -> length w <= length s.
Proof.
  induction w as [|c w IH]; intros s H; [simpl; lia|].
  destruct s as [|d s]; [discriminate|]. simpl in *.
  apply andb_true_iff in H. destruct H as [_ H]. apply IH in H. lia.
Qed.

Lemma matches_liti_seq w r s :
  matches (Seq (liti w) r) s =
  if starts_with_i w s
  then map (fun b => (length w + fst b, snd b)) (matches r (skipn (length w) s))
  else [].
Proof.
  simpl. rewrite matches_liti. destruct (starts_with_i w s); [|reflexivity].
  simpl. rewrite app_nil_r. reflexivity.
Qed.

(** Where the subtotal pattern matches, the total pattern matches three
    characters further on and captures the same token. *)
Lemma subtotal_total_same s a l :
  matches RE_LINE_SUBTOTAL s = a :: l ->
  exists a' l', matches RE_LINE_TOTAL (skipn 3 s) = a' :: l' /\
                snd a' = snd a.
Proof.
  rewrite RE_LINE_SUBTOTAL_eq, RE_LINE_TOTAL_eq, !matches_liti_seq.
  destruct (starts_with_i "Subtotal" s) eqn:E; [|discriminate].
  rewrite (starts_with_subtotal_total s E). rewrite skipn_skipn.
  change (length (list_ascii_of_string "Total") + 3) with 8.
  change (length (list_ascii_of_string "Subtotal")) with 8.
  destruct (matches (amount_tail 1) (skipn 8 s)) as [|b bs]; [discriminate|].
  simpl. intros H. inversion H. eexists. eexists. split; reflexivity.
Qed.

(** If nothing before the first match of the subtotal pattern reads as a
    total, the total pattern captures the subtotal's own token. *)
Lemma total_is_subtotal w ms :
  search RE_LINE_SUBTOTAL w = Some ms ->
  no_match_before RE_LINE_TOTAL w (m_start ms + 3) ->
  exists mt, search RE_LINE_TOTAL w = Some mt /\
             m_start mt = m_start ms + 3 /\ group mt 1 = group ms 1.
Proof.
  intros Hs Hno. apply search_from_some in Hs.
  destruct Hs as [k [a [l [Hk [_ [Hm ->]]]]]].
  cbn [m_start Nat.add] in Hno |- *.
  destruct (subtotal_total_same _ _ _ Hm) as [a' [l' [Hm' Ec]]].
  rewrite skipn_skipn in Hm'.
  assert (Hlen : 3 + k <= length w).
  { rewrite RE_LINE_SUBTOTAL_eq, matches_liti_seq in Hm.
    destruct (starts_with_i "Subtotal" (skipn k w)) eqn:E; [|discriminate].
    apply starts_with_i_length in E. rewrite length_skipn in E.
    simpl in E. lia. }
  assert (Ew : search RE_LINE_TOTAL w
               = search_from RE_LINE_TOTAL
                   (firstn (3 + k) w ++ skipn (3 + k) w) 0)
    by (rewrite firstn_skipn; reflexivity).
  rewrite Ew. rewrite search_from_skip.
  - rewrite (search_from_hit _ _ _ _ _ Hm'). eexists. split; [reflexivity|].
    cbn [m_start]. rewrite length_firstn. split; [lia|].
    unfold group. cbn [m_groups]. rewrite Ec. reflexivity.
  - rewrite firstn_skipn, length_firstn.
    intros q Hq. apply Hno. lia.
Qed.

End BoundFacts.

Module SwapFacts.
Import Re SpecAmount AmountFacts NormFacts.

Lemma swap_sep_char c :
  Py.isspace (swap_sep c) = Py.isspace c /\
  Py.eqc (swap_sep c) " " = Py.eqc c " " /\
  is_sep Comma (swap_sep c) = is_sep Dot c /\
  is_sep Dot (swap_sep c) = is_sep Comma c /\
  (is_sep Comma c = false -> is_sep Dot c = false -> swap_sep c = c) /\
  (is_sep Comma c = true -> c = ","%char) /\
  (is_sep Dot c = true -> c = "."%char).
Proof.
  destruct c as [[] [] [] [] [] [] [] []]; vm_compute;
    repeat split; intros; try reflexivity; discriminate.
Qed.

Lemma lstrip_swap s : Py.lstrip (map swap_sep s) = map swap_sep (Py.lstrip s).
Proof.
  induction s as [|c s IH]; [reflexivity|]. cbn [map Py.lstrip].
  destruct (swap_sep_char c) as [-> _].
  destruct (Py.isspace c); [exact IH|reflexivity].
Qed.

Lemma strip_swap s : Py.strip (map swap_sep s) = map swap_sep (Py.strip s).
Proof.
  unfold Py.strip, Py.rstrip.
  rewrite lstrip_swap, <- map_rev, lstrip_swap, map_rev. reflexivity.
Qed.

Lemma trim_spaces_swap s :
  trim_spaces (map swap_sep s) = map swap_sep (trim_spaces s).
Proof.
  unfold trim_spaces. rewrite strip_swap. generalize (Py.strip s).
  intros t. induction t as [|c t IH]; [reflexivity|]. cbn [map filter].
  destruct (swap_sep_char c) as [_ [-> _]].
  destruct (negb (Py.eqc c " ")); cbn [map]; rewrite IH; reflexivity.
Qed.

Lemma appears_swap d t : appears d (map swap_sep t) = appears (other d) t.
Proof.
  unfold appears. induction t as [|c t IH]; [reflexivity|]. simpl.
  rewrite IH. destruct (swap_sep_char c) as [_ [_ [E1 [E2 _]]]].
  destruct d; simpl; [rewrite E1|rewrite E2]; reflexivity.
Qed.

Lemma later_of_swap t : forall seen,
  later_of (map swap_sep t) (option_map other seen)
  = option_map other (later_of t seen).
Proof.
  induction t as [|c t IH]; intros seen; [reflexivity|]. cbn [map later_of].
  destruct (swap_sep_char c) as [_ [_ [E1 [E2 [_ [C1 C2]]]]]].
  rewrite E1, E2.
  destruct (is_sep Comma c) eqn:HC, (is_sep Dot c) eqn:HD.
  - rewrite (C1 eq_refl) in HD. discriminate.
  - apply (IH (Some Comma)).
  - apply (IH (Some Dot)).
  - apply IH.
Qed.

Lemma with_decimal_swap d t :
  with_decimal (other d) (map swap_sep t) = with_decimal d t.
Proof.
  unfold with_decimal. induction t as [|c t IH]; [reflexivity|].
  cbn [map filter].
  destruct (swap_sep_char c) as [_ [_ [E1 [E2 [E3 [C1 C2]]]]]].
  destruct d; cbn [other] in *.
  - (* the decimal separator of [t] is the comma *)
    rewrite E1. destruct (is_sep Dot c) eqn:HD; cbn [negb].
    + exact IH.
    + cbn [map]. rewrite IH, E2.
      destruct (is_sep Comma c) eqn:HC; [reflexivity|].
      rewrite E3 by auto. reflexivity.
  - rewrite E2. destruct (is_sep Comma c) eqn:HC; cbn [negb].
    + exact IH.
    + cbn [map]. rewrite IH, E1.
      destruct (is_sep Dot c) eqn:HD; [reflexivity|].
      rewrite E3 by auto. reflexivity.
Qed.

Lemma to_point_swap_only d t :
  appears (other d) t = false ->
  map (fun c => if is_sep (other d) c then "."%char else c) (map swap_sep t)
  = map (fun c => if is_sep d c then "."%char else c) t.
Proof.
  induction t as [|c t IH]; [reflexivity|]. simpl. intros H.
  apply orb_false_iff in H. destruct H as [Hc Ht].
  rewrite IH by exact Ht. f_equal.
  destruct (swap_sep_char c) as [_ [_ [E1 [E2 [E3 _]]]]].
  destruct d; cbn [other] in *.
  - rewrite E2. destruct (is_sep Comma c) eqn:HC; [reflexivity|].
    rewrite E3 by auto. reflexivity.
  - rewrite E1. destruct (is_sep Dot c) eqn:HD; [reflexivity|].
    rewrite E3 by auto. reflexivity.
Qed.

Lemma swap_none t :
  appears Comma t = false -> appears Dot t = false -> map swap_sep t = t.
Proof.
  induction t as [|c t IH]; [reflexivity|]. simpl. intros H1 H2.
  apply orb_false_iff in H1. apply orb_false_iff in H2.
  destruct H1 as [C1 T1], H2 as [C2 T2]. rewrite IH by assumption. f_equal.
  destruct (swap_sep_char c) as [_ [_ [_ [_ [E3 _]]]]]. auto.
Qed.

Lemma decimal_point_swap t :
  decimal_point (map swap_sep t) = decimal_point t.
Proof.
  unfold decimal_point. rewrite !appears_swap. cbn [other].
  destruct (appears Comma t) eqn:C, (appears Dot t) eqn:D; cbn [andb].
  - pose proof (later_of_swap t None) as L. cbn [option_map] in L.
    rewrite L. destruct (later_of t None) as [d|] eqn:E; cbn [option_map].
    + apply with_decimal_swap.
    + apply later_of_none in E. destruct E as [E _]. congruence.
  - rewrite <- (map_id_dot (map swap_sep t)).
    apply (to_point_swap_only Comma t D).
  - pose proof (to_point_swap_only Dot t C) as H. cbn [other] in H.
    rewrite H. apply map_id_dot.
  - apply swap_none; assumption.
Qed.

(** [norm_amount] does not tell the comma from the point. *)
Lemma norm_amount_swap s :
  norm_amount (Some (map swap_sep s)) = norm_amount (Some s).
Proof.
  rewrite !norm_amount_spec. unfold AmountNormalizer. cbv zeta.
  rewrite trim_spaces_swap, decimal_point_swap. reflexivity.
Qed.

End SwapFacts.

Module MainFacts.
Import Re ReFacts SearchFacts MatchFacts ScanFacts AssembleFacts FieldFacts.





End MainFacts.

(** * Lines of a text *)

Module LinesFacts.
Import FloatFacts NormFacts TextFacts FiniteFacts StripFacts.

Lemma str_eqb_eq a : forall b, Py.str_eqb a b = true <-> a = b.
Proof.
  induction a as [|c a IH]; intros [|d b]; simpl; split; intros H;
    try reflexivity; try discriminate.
  - apply andb_true_iff in H. destruct H as [H1 H2].
    apply Ascii.eqb_eq in H1. apply IH in H2. subst. reflexivity.
  - injection H as -> ->. apply andb_true_iff. split.
    + apply Ascii.eqb_refl.
    + apply IH. reflexivity.
Qed.

Lemma str_eqb_neq a b : Py.str_eqb a b = false <-> a <> b.
Proof.
  split.
  - intros H E. apply str_eqb_eq in E. congruence.
  - intros H. destruct (Py.str_eqb a b) eqn:E; [|reflexivity].
    apply str_eqb_eq in E. contradiction.
Qed.

Lemma splitlines_aux_line l : forall s cur,
  no_linebreak l = true ->
  Py.splitlines_aux (l ++ s) cur = Py.splitlines_aux s (rev l ++ cur).
Proof.
  induction l as [|c l IH]; intros s cur H; [reflexivity|].
  unfold no_linebreak in H. simpl in H. apply andb_true_iff in H.
  destruct H as [Hc Hl]. cbn [app Py.splitlines_aux].
  destruct (Py.islinebreak c); [discriminate|].
  rewrite (IH s (c :: cur) Hl). simpl. rewrite <- app_assoc. reflexivity.
Qed.

Lemma splitlines_line l :
  l <> [] -> no_linebreak l = true -> Py.splitlines l = [l].
Proof.
  intros Hn Hl. unfold Py.splitlines.
  rewrite <- (app_nil_r l) at 1. rewrite splitlines_aux_line by assumption.
  rewrite app_nil_r. simpl. destruct (rev l) eqn:E.
  - apply (f_equal (@rev ascii)) in E. rewrite rev_involutive in E.
    contradiction.
  - rewrite <- E, rev_involutive. reflexivity.
Qed.

(** Lines joined by line feeds split into the same lines. *)
Lemma splitlines_join ls :
  Forall (fun l => l <> [] /\ no_linebreak l = true) ls ->
  Py.splitlines (Py.join [LF] ls) = ls.
Proof.
  induction ls as [|p ps IH]; intros H; [reflexivity|].
  inversion H as [|? ? [Hp Hl] Hps]; subst.
  destruct ps as [|q ps].
  - simpl. apply splitlines_line; assumption.
  - specialize (IH Hps).
    change (Py.join [LF] (p :: q :: ps))
      with (p ++ [LF] ++ Py.join [LF] (q :: ps)).
    inversion Hps as [|? ? [Hq _] _]; subst.
    assert (J : Py.join [LF] (q :: ps) <> []).
    { destruct q as [|c q]; [contradiction|]. destruct ps; discriminate. }
    unfold Py.splitlines in *. remember (Py.join [LF] (q :: ps)) as j.
    rewrite splitlines_aux_line by assumption. rewrite app_nil_r.
    cbn [app Py.splitlines_aux]. rewrite rev_involutive.
    change (Py.islinebreak LF) with true. cbv iota.
    destruct j as [|d rest]; [contradiction|].
    change (Py.ord LF =? 13) with false. cbn [andb].
    rewrite IH. reflexivity.
Qed.

Lemma splitlines_aux_no_linebreak n : forall s cur l,
  length s <= n -> no_linebreak cur = true ->
  In l (Py.splitlines_aux s cur) -> no_linebreak l = true.
Proof.
  assert (R : forall cur, no_linebreak cur = true ->
                          no_linebreak (rev cur) = true).
  { intros cur H. unfold no_linebreak. rewrite forallb_rev. exact H. }
  induction n as [|n IH]; intros s cur l Hn Hc Hin.
  - destruct s; [|simpl in Hn; lia]. simpl in Hin.
    destruct cur as [|c cur]; [contradiction|].
    destruct Hin as [<-|[]]. apply R. exact Hc.
  - destruct s as [|c s].
    + simpl in Hin. destruct cur as [|c cur]; [contradiction|].
      destruct Hin as [<-|[]]. apply R. exact Hc.
    + simpl in Hn. cbn [Py.splitlines_aux] in Hin.
      destruct (Py.islinebreak c) eqn:Eb.
      * destruct Hin as [<-|Hin]; [apply R; exact Hc|].
        destruct s as [|d s]; [contradiction|].
        destruct ((Py.ord c =? 13) && (Py.ord d =? 10)).
        -- apply IH in Hin; [exact Hin|simpl in Hn; lia|reflexivity].
        -- apply IH in Hin; [exact Hin|lia|reflexivity].
      * apply IH in Hin; [exact Hin|lia|].
        unfold no_linebreak. simpl. rewrite Eb. exact Hc.
Qed.

Lemma splitlines_no_linebreak text l :
  In l (Py.splitlines text) -> no_linebreak l = true.
Proof.
  apply (splitlines_aux_no_linebreak (length text)); [lia|reflexivity].
Qed.

Lemma lstrip_clean l : head_clean l -> Py.lstrip l = l.
Proof.
  destruct l as [|c l]; [reflexivity|]. simpl. intros ->. reflexivity.
Qed.

Lemma strip_clean_line l :
  head_clean l -> head_clean (rev l) -> Py.strip l = l.
Proof.
  intros H1 H2. unfold Py.strip, Py.rstrip.
  rewrite (lstrip_clean l H1), (lstrip_clean _ H2). apply rev_involutive.
Qed.

(** Every line the segmenter works on is clean. *)
Lemma nonempty_lines_clean text l :
  In l (nonempty_lines text) -> clean_line l.
Proof.
  unfold nonempty_lines. intros H. apply in_map_iff in H.
  destruct H as [l0 [<- H]]. apply filter_In in H. destruct H as [H N].
  split; [|split].
  - apply negb_true_iff in N. apply str_eqb_neq. exact N.
  - unfold no_linebreak. apply (forallb_piece _ _ l0).
    + apply strip_piece.
    + apply (splitlines_no_linebreak text). exact H.
  - apply strip_clean.
Qed.

Lemma nonempty_lines_join ls :
  Forall clean_line ls -> nonempty_lines (Py.join [LF] ls) = ls.
Proof.
  intros H. unfold nonempty_lines. rewrite splitlines_join.
  - induction H as [|l ls [Hn [_ [H1 H2]]] _ IH]; [reflexivity|].
    cbn [filter]. rewrite (strip_clean_line l H1 H2).
    apply str_eqb_neq in Hn. rewrite Hn. cbn [negb map].
    rewrite (strip_clean_line l H1 H2). f_equal. exact IH.
  - eapply Forall_impl; [|exact H]. intros l [Hn [Hl _]]. auto.
Qed.

Lemma nonempty_lines_round_trip text :
  nonempty_lines (Py.join [LF] (nonempty_lines text)) = nonempty_lines text.
Proof.
  apply nonempty_lines_join. apply Forall_forall. intros l.
  apply nonempty_lines_clean.
Qed.

End LinesFacts.

(** * Invoice ids *)

Module IdFacts.
Import ReFacts MatchFacts FloatFacts NormFacts ShapeFacts LinesFacts.

Lemma span_forallb p s : span p s = length s <-> forallb p s = true.
Proof.
  induction s as [|c s IH]; simpl; [tauto|]. destruct (p c); simpl.
  - rewrite <- IH. lia.
  - split; [lia|discriminate].
Qed.

Lemma hexdash_char c :
  hexdash c = true -> Py.isspace c = false /\ Py.islinebreak c = false.
Proof.
  destruct c as [[] [] [] [] [] [] [] []]; vm_compute; intros H;
    try discriminate H; split; reflexivity.
Qed.

Lemma hexdash_nospace x :
  forallb hexdash x = true ->
  forallb (fun c => negb (Py.isspace c)) x = true /\ no_linebreak x = true.
Proof.
  unfold no_linebreak. induction x as [|c x IH]; simpl; [auto|]. intros H.
  apply andb_true_iff in H. destruct H as [Hc Hx].
  destruct (hexdash_char c Hc) as [-> ->]. simpl. auto.
Qed.

(** On a string that does not end in whitespace, the pattern of an id
    accepts the strings of at least 16 hexadecimal digits and hyphens. *)
Lemma is_id_clean x :
  head_clean (rev x) ->
  (is_id x = true <-> 16 <= length x /\ forallb hexdash x = true).
Proof.
  intros Hc. unfold is_id. rewrite existsb_exists. split.
  - intros [a [Ha Hd]]. apply in_matches_rep in Ha.
    destruct Ha as [n [-> [Hlo Hhi]]]. cbn [fst cap] in *.
    pose proof (span_le hexdash x) as Hs.
    pose proof (length_skipn n x) as Hl.
    destruct (skipn n x) as [|c [|c' r]] eqn:E; simpl in Hd;
      [|exfalso|discriminate].
    + simpl in Hl. split; [lia|]. apply span_forallb. lia.
    + apply Ascii.eqb_eq in Hd. subst c.
      rewrite <- (firstn_skipn n x), E, rev_app_distr in Hc.
      simpl in Hc. vm_compute in Hc. discriminate.
  - intros [Hl Hf]. exists (length x, []). split.
    + apply in_matches_rep. exists (length x). split; [reflexivity|].
      cbn [cap]. apply span_forallb in Hf. lia.
    + cbn [fst]. rewrite skipn_all. reflexivity.
Qed.

Lemma existsb_str_eqb x d : existsb (Py.str_eqb x) d = true <-> In x d.
Proof.
  rewrite existsb_exists. split.
  - intros [y [Hy E]]. apply str_eqb_eq in E. subst. exact Hy.
  - intros H. exists x. split; [exact H|]. apply str_eqb_eq. reflexivity.
Qed.

Lemma nodup_snoc (d : list str) x : NoDup d -> ~ In x d -> NoDup (d ++ [x]).
Proof.
  intros Hd Hx. induction Hd as [|y d Hy Hd IH]; simpl.
  - constructor; [intros []|constructor].
  - constructor.
    + rewrite in_app_iff. intros [H|[H|[]]]; [contradiction|].
      subst. apply Hx. left. reflexivity.
    + apply IH. intros H. apply Hx. right. exact H.
Qed.

Section Fromkeys.
Let step (d : list str) (x : str) : list str :=
  if existsb (Py.str_eqb x) d then d else d ++ [x].

Lemma fromkeys_acc_in ids : forall d x,
  In x (fold_left step ids d) <-> In x d \/ In x ids.
Proof.
  induction ids as [|y ids IH]; intros d x; simpl; [tauto|].
  rewrite IH. unfold step. destruct (existsb (Py.str_eqb y) d) eqn:E.
  - apply existsb_str_eqb in E. split; [tauto|].
    intros [H|[<-|H]]; auto.
  - rewrite in_app_iff. simpl. tauto.
Qed.

Lemma fromkeys_acc_nodup ids : forall d,
  NoDup d -> NoDup (fold_left step ids d).
Proof.
  induction ids as [|y ids IH]; intros d H; simpl; [exact H|].
  apply IH. unfold step. destruct (existsb (Py.str_eqb y) d) eqn:E;
    [exact H|].
  apply nodup_snoc; [exact H|]. intros Hin. apply existsb_str_eqb in Hin.
  congruence.
Qed.

Lemma fromkeys_acc_id ids : forall d,
  NoDup (d ++ ids) -> fold_left step ids d = d ++ ids.
Proof.
  induction ids as [|y ids IH]; intros d H; simpl;
    [rewrite app_nil_r; reflexivity|].
  assert (N : existsb (Py.str_eqb y) d = false).
  { destruct (existsb (Py.str_eqb y) d) eqn:E; [|reflexivity].
    apply existsb_str_eqb in E. apply NoDup_remove_2 in H.
    exfalso. apply H. apply in_app_iff. left. exact E. }
  unfold step at 2. rewrite N. rewrite IH; rewrite <- app_assoc;
    [reflexivity|exact H].
Qed.
End Fromkeys.

Lemma fromkeys_in ids x : In x (fromkeys ids) <-> In x ids.
Proof. unfold fromkeys. rewrite fromkeys_acc_in. simpl. tauto. Qed.

Lemma fromkeys_nodup ids : NoDup (fromkeys ids).
Proof. apply fromkeys_acc_nodup. constructor. Qed.

Lemma fromkeys_id ids : NoDup ids -> fromkeys ids = ids.
Proof. intros H. apply (fromkeys_acc_id ids []). exact H. Qed.

Lemma collect_ids_in text x :
  In x (collect_ids_from_txt text) <->
  exists ln, In ln (Py.splitlines text) /\ Py.strip ln = x /\
             16 <= length x /\ forallb hexdash x = true.
Proof.
  unfold collect_ids_from_txt. rewrite fromkeys_in, filter_In, in_map_iff.
  split.
  - intros [[ln [E H]] Hid]. exists ln. split; [exact H|].
    split; [exact E|]. apply is_id_clean; [|exact Hid].
    subst x. apply StripFacts.strip_clean.
  - intros [ln [H [E Hs]]]. split; [exists ln; auto|].
    apply is_id_clean; [|exact Hs]. subst x. apply StripFacts.strip_clean.
Qed.

Lemma collect_ids_shape text x :
  In x (collect_ids_from_txt text) ->
  16 <= length x /\ forallb hexdash x = true.
Proof. intros H. apply collect_ids_in in H. destruct H as [? [? [? ?]]]. auto. Qed.

Lemma filter_all {A} (p : A -> bool) l :
  (forall x, In x l -> p x = true) -> filter p l = l.
Proof.
  induction l as [|x l IH]; intros H; simpl; [reflexivity|].
  rewrite (H x) by (left; reflexivity). f_equal. apply IH.
  intros y Hy. apply H. right. exact Hy.
Qed.

Lemma map_all {A} (f : A -> A) l :
  (forall x, In x l -> f x = x) -> map f l = l.
Proof.
  induction l as [|x l IH]; intros H; simpl; [reflexivity|].
  rewrite (H x) by (left; reflexivity). f_equal. apply IH.
  intros y Hy. apply H. right. exact Hy.
Qed.

(** A list of ids without repetition, one per line, is read back as it
    is. *)
Lemma collect_ids_join ids :
  NoDup ids ->
  (forall x, In x ids -> 16 <= length x /\ forallb hexdash x = true) ->
  collect_ids_from_txt (Py.join [LF] ids) = ids.
Proof.
  intros Hn Hs. unfold collect_ids_from_txt. rewrite splitlines_join.
  - rewrite map_all.
    + rewrite filter_all; [apply fromkeys_id; exact Hn|].
      intros x Hx. destruct (Hs x Hx) as [Hl Hf]. apply is_id_clean; [|auto].
      destruct (hexdash_nospace x Hf) as [Hsp _].
      rewrite <- forallb_rev in Hsp. destruct (rev x) as [|c r]; simpl; [exact I|].
      simpl in Hsp. apply andb_true_iff in Hsp. destruct Hsp as [Hc _].
      destruct (Py.isspace c); [discriminate|reflexivity].
    + intros x Hx. apply strip_nospace. apply hexdash_nospace.
      apply (Hs x Hx).
  - apply Forall_forall. intros x Hx. destruct (Hs x Hx) as [Hl Hf]. split.
    + destruct x; [simpl in Hl; lia|discriminate].
    + apply hexdash_nospace. exact Hf.
Qed.

End IdFacts.

(** * The download loop *)

Module DownloadFacts.
Import LinesFacts IdFacts.

Lemma read_write_other fs name name' b :
  name' <> name ->
  read_bytes (write_bytes fs name' b) name = read_bytes fs name.
Proof.
  intros N. apply str_eqb_neq in N.
  induction fs as [|f fs IH]; simpl; [rewrite N; reflexivity|].
  destruct (Py.str_eqb (fst f) name') eqn:E; simpl.
  - apply str_eqb_eq in E. rewrite E, N. reflexivity.
  - rewrite IH. reflexivity.
Qed.

Lemma read_write_same fs name b :
  file_exists fs name = false ->
  read_bytes (write_bytes fs name b) name = Some b.
Proof.
  induction fs as [|f fs IH]; simpl; intros H.
  - assert (E : Py.str_eqb name name = true) by (apply str_eqb_eq; reflexivity).
    rewrite E. reflexivity.
  - apply orb_false_iff in H. destruct H as [H1 H2]. rewrite H1. simpl.
    rewrite H1. apply IH. exact H2.
Qed.

Lemma file_exists_read fs name :
  file_exists fs name = false <-> read_bytes fs name = None.
Proof.
  induction fs as [|f fs IH]; simpl; [tauto|].
  destruct (Py.str_eqb (fst f) name); simpl; [|exact IH].
  split; discriminate.
Qed.

Lemma write_new fs name b :
  file_exists fs name = false -> write_bytes fs name b = fs ++ [(name, b)].
Proof.
  induction fs as [|f fs IH]; simpl; intros H; [reflexivity|].
  apply orb_false_iff in H. destruct H as [H1 H2]. rewrite H1, IH by exact H2.
  reflexivity.
Qed.

Lemma write_keeps fs name name' b b' :
  file_exists fs name' = false -> read_bytes fs name = Some b ->
  read_bytes (write_bytes fs name' b') name = Some b.
Proof.
  intros He Hr. rewrite read_write_other; [exact Hr|].
  intros ->. apply file_exists_read in He. congruence.
Qed.

Lemma invoice_file_inj a b : invoice_file a = invoice_file b -> a = b.
Proof.
  unfold invoice_file. intros H. apply app_inv_head in H.
  apply app_inv_tail in H. exact H.
Qed.

Lemma pdf_url_inj a b : pdf_url a = pdf_url b -> a = b.
Proof.
  unfold pdf_url. intros H. apply app_inv_head in H.
  apply app_inv_tail in H. exact H.
Qed.

Section Loop.
Variable get : nat -> str -> response.
Variable limit : option Z.

(** A file that is there keeps its contents. *)
Lemma download_loop_keeps name b ids : forall i st,
  read_bytes (run_files st) name = Some b ->
  read_bytes (run_files (download_loop get limit i ids st)) name = Some b.
Proof.
  induction ids as [|inv ids IH]; intros i st H; simpl; [exact H|].
  destruct (limit_reached limit (run_done st)); [exact H|].
  destruct (file_exists (run_files st) (invoice_file inv)) eqn:E;
    [apply IH; exact H|].
  destruct (get i (pdf_url inv)) as [[] body| |w]; apply IH; simpl;
    try exact H; apply write_keeps; assumption.
Qed.



(** The counter grows by one for each file it counts, and stays within a
    positive limit. *)
Lemma download_loop_count ids : forall i st,
  let r := download_loop get limit i ids st in
  (run_done st <= run_done r)%Z /\
  (run_done r - run_done st
   <= Z.of_nat (length (run_files r)) - Z.of_nat (length (run_files st)))%Z /\
  ((forall k u w, get k u <> Broke w) ->
   (run_done r - run_done st
    = Z.of_nat (length (run_files r)) - Z.of_nat (length (run_files st)))%Z) /\
  (forall l, limit = Some l -> (0 < l)%Z -> (run_done st <= l)%Z ->
             (run_done r <= l)%Z).
Proof.
  induction ids as [|inv ids IH]; intros i st; cbv zeta.
  - simpl. repeat split; intros; lia.
  - cbn [download_loop].
    destruct (limit_reached limit (run_done st)) eqn:L.
    { repeat split; intros; lia. }
    destruct (file_exists (run_files st) (invoice_file inv)) eqn:E.
    { apply IH. }
    destruct (get i (pdf_url inv)) as [[] body| |w] eqn:G.
    + pose proof (IH (S i) (Run (run_done st + 1)
                  (write_bytes (run_files st) (invoice_file inv) body)
                  (run_requests st ++ [pdf_url inv]))) as H.
      cbv zeta in H. cbn [run_done run_files] in H.
      rewrite (write_new _ _ body E) in *. rewrite length_app in H.
      cbn [length] in H. destruct H as [H1 [H2 [H3 H4]]].
      split; [lia|]. split; [lia|]. split.
      * intros B. specialize (H3 B). lia.
      * intros l -> Hl Hd. apply (H4 l eq_refl Hl).
        unfold limit_reached in L. apply andb_false_iff in L.
        destruct L as [L|L].
        -- apply negb_false_iff, Z.eqb_eq in L. lia.
        -- apply Z.leb_gt in L. lia.
    + apply (IH (S i) (Run (run_done st) (run_files st)
                         (run_requests st ++ [pdf_url inv]))).
    + apply (IH (S i) (Run (run_done st) (run_files st)
                         (run_requests st ++ [pdf_url inv]))).
    + pose proof (IH (S i) (Run (run_done st)
                  (write_bytes (run_files st) (invoice_file inv) w)
                  (run_requests st ++ [pdf_url inv]))) as H.
      cbv zeta in H. cbn [run_done run_files] in H.
      rewrite (write_new _ _ w E) in *. rewrite length_app in H.
      cbn [length] in H. destruct H as [H1 [H2 [H3 H4]]].
      split; [lia|]. split; [lia|]. split.
      * intros B. exfalso. exact (B _ _ _ G).
      * exact H4.
Qed.


(** A request is made only for an id of the list whose file is not
    there. *)
Lemma download_loop_requested u ids : forall i st,
  In u (run_requests (download_loop get limit i ids st)) ->
  In u (run_requests st) \/
  exists inv, In inv ids /\ u = pdf_url inv /\
              file_exists (run_files st) (invoice_file inv) = false.
Proof.
  assert (W : forall fs n n' b,
             file_exists fs n' = false ->
             file_exists (write_bytes fs n' b) n = false ->
             file_exists fs n = false).
  { intros fs n n' b E H. rewrite (write_new _ _ _ E) in H.
    unfold file_exists in *. rewrite existsb_app in H.
    apply orb_false_iff in H. tauto. }
  induction ids as [|x ids IH]; intros i st H; [left; exact H|].
  cbn [download_loop] in H.
  destruct (limit_reached limit (run_done st)); [left; exact H|].
  destruct (file_exists (run_files st) (invoice_file x)) eqn:E.
  - apply IH in H. destruct H as [H|[inv [H1 [H2 H3]]]]; [left; exact H|].
    right. exists inv. split; [right; exact H1|auto].
  - assert (S1 : forall st', run_requests st' = run_requests st ++ [pdf_url x] ->
                 (forall n, file_exists (run_files st') n = false ->
                            file_exists (run_files st) n = false) ->
                 In u (run_requests (download_loop get limit (S i) ids st')) ->
                 In u (run_requests st) \/
                 exists inv, In inv (x :: ids) /\ u = pdf_url inv /\
                   file_exists (run_files st) (invoice_file inv) = false).
    { intros st' Hr Hf H'. apply IH in H'.
      destruct H' as [H'|[inv [H1 [H2 H3]]]].
      - rewrite Hr in H'. apply in_app_iff in H'.
        destruct H' as [H'|[<-|[]]]; [left; exact H'|].
        right. exists x. split; [left; reflexivity|auto].
      - right. exists inv. split; [right; exact H1|].
        split; [exact H2|]. apply Hf. exact H3. }
    destruct (get i (pdf_url x)) as [[] body| |w];
      (eapply S1; [| |exact H]; [reflexivity|]); simpl; intros n Hn;
      try exact Hn; eapply W; eassumption.
Qed.

(** What a file holds after the loop it held before, or a pass through
    the [try] body for an id of the list wrote it. *)
Lemma download_loop_contents name b ids : forall i st,
  read_bytes (run_files (download_loop get limit i ids st)) name = Some b ->
  read_bytes (run_files st) name = Some b \/
  exists k inv, nth_error ids k = Some inv /\ name = invoice_file inv /\
                (get (i + k) (pdf_url inv) = Resp true b \/
                 get (i + k) (pdf_url inv) = Broke b).
Proof.
  induction ids as [|x ids IH]; intros i st H; [left; exact H|].
  cbn [download_loop] in H.
  destruct (limit_reached limit (run_done st)); [left; exact H|].
  assert (N : forall st',
             read_bytes (run_files (download_loop get limit (S i) ids st'))
                        name = Some b ->
             read_bytes (run_files st') name = Some b \/
             exists k inv, nth_error (x :: ids) k = Some inv /\
               name = invoice_file inv /\
               (get (i + k) (pdf_url inv) = Resp true b \/
                get (i + k) (pdf_url inv) = Broke b)).
  { intros st' H'. apply IH in H'.
    destruct H' as [H'|[k [inv [H1 [H2 H3]]]]]; [left; exact H'|].
    right. exists (S k), inv. split; [exact H1|]. split; [exact H2|].
    replace (i + S k) with (S i + k) by lia. exact H3. }
  destruct (file_exists (run_files st) (invoice_file x)) eqn:E;
    [apply N; exact H|].
  assert (Wr : forall w,
             read_bytes (write_bytes (run_files st) (invoice_file x) w) name
             = Some b ->
             (name = invoice_file x /\ w = b) \/
             read_bytes (run_files st) name = Some b).
  { intros w Hw. destruct (Py.str_eqb (invoice_file x) name) eqn:Q.
    - apply str_eqb_eq in Q. subst name.
      rewrite (read_write_same _ _ w E) in Hw. left. split; congruence.
    - apply str_eqb_neq in Q. rewrite read_write_other in Hw by exact Q.
      right. exact Hw. }
  destruct (get i (pdf_url x)) as [[] body| |w] eqn:G; apply N in H;
    cbn [run_files] in H; try exact H;
    (destruct H as [H|H]; [|right; exact H]); apply Wr in H;
    (destruct H as [[-> ->]|H]; [|left; exact H]); right; exists 0, x;
    rewrite Nat.add_0_r; auto.
Qed.

End Loop.

Lemma limit_negative l ids get i st :
  (l < 0)%Z -> (0 <= run_done st)%Z ->
  download_loop get (Some l) i ids st = st.
Proof.
  intros Hl Hd. destruct ids as [|x ids]; [reflexivity|]. simpl.
  assert (E : (l =? 0)%Z = false) by (apply Z.eqb_neq; lia).
  assert (F : (l <=? run_done st)%Z = true) by (apply Z.leb_le; lia).
  rewrite E, F. reflexivity.
Qed.

End DownloadFacts.

(** * The claims *)

Import Re ReFacts SearchFacts ScanFacts MatchFacts AssembleFacts.

(** C1. The number of rows [parse_invoice_text] returns is
    [max(1, number of line items)], except that it is 0 when no line item
    was detected and [invoice_id] is [None]; with no line item and an
    [invoice_id], the single row has [None] in the five line-item fields. *)
Theorem C1_record_count (text : str) :
  let n := length (split_product_blocks text) in
  length (parse_invoice_text text) =
    (if (n =? 0) && is_none (invoice_id text) then 0 else Nat.max 1 n)
  /\ (n = 0 -> invoice_id text <> None ->
      exists r, parse_invoice_text text = [r] /\ line_fields_null r).
Proof.
  intros n. subst n. header_vars text.
  rewrite backfill_length, invoice_id_truthy.
  destruct (split_product_blocks text) as [|r rows] eqn:E; cbn [length].
  - simpl. destruct (invoice_id text) as [g|]; simpl.
    + split; [reflexivity|]. intros _ _. eexists. split; [reflexivity|].
      intros k Hk. simpl in Hk.
      repeat (destruct Hk as [<-|Hk]; [reflexivity|]). contradiction.
    + split; [reflexivity|]. intros _ H. contradiction H. reflexivity.
  - cbn [Nat.eqb andb]. rewrite length_map, backfill_length.
    split; [reflexivity|]. intros H. discriminate.
Qed.

Lemma C1_record_count_witness :
  exists r, parse_invoice_text doc_header_only = [r] /\ line_fields_null r.
Proof.
  apply (proj2 (C1_record_count doc_header_only)).
  - vm_compute. reflexivity.
  - vm_compute. discriminate.
Defined.

(** C2. The code falls short of the claim.  On a document with one
    product block that has a subtotal line of 49.00 and no total line, and
    a total paid of 42.00, the only row has a [line_total] of 49.00, not
    42.00: the total pattern finds the letters "total" of "Subtotal", three
    characters into the first match of the subtotal pattern, so the item's
    [line_total] is not [None] and the backfill from [total_paid], which
    the assembler has for this case, is not carried out. *)
Theorem C2_block_without_total :
  let lines := nonempty_lines doc_block_no_total in
  let w := window lines 0 25 in
  filter (starts_with_i "Total") lines
    = [list_ascii_of_string "Total paid (USD) $42.00"] /\
  total_paid doc_block_no_total = Some amount_42 /\
  (exists ms mt,
     search RE_LINE_SUBTOTAL w = Some ms /\
     search RE_LINE_TOTAL w = Some mt /\
     m_start mt = m_start ms + 3 /\
     group mt 1 = list_ascii_of_string "49.00") /\
  (exists r, split_product_blocks doc_block_no_total = [r] /\
             dict_get r "line_total" = Some (VNum amount_49)) /\
  (exists r', parse_invoice_text doc_block_no_total = [r'] /\
              dict_get r' "line_total" = Some (VNum amount_49) /\
              dict_get r' "line_total" <> Some (VNum amount_42) /\
              dict_get r' "invoice_total_paid" = Some (VNum amount_42)).
Proof.
  cbv zeta. split; [vm_compute; reflexivity|].
  split; [vm_compute; reflexivity|]. split; [|split].
  - eexists. eexists. split; [vm_compute; reflexivity|].
    split; [vm_compute; reflexivity|]. split; vm_compute; reflexivity.
  - eexists. split; [vm_compute; reflexivity|]. vm_compute. reflexivity.
  - eexists. split; [vm_compute; reflexivity|].
    split; [vm_compute; reflexivity|].
    split; [vm_compute; discriminate|]. vm_compute. reflexivity.
Qed.

Import KeyFacts.

(** C3 (amended). Every row [parse_invoice_text] returns has exactly the
    fourteen header and line-item keys, and every row [main] hands on has
    exactly those and the key [_source_file], which carries the reference
    to the source document: no key missing, none extra, none twice. *)
Theorem C3_row_keys (pdf text : str) :
  (forall r, In r (parse_invoice_text text) -> Permutation (keys r) row_keys)
  /\ (forall r, In r (main_rows pdf text) ->
        Permutation (keys r) written_keys /\
        dict_get r "_source_file" = Some (VStr pdf)).
Proof.
  assert (A : forall r, In r (parse_invoice_text text) ->
                        Permutation (keys r) row_keys).
  { intros r H. apply parse_invoice_text_keys in H. destruct H as [-> | ->].
    - apply Permutation_refl.
    - apply line_header_keys_perm. }
  split; [exact A|]. intros r H. unfold main_rows in H.
  apply in_map_iff in H. destruct H as [r0 [<- H0]].
  split; [|rewrite dict_get_set; reflexivity].
  pose proof (A r0 H0) as P.
  rewrite keys_dict_set_absent.
  - unfold written_keys. apply Permutation_app_tail. exact P.
  - intros Hin. apply (Permutation_in _ P) in Hin. simpl in Hin.
    repeat (destruct Hin as [Hin|Hin]; [discriminate|]). contradiction.
Qed.

Lemma C3_row_keys_witness :
  Permutation
    (keys (hd [] (main_rows "invoice.pdf" doc_header_only))) written_keys /\
  dict_get (hd [] (main_rows "invoice.pdf" doc_header_only)) "_source_file"
  = Some (VStr "invoice.pdf").
Proof.
  apply (proj2 (C3_row_keys "invoice.pdf" doc_header_only)).
  vm_compute. left. reflexivity.
Defined.

(** C3, as stated, fails: the row of a document that has only an invoice
    id carries no key [source_document_reference]. *)
Lemma C3_counterexample :
  exists r, In r (main_rows "invoice.pdf" doc_header_only) /\
            dict_get r "source_document_reference" = None /\
            ~ Permutation (keys r) contract_keys.
Proof.
  exists (hd [] (main_rows "invoice.pdf" doc_header_only)).
  split; [vm_compute; left; reflexivity|].
  split; [vm_compute; reflexivity|].
  intros P. apply Permutation_sym in P.
  apply (Permutation_in "source_document_reference"%string) in P.
  - vm_compute in P.
    repeat (destruct P as [P|P]; [discriminate|]). contradiction.
  - unfold contract_keys. apply in_or_app. right. left. reflexivity.
Qed.



Import SpecAmount AmountFacts NumberFacts NumberSearch FloatFacts NormFacts.


Import DateFacts.

(** C5. [parse_date] tries the entries of [DATE_PATTERNS] in order, the
    long month name before the abbreviated one; each entry offers the ISO
    form of what its format reads in the pattern's first match, and the
    first entry that offers a date decides; when none does the result is
    [None].  A text whose first match of the long pattern is
    "Date: March 5, 2023" gives "2023-03-05", and a text without the label
    "Date:" gives [None]. *)
Theorem C5_parse_date :
  (forall text,
     parse_date text
     = first_some (map (fun p => date_by (fst p) (snd p) text) DATE_PATTERNS))
  /\ map fst DATE_PATTERNS = ["%B %d, %Y"; "%b %d, %Y"]%string
  /\ (forall text s,
        parse_date text = Some s ->
        exists d, Datetime.valid_date (Datetime.year d) (Datetime.month d)
                                      (Datetime.day d) = true /\
                  s = Datetime.isoformat d)
  /\ (forall pre post,
        no_match_before (date_rx 0) (pre ++ march_5 ++ post) (length pre) ->
        parse_date (pre ++ march_5 ++ post)
        = Some (list_ascii_of_string "2023-03-05"))
  /\ (forall text,
        occurs_i "Date:" text = false -> parse_date text = None).
Proof.
  split; [intros text; apply parse_date_in_first_some|].
  split; [reflexivity|]. split; [|split].
  - intros text s. unfold parse_date.
    generalize DATE_PATTERNS. intros pats.
    induction pats as [|[fmt rx] pats IH]; simpl; [discriminate|].
    destruct (search rx text) as [m|]; [|exact IH].
    destruct (Datetime.strptime (group m 1) fmt) as [d|] eqn:E; [|exact IH].
    intros H. inversion H. exists d. split; [|reflexivity].
    eapply strptime_valid. exact E.
  - intros pre post Hno.
    assert (C : closed (date_rx 0) march_5 = true) by (vm_compute; reflexivity).
    assert (E : earliest (date_rx 0) pre (march_5 ++ post)).
    { split; [exact Hno|]. rewrite (matches_closed _ _ post C).
      vm_compute. discriminate. }
    apply search_earliest_some in E. destruct E as [m [Em Eg]].
    assert (V : value_at (date_rx 0) (march_5 ++ post)
                = Some (list_ascii_of_string "March 5, 2023")).
    { unfold value_at, re_match. rewrite (matches_closed _ _ post C).
      vm_compute. reflexivity. }
    rewrite V in Eg.
    unfold parse_date, DATE_PATTERNS. cbn [parse_date_in].
    change (cat [liti "Date:"; star ws;
                 Group 1 (cat [plus Py.isalpha; liti " ";
                               Rep true Py.isdigit 1 (Some 2); liti ", ";
                               Rep true Py.isdigit 4 (Some 4)])])
      with (date_rx 0).
    rewrite Em.
    assert (G : group m 1 = list_ascii_of_string "March 5, 2023").
    { inversion Eg. reflexivity. }
    rewrite G. vm_compute. reflexivity.
  - intros text H. unfold parse_date, DATE_PATTERNS. cbn [parse_date_in cat].
    unfold search. rewrite !search_liti_absent by exact H. reflexivity.
Qed.

Lemma C5_parse_date_witness :
  parse_date (list_ascii_of_string "Invoice" ++ march_5 ++ [LF])
  = Some (list_ascii_of_string "2023-03-05").
Proof.
  apply (proj1 (proj2 (proj2 (proj2 C5_parse_date)))
           (list_ascii_of_string "Invoice") [LF]).
  intros q Hq.
  do 7 (destruct q as [|q]; [vm_compute; reflexivity|]).
  simpl in Hq. lia.
Defined.

(** C10 (amended). A search reports the earliest match of its pattern and
    nothing of what follows it, so each of the eight header fields that
    has one pattern takes its value from the earliest match of that
    pattern, whatever later matches say, with no error and no
    reconciliation.  The date has two patterns: each offers only its
    earliest match, and the date is that of the first pattern, in the
    order of [DATE_PATTERNS], whose earliest match its format can read. *)
Theorem C10_earliest_match (pre rest : str) :
  (forall r, earliest r pre rest ->
     option_map (fun m => group m 1) (search r (pre ++ rest))
     = value_at r rest)
  /\ (earliest RE_INVOICE_ID pre rest ->
      invoice_id (pre ++ rest) = value_at RE_INVOICE_ID rest)
  /\ (earliest RE_STATUS pre rest ->
      invoice_stat (pre ++ rest)
      = option_map Py.upper (value_at RE_STATUS rest))
  /\ (earliest RE_PAYMENT pre rest ->
      payment_type (pre ++ rest)
      = option_map Py.strip (value_at RE_PAYMENT rest))
  /\ (earliest RE_TAXID pre rest ->
      tax_id (pre ++ rest) = option_map Py.strip (value_at RE_TAXID rest))
  /\ (earliest RE_INVOICE_SUBTOTAL pre rest ->
      inv_subtotal (pre ++ rest)
      = amount_at (value_at RE_INVOICE_SUBTOTAL rest))
  /\ (earliest RE_PLAN_DISCOUNT_TOT pre rest ->
      plan_disc_tot (pre ++ rest)
      = amount_at (value_at RE_PLAN_DISCOUNT_TOT rest))
  /\ (earliest RE_INVOICE_TAX pre rest ->
      inv_tax (pre ++ rest) = amount_at (value_at RE_INVOICE_TAX rest))
  /\ (earliest RE_TOTAL_PAID pre rest ->
      total_paid (pre ++ rest) = amount_at (value_at RE_TOTAL_PAID rest))
  /\ (forall fmt rx, In (fmt, rx) DATE_PATTERNS -> earliest rx pre rest ->
      date_by fmt rx (pre ++ rest)
      = match value_at rx rest with
        | Some g => option_map Datetime.isoformat (Datetime.strptime g fmt)
        | None => None
        end)
  /\ inv_date (pre ++ rest)
     = first_some (map (fun p => date_by (fst p) (snd p) (pre ++ rest))
                       DATE_PATTERNS).
Proof.
  assert (G : forall r, earliest r pre rest ->
     exists m, search r (pre ++ rest) = Some m /\
               value_at r rest = Some (group m 1))
    by (intros r; apply search_earliest_some).
  split; [intros r; apply search_earliest_group|].
  repeat split.
  - intros H. destruct (G _ H) as [m [E V]].
    unfold invoice_id. rewrite E, V. reflexivity.
  - intros H. destruct (G _ H) as [m [E V]].
    unfold invoice_stat. rewrite E, V. reflexivity.
  - intros H. destruct (G _ H) as [m [E V]].
    unfold payment_type. rewrite E, V. reflexivity.
  - intros H. destruct (G _ H) as [m [E V]].
    unfold tax_id. rewrite E, V. reflexivity.
  - intros H. destruct (G _ H) as [m [E V]].
    unfold inv_subtotal. rewrite E, V. reflexivity.
  - intros H. destruct (G _ H) as [m [E V]].
    unfold plan_disc_tot. rewrite E, V. reflexivity.
  - intros H. destruct (G _ H) as [m [E V]].
    unfold inv_tax. rewrite E, V. reflexivity.
  - intros H. destruct (G _ H) as [m [E V]].
    unfold total_paid. rewrite E, V. reflexivity.
  - intros fmt rx _ H. destruct (G _ H) as [m [E V]].
    unfold date_by. rewrite E, V. reflexivity.
  - apply parse_date_in_first_some.
Qed.

Lemma C10_earliest_match_witness :
  invoice_id (doc_two_ids_pre ++ doc_two_ids_rest)
  = value_at RE_INVOICE_ID doc_two_ids_rest.
Proof.
  apply (proj1 (proj2 (C10_earliest_match doc_two_ids_pre doc_two_ids_rest))).
  split.
  - intros q Hq.
    do 13 (destruct q as [|q]; [vm_compute; reflexivity|]).
    simpl in Hq. lia.
  - vm_compute. discriminate.
Defined.

(** C10, as stated, fails for the date: the long-month pattern matches at
    position 0 and again at position 20, what it captures at position 0
    is not a date under either format, and the date returned is the one
    written at position 20. *)
Lemma C10_counterexample :
  option_map m_start (search (date_rx 0) doc_two_dates) = Some 0
  /\ value_at (date_rx 0) doc_two_dates
     = Some (list_ascii_of_string "June 31, 2023")
  /\ value_at (date_rx 0) (skipn 20 doc_two_dates)
     = Some (list_ascii_of_string "Jul 4, 2023")
  /\ (forall fmt, In fmt (map fst DATE_PATTERNS) ->
        Datetime.strptime (list_ascii_of_string "June 31, 2023") fmt = None)
  /\ inv_date doc_two_dates = Some (list_ascii_of_string "2023-07-04")
  /\ inv_date doc_two_dates
     <> date_by "%B %d, %Y" (date_rx 0) doc_two_dates.
Proof.
  repeat split; try (vm_compute; reflexivity).
  - intros fmt H. simpl in H.
    destruct H as [<-|[<-|[]]]; vm_compute; reflexivity.
  - vm_compute. discriminate.
Qed.

Import TextFacts ProductFacts.

(** C7. The empty text, any text with no invoice id and no line item,
    and so any text that has neither the label "Invoice ID:" nor the word
    "Subtotal", gives no row; a header field
    whose label does not occur is [None]; an amount or a date that cannot
    be read is [None]; and the one call of [float] outside a [try] is
    given a number and does not raise. *)
Theorem C7_no_label_no_rows :
  parse_invoice_text [] = []
  /\ (forall text,
        invoice_id text = None -> split_product_blocks text = [] ->
        parse_invoice_text text = [])
  /\ (forall text,
        occurs_i "Invoice ID:" text = false ->
        occurs_i "Subtotal" text = false ->
        parse_invoice_text text = [])
  /\ (forall text,
        (occurs_i "Invoice ID:" text = false -> invoice_id text = None) /\
        (occurs_i "Status:" text = false -> invoice_stat text = None) /\
        (occurs_i "Payment type:" text = false -> payment_type text = None) /\
        (occurs_i "Date:" text = false -> inv_date text = None) /\
        (occurs_i "Tax ID:" text = false -> tax_id text = None) /\
        (occurs_i "Invoice" text = false -> inv_subtotal text = None) /\
        (occurs_i "Total" text = false ->
           plan_disc_tot text = None /\ total_paid text = None) /\
        (occurs_i "Tax" text = false -> inv_tax text = None))
  /\ norm_amount (Some (list_ascii_of_string ".")) = None
  /\ parse_date "Date: June 31, 2023" = None
  /\ (forall s m, search RE_NUMBER s = Some m -> Py.float (group m 1) <> None).
Proof.
  split; [vm_compute; reflexivity|].
  split; [intros text Hid Hrows; header_vars text; rewrite Hid, Hrows;
          reflexivity|].
  split; [|split; [|split; [|split]]].
  - intros text Hid Hsub. header_vars text.
    rewrite (no_subtotal_no_rows text Hsub).
    assert (E : invoice_id text = None).
    { unfold invoice_id, RE_INVOICE_ID. cbn [cat]. unfold search.
      rewrite search_liti_absent by exact Hid. reflexivity. }
    rewrite E. reflexivity.
  - intros text.
    assert (A : forall w r, occurs_i w text = false ->
                            search (Seq (liti w) r) text = None)
      by (intros w r H; apply search_liti_absent; exact H).
    split; [intros H; unfold invoice_id, RE_INVOICE_ID; cbn [cat];
            rewrite A by exact H; reflexivity|].
    split; [intros H; unfold invoice_stat, RE_STATUS; cbn [cat];
            rewrite A by exact H; reflexivity|].
    split; [intros H; unfold payment_type, RE_PAYMENT; cbn [cat];
            rewrite A by exact H; reflexivity|].
    split; [intros H; unfold inv_date, parse_date, DATE_PATTERNS;
            cbn [parse_date_in cat]; rewrite !A by exact H; reflexivity|].
    split; [intros H; unfold tax_id, RE_TAXID; cbn [cat];
            rewrite A by exact H; reflexivity|].
    split; [intros H; unfold inv_subtotal, RE_INVOICE_SUBTOTAL; cbn [cat];
            rewrite A by exact H; reflexivity|].
    split; [intros H; unfold plan_disc_tot, RE_PLAN_DISCOUNT_TOT, total_paid,
                             RE_TOTAL_PAID; cbn [cat];
            rewrite !A by exact H; split; reflexivity|].
    intros H; unfold inv_tax, RE_INVOICE_TAX; cbn [cat];
      rewrite A by exact H; reflexivity.
  - vm_compute. reflexivity.
  - vm_compute. reflexivity.
  - intros s m H. apply (first_number_float s).
    rewrite <- (search_number s 0). fold (search RE_NUMBER s). rewrite H.
    reflexivity.
Qed.

Lemma C7_no_label_no_rows_witness :
  parse_invoice_text "Thank you for your purchase" = [].
Proof.
  apply (proj1 (proj2 (proj2 C7_no_label_no_rows))); vm_compute; reflexivity.
Defined.

(** C9 (amended). The total pattern matches inside a match of the
    subtotal pattern, from the letters "total" of "Subtotal" on.  So for
    every detected product block the total pattern has a match in the
    25-line window, [line_total] is [norm_amount] of the token of its
    first match there (which can be the subtotal's own amount), and it is
    not [None] when that token has a digit; for a single such block the
    backfill of [line_total] from the total paid then does not fire. *)
Theorem C9_total_inside_subtotal :
  (forall s, matches RE_LINE_SUBTOTAL s <> [] ->
             matches RE_LINE_TOTAL (skipn 3 s) <> [])
  /\ (forall lines i m,
        search RE_PRODUCT_NAME_WITH_SUBTOTAL (window lines i 12) = Some m ->
        exists mt,
          search RE_LINE_TOTAL (window lines i 25) = Some mt /\
          dict_get (product_row m (window lines i 25)) "line_total"
          = Some (of_num (norm_amount (Some (group mt 1)))) /\
          (has_digit (group mt 1) = true ->
           norm_amount (Some (group mt 1)) <> None))
  /\ (forall text r,
        split_product_blocks text = [r] ->
        exists i mt,
          search RE_LINE_TOTAL (window (nonempty_lines text) i 25) = Some mt /\
          dict_get r "line_total"
          = Some (of_num (norm_amount (Some (group mt 1)))) /\
          (has_digit (group mt 1) = true ->
           exists r', parse_invoice_text text = [r'] /\
                      dict_get r' "line_total" = dict_get r "line_total" /\
                      dict_get r' "line_total" <> Some VNone))
  /\ (exists r', parse_invoice_text doc_block_with_total = [r'] /\
                 dict_get r' "line_subtotal" = Some (VNum amount_49) /\
                 dict_get r' "line_total" = Some (VNum amount_49)).
Proof.
  assert (B : forall lines i m,
        search RE_PRODUCT_NAME_WITH_SUBTOTAL (window lines i 12) = Some m ->
        exists mt,
          search RE_LINE_TOTAL (window lines i 25) = Some mt /\
          dict_get (product_row m (window lines i 25)) "line_total"
          = Some (of_num (norm_amount (Some (group mt 1)))) /\
          (has_digit (group mt 1) = true ->
           norm_amount (Some (group mt 1)) <> None)).
  { intros lines i m H. destruct (name_total lines i m H) as [mt E].
    exists mt. split; [exact E|]. split.
    - unfold product_row. cbv zeta. rewrite E. reflexivity.
    - apply norm_amount_digit. }
  split; [|split; [exact B|split]].
  - intros s H. rewrite RE_LINE_SUBTOTAL_eq in H.
    apply (subtotal_total 1 s H).
  - intros text r H.
    pose proof (split_product_blocks_block_rows text) as HB.
    rewrite H in HB. inversion HB as [|? ? [i [m [Hm Hr]]] _]; subst.
    destruct (B _ _ _ Hm) as [mt [E [G D]]].
    exists i, mt. split; [exact E|]. split; [exact G|].
    intros Hd. destruct (single_row text _ H) as [r' [E' [T _]]].
    exists r'. split; [exact E'|].
    assert (N : get_is_none (product_row m (window (nonempty_lines text) i 25))
                  "line_total" = false).
    { unfold get_is_none. rewrite G.
      destruct (norm_amount (Some (group mt 1))) eqn:En;
        [reflexivity|]. exfalso. apply (D Hd). reflexivity. }
    rewrite N in T.
    assert (T' : dict_get r' "line_total"
                 = dict_get (product_row m (window (nonempty_lines text) i 25))
                     "line_total")
      by (rewrite T; destruct (total_paid text); reflexivity).
    split; [exact T'|]. rewrite T', G.
    destruct (norm_amount (Some (group mt 1))) eqn:En; [discriminate|].
    exfalso. apply (D Hd). reflexivity.
  - eexists. split; [vm_compute; reflexivity|].
    split; vm_compute; reflexivity.
Qed.

Lemma C9_total_inside_subtotal_witness :
  exists i mt,
    search RE_LINE_TOTAL
           (window (nonempty_lines doc_block_with_total) i 25) = Some mt /\
    dict_get (hd [] (split_product_blocks doc_block_with_total)) "line_total"
    = Some (of_num (norm_amount (Some (group mt 1)))) /\
    (has_digit (group mt 1) = true ->
     exists r', parse_invoice_text doc_block_with_total = [r'] /\
                dict_get r' "line_total"
                = dict_get (hd [] (split_product_blocks doc_block_with_total))
                           "line_total" /\
                dict_get r' "line_total" <> Some VNone).
Proof.
  apply (proj1 (proj2 (proj2 C9_total_inside_subtotal))).
  vm_compute. reflexivity.
Defined.

(** C9, as stated, fails: a block is detected, its window has "Subtotal"
    followed by the amount 49.00, and yet [line_total] is [None], because
    the first match of the total pattern captures a token without a digit;
    the backfill then fires and writes the total paid. *)
Lemma C9_counterexample :
  let lines := nonempty_lines doc_total_without_digit in
  search RE_PRODUCT_NAME_WITH_SUBTOTAL (window lines 0 12) <> None
  /\ option_map (fun m => group m 1)
                (search RE_LINE_SUBTOTAL (window lines 0 25))
     = Some (list_ascii_of_string "49.00")
  /\ (exists r, split_product_blocks doc_total_without_digit = [r] /\
                dict_get r "line_total" = Some VNone)
  /\ (exists r', parse_invoice_text doc_total_without_digit = [r'] /\
                 dict_get r' "line_total" = Some (VNum amount_42)).
Proof.
  cbv zeta. split; [vm_compute; discriminate|].
  split; [vm_compute; reflexivity|]. split.
  - eexists. split; vm_compute; reflexivity.
  - eexists. split; vm_compute; reflexivity.
Qed.

Import LineFacts HeaderFacts.

(** C6 (amended). For a document given as lines, each ended by a line
    feed: a header field has the same value on the lines in any order,
    provided that every attempt of each of the field's patterns is
    settled within a single line (label and value stand on one line, and
    no attempt runs over a line break) and that each pattern matches in
    one line at most; under the same condition on the lines, taking away a
    line in which the field's patterns find nothing, such as the line of
    another field, leaves the field's value as it was.  With every header
    pattern so, the nine header values are the same in any order. *)
Theorem C6_header_order (ls ls' : list str) (k : nat) :
  (Permutation ls ls' ->
   (forall r, In r (nth k field_patterns []) -> one_line_field r ls) ->
   nth k (header_values (unlines ls)) VNone
   = nth k (header_values (unlines ls')) VNone)
  /\ (forall a l b,
        ls = a ++ l :: b ->
        (forall r l', In r (nth k field_patterns []) -> In l' ls ->
                      line_local r l' = true) ->
        (forall r, In r (nth k field_patterns []) -> line_value r l = None) ->
        nth k (header_values (unlines ls)) VNone
        = nth k (header_values (unlines (a ++ b))) VNone)
  /\ (Permutation ls ls' ->
      (forall r, In r header_patterns -> one_line_field r ls) ->
      header_values (unlines ls) = header_values (unlines ls')).
Proof.
  assert (P1 : forall j,
    Permutation ls ls' ->
    (forall r, In r (nth j field_patterns []) -> one_line_field r ls) ->
    nth j (header_values (unlines ls)) VNone
    = nth j (header_values (unlines ls')) VNone).
  { intros j P H. apply header_value_found. intros r Hr. unfold found.
    apply one_line_field_perm; [|exact P|apply H; exact Hr].
    apply header_patterns_nonempty. eapply field_patterns_header. exact Hr. }
  split; [apply P1|]. split.
  - intros a l b -> Hloc Hnone. apply header_value_found. intros r Hr.
    unfold found. apply one_line_field_drop.
    + apply header_patterns_nonempty. eapply field_patterns_header. exact Hr.
    + intros l' Hl'. apply Hloc; assumption.
    + apply Hnone. exact Hr.
  - intros P H. apply (nth_ext _ _ VNone VNone); [reflexivity|].
    intros j _. apply P1; [exact P|]. intros r Hr. apply H.
    eapply field_patterns_header. exact Hr.
Qed.

Lemma C6_header_order_witness :
  header_values (unlines lines_complete)
  = header_values (unlines lines_complete').
Proof.
  apply (proj2 (proj2 (C6_header_order lines_complete lines_complete' 0))).
  - exact (Permutation_app_comm
             [list_ascii_of_string "Status: PAID";
              list_ascii_of_string "Tax ID: AB-1"]
             [list_ascii_of_string "Invoice ID: 0123456789abcdef";
              list_ascii_of_string "Tax $1.50"]).
  - intros r Hr. unfold header_patterns in Hr. simpl in Hr.
    repeat (destruct Hr as [<-|Hr];
            [split;
             [intros l Hl; simpl in Hl;
              repeat (destruct Hl as [<-|Hl]; [vm_compute; reflexivity|]);
              contradiction
             |vm_compute; repeat constructor]|]).
    contradiction.
Defined.

(** C6, as stated, fails: three labeled lines, each label once, in two
    orders that differ in the place of the status and tax-id lines only;
    the payment type, whose value is not on its line, is read from
    whichever line comes next, and also changes when the status line is
    taken away. *)
Lemma C6_counterexample :
  Permutation lines_payment_first lines_payment_first'
  /\ (forall w, In w [list_ascii_of_string "Payment type:";
                      list_ascii_of_string "Status:";
                      list_ascii_of_string "Tax ID:"] ->
        length (filter (occurs_i w) lines_payment_first) = 1 /\
        length (filter (occurs_i w) lines_payment_first') = 1)
  /\ payment_type (unlines lines_payment_first)
     = Some (list_ascii_of_string "Status: PAID")
  /\ payment_type (unlines lines_payment_first')
     = Some (list_ascii_of_string "Tax ID: AB-1")
  /\ payment_type (Py.join [LF] lines_payment_first)
     <> payment_type (Py.join [LF] lines_payment_first')
  /\ payment_type (unlines [list_ascii_of_string "Payment type:";
                            list_ascii_of_string "Tax ID: AB-1"])
     <> payment_type (unlines lines_payment_first).
Proof.
  split; [apply perm_skip, perm_swap|].
  split.
  - intros w Hw. simpl in Hw.
    repeat (destruct Hw as [<-|Hw]; [split; vm_compute; reflexivity|]).
    contradiction.
  - split; [vm_compute; reflexivity|]. split; [vm_compute; reflexivity|].
    split; vm_compute; discriminate.
Qed.

(** * Further properties *)

Import ShapeFacts TokenFacts FiniteFacts RowAmountFacts FieldFacts StripFacts
       BoundFacts SwapFacts MainFacts.

(** X1. [norm_amount] does not tell the comma from the point: writing a
    point for every comma and a comma for every point leaves the result
    as it was. *)
Theorem X1_norm_amount_separators_exchanged (s : str) :
  norm_amount (Some (map swap_sep s)) = norm_amount (Some s).
Proof. apply norm_amount_swap. Qed.

(** X2. On a token of digits, points and commas, [norm_amount] gives
    [None] exactly when the token has no digit, and otherwise a number
    that is not negative and not NaN. *)
Theorem X2_norm_amount_token (tok : str) :
  forallb amountc tok = true ->
  match norm_amount (Some tok) with
  | Some x => not_negative x /\ has_digit tok = true
  | None => has_digit tok = false
  end.
Proof.
  intros H. generalize (norm_amount_token tok H). unfold str in *.
  destruct (norm_amount (Some tok)) as [x|]; [|auto].
  intros [[m [e ->]] D]. split; [reflexivity|exact D].
Qed.

Lemma X2_norm_amount_token_witness :
  match norm_amount (Some (list_ascii_of_string "1.2.3,40")) with
  | Some x => not_negative x /\
              has_digit (list_ascii_of_string "1.2.3,40") = true
  | None => has_digit (list_ascii_of_string "1.2.3,40") = false
  end.
Proof.
  apply (X2_norm_amount_token (list_ascii_of_string "1.2.3,40")).
  vm_compute. reflexivity.
Defined.

(** X3. [norm_amount] returns a number, not [None], for every string
    that has a decimal digit, whatever else the string holds. *)
Theorem X3_norm_amount_digit (s : str) :
  has_digit s = true -> norm_amount (Some s) <> None.
Proof. apply norm_amount_digit. Qed.

Lemma X3_norm_amount_digit_witness :
  norm_amount (Some (list_ascii_of_string "approx. USD 12,5 net")) <> None.
Proof.
  apply (X3_norm_amount_digit (list_ascii_of_string "approx. USD 12,5 net")).
  vm_compute. reflexivity.
Defined.

(** X4. Every number in a row of [parse_invoice_text], line amount or
    invoice total, discounts too, is not negative and not NaN. *)
Theorem X4_row_amounts_not_negative (text : str) (r : dict) (k : string)
    (x : Py.pyfloat) :
  In r (parse_invoice_text text) -> dict_get r k = Some (VNum x) ->
  not_negative x.
Proof.
  intros Hr Hk. pose proof (parse_invoice_text_amounts text) as H.
  rewrite Forall_forall in H. destruct (H r Hr k x Hk) as [m [e ->]].
  reflexivity.
Qed.

Lemma X4_row_amounts_not_negative_witness :
  not_negative (Py.Fdec false 49 (-1)).
Proof.
  apply (X4_row_amounts_not_negative doc_full
           (hd [] (parse_invoice_text doc_full)) "line_plan_discount").
  - vm_compute. left. reflexivity.
  - vm_compute. reflexivity.
Defined.

(** X5. Every row of one text carries the same nine header values, those
    read from the text. *)
Theorem X5_rows_share_header (text : str) (r : dict) :
  In r (parse_invoice_text text) ->
  map (dict_get r) header_keys = map Some (header_values text).
Proof. apply parse_invoice_text_header. Qed.

Lemma X5_rows_share_header_witness :
  map (dict_get (hd [] (parse_invoice_text doc_full))) header_keys
  = map Some (header_values doc_full).
Proof.
  apply (X5_rows_share_header doc_full). vm_compute. left. reflexivity.
Defined.

(** X6. An invoice id, when one is found, has at least 16 characters, all
    of them hexadecimal digits or hyphens. *)
Theorem X6_invoice_id_shape (text g : str) :
  invoice_id text = Some g -> 16 <= length g /\ forallb hexdash g = true.
Proof. apply invoice_id_shape. Qed.

Lemma X6_invoice_id_shape_witness :
  16 <= length (list_ascii_of_string "0123456789abcdef") /\
  forallb hexdash (list_ascii_of_string "0123456789abcdef") = true.
Proof.
  apply (X6_invoice_id_shape doc_full). vm_compute. reflexivity.
Defined.

(** X7. An invoice status, when one is found, is the word PAID or the
    word REFUNDED in capitals, in whatever case the text has it. *)
Theorem X7_invoice_status_values (text s : str) :
  invoice_stat text = Some s ->
  s = list_ascii_of_string "PAID" \/ s = list_ascii_of_string "REFUNDED".
Proof. apply invoice_stat_values. Qed.

Lemma X7_invoice_status_values_witness :
  list_ascii_of_string "PAID" = list_ascii_of_string "PAID" \/
  list_ascii_of_string "PAID" = list_ascii_of_string "REFUNDED".
Proof.
  apply (X7_invoice_status_values doc_full). vm_compute. reflexivity.
Defined.

(** X8. A tax id, when one is found, is a token of letters, digits and
    hyphens that is not empty. *)
Theorem X8_tax_id_shape (text t : str) :
  tax_id text = Some t -> 1 <= length t /\ forallb alnumdash t = true.
Proof. apply tax_id_shape. Qed.

Lemma X8_tax_id_shape_witness :
  1 <= length (list_ascii_of_string "ES-B1234") /\
  forallb alnumdash (list_ascii_of_string "ES-B1234") = true.
Proof.
  apply (X8_tax_id_shape doc_full). vm_compute. reflexivity.
Defined.

(** X9. A payment type, when one is found, has no line feed in it and no
    whitespace at its beginning or end. *)
Theorem X9_payment_type_shape (text p : str) :
  payment_type text = Some p ->
  forallb (notc LF) p = true /\ head_clean p /\ head_clean (rev p).
Proof. apply payment_type_shape. Qed.

Lemma X9_payment_type_shape_witness :
  forallb (notc LF) (list_ascii_of_string "Credit Card") = true /\
  head_clean (list_ascii_of_string "Credit Card") /\
  head_clean (rev (list_ascii_of_string "Credit Card")).
Proof.
  apply (X9_payment_type_shape doc_full). vm_compute. reflexivity.
Defined.

(** X10. Every row of [split_product_blocks] has a product name, a string
    that begins with a letter or a digit and has at most 81 characters;
    it is never [None] and never empty. *)
Theorem X10_product_name_shape (text : str) (r : dict) :
  In r (split_product_blocks text) ->
  exists c u, dict_get r "product_name" = Some (VStr (c :: u)) /\
              alnum c = true /\ length u <= 80.
Proof.
  intros H. pose proof (split_product_blocks_block_rows text) as HB.
  rewrite Forall_forall in HB. destruct (HB r H) as [i [m [Hm ->]]].
  destruct (product_name_shape m _ Hm) as [c [u [E [Hc Hu]]]].
  exists c, u. split; [|auto]. unfold product_row. cbv zeta. rewrite E.
  reflexivity.
Qed.

Lemma X10_product_name_shape_witness :
  exists c u,
    dict_get (hd [] (split_product_blocks doc_block_with_total))
             "product_name" = Some (VStr (c :: u)) /\
    alnum c = true /\ length u <= 80.
Proof.
  apply (X10_product_name_shape doc_block_with_total).
  vm_compute. left. reflexivity.
Defined.

(** X11. Each detected block uses up six lines, so [split_product_blocks]
    returns at most a sixth, rounded up, as many rows as the text has
    non-empty lines. *)
Theorem X11_rows_bounded_by_lines (text : str) :
  6 * length (split_product_blocks text) <= length (nonempty_lines text) + 5.
Proof. apply split_product_blocks_bound. Qed.

(** X12. In a product row, when nothing before the first match of the
    subtotal pattern reads as a total, [line_total] is [line_subtotal]:
    the total pattern stops at the letters "total" of "Subtotal" and a
    total line further down is not read. *)
Theorem X12_line_total_is_subtotal (m : match_obj) (w : str)
    (ms : match_obj) :
  search RE_LINE_SUBTOTAL w = Some ms ->
  no_match_before RE_LINE_TOTAL w (m_start ms + 3) ->
  dict_get (product_row m w) "line_total"
  = dict_get (product_row m w) "line_subtotal".
Proof.
  intros Hs Hno. destruct (total_is_subtotal w ms Hs Hno) as [mt [Et [_ Eg]]].
  unfold product_row. cbv zeta. rewrite Hs, Et.
  cbn [amount_of]. rewrite Eg. reflexivity.
Qed.

Lemma X12_line_total_is_subtotal_witness :
  dict_get (product_row (MatchObj 0 0 [])
              (window (nonempty_lines doc_block_with_total) 0 25))
           "line_total"
  = dict_get (product_row (MatchObj 0 0 [])
                (window (nonempty_lines doc_block_with_total) 0 25))
             "line_subtotal".
Proof.
  apply (X12_line_total_is_subtotal _ _
           (MatchObj 29 15 [(1, list_ascii_of_string "49.00")])).
  - vm_compute. reflexivity.
  - intros q Hq. cbn [m_start Nat.add] in Hq.
    do 32 (destruct q as [|q]; [vm_compute; reflexivity|]). lia.
Defined.


Import LinesFacts IdFacts DownloadFacts.

(** X14. [split_product_blocks] sees a text only through its non-empty
    lines, trimmed: the text and those lines joined by line feeds give the
    same rows, so blank lines, indentation and the kind of line break do
    not count. *)
Theorem X14_rows_of_trimmed_lines (text : str) :
  split_product_blocks (Py.join [LF] (nonempty_lines text))
  = split_product_blocks text.
Proof.
  unfold split_product_blocks. rewrite nonempty_lines_round_trip.
  reflexivity.
Qed.

(** X15. [collect_ids_from_txt] returns exactly the trimmed lines of the
    text that have at least 16 characters, all hexadecimal digits of
    either case or hyphens. *)
Theorem X15_collected_ids (text x : str) :
  In x (collect_ids_from_txt text) <->
  exists ln, In ln (Py.splitlines text) /\ Py.strip ln = x /\
             16 <= length x /\ forallb hexdash x = true.
Proof. apply collect_ids_in. Qed.

(** X16. [collect_ids_from_txt] returns no id twice. *)
Theorem X16_collected_ids_distinct (text : str) :
  NoDup (collect_ids_from_txt text).
Proof. apply fromkeys_nodup. Qed.

(** X17. The ids [collect_ids_from_txt] returns, written one per line,
    are read back as the same list in the same order. *)
Theorem X17_collected_ids_round_trip (text : str) :
  collect_ids_from_txt (Py.join [LF] (collect_ids_from_txt text))
  = collect_ids_from_txt text.
Proof.
  apply collect_ids_join.
  - apply fromkeys_nodup.
  - apply collect_ids_shape.
Qed.

(** X18. [download_all] never overwrites: a file that is in the output
    directory before the run has the same contents after it. *)
Theorem X18_download_keeps_files (state_file : bool)
    (get : nat -> str -> response) (ids : list str) (fs : files)
    (limit : option Z) (name b : str) :
  read_bytes fs name = Some b ->
  read_bytes (run_files (download_all state_file get ids fs limit)) name
  = Some b.
Proof.
  intros H. unfold download_all. destruct state_file; [|exact H].
  apply download_loop_keeps. exact H.
Qed.

Lemma X18_download_keeps_files_witness :
  read_bytes (run_files (download_all true get_ok two_ids dir_one None))
             (invoice_file "0123456789abcdef")
  = Some (list_ascii_of_string "old").
Proof.
  apply (X18_download_keeps_files true get_ok two_ids dir_one None).
  vm_compute. reflexivity.
Defined.

(** X19. Under a positive limit [download_all] counts at most that many
    downloads; and when no pass breaks off between writing the file and
    counting it, it adds exactly as many files as it counts. *)
Theorem X19_download_limit (state_file : bool)
    (get : nat -> str -> response) (ids : list str) (fs : files) (l : Z) :
  (0 < l)%Z ->
  let r := download_all state_file get ids fs (Some l) in
  (0 <= run_done r <= l)%Z /\
  ((forall k u w, get k u <> Broke w) ->
   Z.of_nat (length (run_files r)) = (Z.of_nat (length fs) + run_done r)%Z).
Proof.
  intros Hl. cbv zeta. unfold download_all.
  destruct state_file; [|simpl; split; [lia|intros _; lia]].
  pose proof (download_loop_count get (Some l) ids 1 (Run 0 fs [])) as H.
  cbv zeta in H. cbn [run_done run_files] in H.
  destruct H as [H1 [_ [H3 H4]]]. specialize (H4 l eq_refl Hl).
  split; [lia|]. intros B. specialize (H3 B). lia.
Qed.

Lemma X19_download_limit_witness :
  let r := download_all true get_ok two_ids dir_one (Some 1%Z) in
  (0 <= run_done r <= 1)%Z /\
  ((forall k u w, get_ok k u <> Broke w) ->
   Z.of_nat (length (run_files r))
   = (Z.of_nat (length dir_one) + run_done r)%Z).
Proof.
  apply (X19_download_limit true get_ok two_ids dir_one 1). lia.
Defined.



(** X21. With a negative limit [download_all] requests nothing and writes
    nothing. *)
Theorem X21_download_negative_limit (state_file : bool)
    (get : nat -> str -> response) (ids : list str) (fs : files) (l : Z) :
  (l < 0)%Z -> download_all state_file get ids fs (Some l) = Run 0 fs [].
Proof.
  intros H. unfold download_all. destruct state_file; [|reflexivity].
  apply limit_negative; simpl; lia.
Qed.

Lemma X21_download_negative_limit_witness :
  download_all true get_ok two_ids dir_one (Some (-1)%Z) = Run 0 dir_one [].
Proof.
  apply (X21_download_negative_limit true get_ok two_ids dir_one (-1)). lia.
Defined.

(** X22. [download_all] requests only the urls of ids of the list whose
    file was not in the output directory before the run. *)
Theorem X22_download_requests (state_file : bool)
    (get : nat -> str -> response) (ids : list str) (fs : files)
    (limit : option Z) (u : str) :
  In u (run_requests (download_all state_file get ids fs limit)) ->
  exists inv, In inv ids /\ u = pdf_url inv /\
              file_exists fs (invoice_file inv) = false.
Proof.
  unfold download_all. destruct state_file; [|intros []].
  intros H. apply download_loop_requested in H.
  destruct H as [[]|H]. exact H.
Qed.

Lemma X22_download_requests_witness :
  exists inv, In inv two_ids /\
              pdf_url "fedcba9876543210" = pdf_url inv /\
              file_exists dir_one (invoice_file inv) = false.
Proof.
  apply (X22_download_requests true get_ok two_ids dir_one None).
  vm_compute. left. reflexivity.
Defined.

(** X23. What a file of the output directory holds after [download_all],
    it held before the run, or it is what the pass for an id of the list
    wrote into the file of that id: the body of a response that was [ok],
    or what was written when the pass broke off. *)
Theorem X23_download_contents (state_file : bool)
    (get : nat -> str -> response) (ids : list str) (fs : files)
    (limit : option Z) (name b : str) :
  read_bytes (run_files (download_all state_file get ids fs limit)) name
  = Some b ->
  read_bytes fs name = Some b \/
  exists k inv, nth_error ids k = Some inv /\ name = invoice_file inv /\
                (get (1 + k) (pdf_url inv) = Resp true b \/
                 get (1 + k) (pdf_url inv) = Broke b).
Proof.
  unfold download_all. destruct state_file; [|intros H; left; exact H].
  intros H. apply download_loop_contents in H. exact H.
Qed.

Lemma X23_download_contents_witness :
  read_bytes dir_one (invoice_file "fedcba9876543210")
  = Some (list_ascii_of_string "new") \/
  exists k inv, nth_error two_ids k = Some inv /\
                invoice_file "fedcba9876543210" = invoice_file inv /\
                (get_ok (1 + k) (pdf_url inv)
                 = Resp true (list_ascii_of_string "new") \/
                 get_ok (1 + k) (pdf_url inv)
                 = Broke (list_ascii_of_string "new")).
Proof.
  apply (X23_download_contents true get_ok two_ids dir_one None).
  vm_compute. reflexivity.
Defined.


(** X24. The backfill of [parse_invoice_text].  With exactly one product
    row, its [line_total] is [total_paid] when its own is [None] and
    [total_paid] is not, and independently its [line_subtotal] is
    [inv_subtotal] when its own is [None] and [inv_subtotal] is not; the
    other line-item fields and a value that is there stay.  With no product
    row the line-item fields are all [None], and with two or more every row
    keeps its own: nothing is taken from the invoice totals. *)
Theorem X24_backfill_rule (text : str) :
  (forall r, split_product_blocks text = [r] ->
     exists r', parse_invoice_text text = [r'] /\
       dict_get r' "line_total" =
         match total_paid text with
         | Some tp => if get_is_none r "line_total" then Some (VNum tp)
                      else dict_get r "line_total"
         | None => dict_get r "line_total"
         end /\
       dict_get r' "line_subtotal" =
         match inv_subtotal text with
         | Some st => if get_is_none r "line_subtotal" then Some (VNum st)
                      else dict_get r "line_subtotal"
         | None => dict_get r "line_subtotal"
         end /\
       (forall k, k = "product_name"%string \/ k = "deal_plan"%string \/
                  k = "line_plan_discount"%string ->
                  dict_get r' k = dict_get r k))
  /\ (length (split_product_blocks text) = 0 ->
        Forall line_fields_null (parse_invoice_text text))
  /\ (2 <= length (split_product_blocks text) ->
        Forall2 same_line_fields (split_product_blocks text)
                (parse_invoice_text text)).
Proof.
  pose proof (single_row text) as A.
  split; [exact A|]. split.
  - intros H. header_vars text.
    destruct (split_product_blocks text) as [|r rows]; [|discriminate].
    simpl. destruct (truthy (invoice_id text)); constructor; [|constructor].
    intros k Hk. simpl in Hk.
    repeat (destruct Hk as [<-|Hk]; [reflexivity|]). contradiction.
  - intros H. pose proof (split_product_blocks_rows text) as HR. clear A.
    header_vars text. generalize (invoice_id text). intros iid.
    generalize (total_paid text) (inv_subtotal text). intros tp st.
    rewrite backfill_length, backfill_other by lia.
    destruct (length (split_product_blocks text)) eqn:E; [lia|].
    cbn [Nat.eqb andb]. clear E H.
    induction HR as [|x l Hx _ IH]; [constructor|].
    cbn [map]. constructor; [|exact IH].
    destruct Hx as [v1 [v2 [v3 [v4 [v5 ->]]]]].
    intros k Hk. simpl in Hk.
    repeat (destruct Hk as [<-|Hk]; [reflexivity|]). contradiction.
Qed.

Lemma X24_backfill_rule_witness :
  let r := hd [] (split_product_blocks doc_one_block) in
  exists r', parse_invoice_text doc_one_block = [r'] /\
    dict_get r' "line_total" =
      match total_paid doc_one_block with
      | Some tp => if get_is_none r "line_total" then Some (VNum tp)
                   else dict_get r "line_total"
      | None => dict_get r "line_total"
      end /\
    dict_get r' "line_subtotal" =
      match inv_subtotal doc_one_block with
      | Some st => if get_is_none r "line_subtotal" then Some (VNum st)
                   else dict_get r "line_subtotal"
      | None => dict_get r "line_subtotal"
      end /\
    (forall k, k = "product_name"%string \/ k = "deal_plan"%string \/
               k = "line_plan_discount"%string ->
               dict_get r' k = dict_get r k).
Proof.
  apply (proj1 (X24_backfill_rule doc_one_block)
           (hd [] (split_product_blocks doc_one_block))).
  vm_compute. reflexivity.
Defined.
